(** * Ticket inactivity bot: the timer lifecycle engine

    A shallow embedding of the database-backed bot (the file with the
    Mongoose [Ticket] model): the ticket collection, the in-memory [timers]
    map, the timeouts and intervals armed in the JavaScript runtime, the
    listeners [messageCreate], [interactionCreate] and [channelDelete], and
    the recovery listener with the name it is registered under.

    - The state is passed explicitly: the clock, the collection, the
      [timers] map with the timer objects it refers to, the timers armed in
      the runtime, and what the bot has sent.
    - Every handler and every callback is one atomic step.  An exception
      thrown in a handler ends the handler; the state is as the handler
      left it.  What the runtime does with the rejected promise of the
      handler is not modelled.
    - A timer never fires before it is due; among the timers that are due
      any one may fire ([step]).
    - A listener runs when the client emits an event of the name it was
      registered under.  The recovery listener is registered under
      [clientready]; the name under which the client announces that it has
      logged in is the library's and comes with the event of the start.
    - A Mongoose document writes, on [save], the paths that were assigned a
      new value.
    - The statements about single handlers come first, then the runs of the
      program from the start of a process, the body of the recovery
      listener, and the invariant of one run of the process. *)

From Stdlib Require Import ZArith String List Bool Lia.
From stdpp Require Import base decidable option list gmap strings.

Local Open Scope string_scope.
Local Open Scope list_scope.
Local Open Scope Z_scope.

(** ** Constants *)

Definition START_DELAY : Z := 10 * 60 * 1000.
Definition REMINDER_INTERVAL : Z := 6 * 60 * 60 * 1000.
Definition STAFF_ALERT_TIME : Z := 24 * 60 * 60 * 1000.

(** The identifiers read from [process.env]. *)
Record Env := mkEnv {
  TICKET_CATEGORY_ID : string;
  STAFF_ROLE_ID : string;
  KING_ROLE_ID : string;
  TICKET_TOOL_BOT_ID : string }.

(** ** Data model *)

(** A document of the [Ticket] collection.  The collection is keyed by its
    unique [channelId], which is therefore the key of [db] below and not a
    field; [oid] is the document's [_id]. *)
Record Ticket := mkTicket {
  oid : nat;
  creatorId : string;
  timerStartTime : option Z;
  reminderCount : Z }.

#[global] Instance Ticket_eq_dec : EqDecision Ticket.
Proof. solve_decision. Defined.

(** A Mongoose document held by a handler: the values as [loaded] from the
    collection and the [cur]rent values after the handler's assignments. *)
Record Doc := mkDoc {
  doc_channel : string;
  loaded : Ticket;
  cur : Ticket }.

(** The timer object stored in the [timers] map: [{start, repeat, staff}],
    each a handle returned by [setTimeout] / [setInterval] or absent. *)
Record Timer := mkTimer {
  timer_start : option nat;
  timer_repeat : option nat;
  timer_staff : option nat }.

Definition empty_timer : Timer := mkTimer None None None.

(** The closures handed to [setTimeout] and [setInterval]. *)
Inductive Callback :=
| CbStart (channel : string) (ticket : Doc) (timer : nat)
| CbReminder (channel : string)
| CbStaffAlert (channel : string).

(** An armed timeout ([period = None]) or interval in the runtime. *)
Record Sched := mkSched {
  hid : nat;
  due : Z;
  period : option Z;
  cb : Callback }.

Definition cb_channel (k : Callback) : string :=
  match k with
  | CbStart c _ _ => c
  | CbReminder c => c
  | CbStaffAlert c => c
  end.

(** The calls of [log]. *)
Inductive LogMsg :=
| LogTimerStarted
| LogReminder (n : Z)
| LogStaffAlert
| LogCreatorStored (creator : string)
| LogCreatorReplied
| LogManualStop
| LogManualRestart
| LogManualAssign (creator : string).

(** The answers of [interaction.reply]. *)
Inductive Reply :=
| ReplyNotAuthorized
| ReplyNoActiveTimer
| ReplyStopped
| ReplyNoTicketData (hint : bool)
| ReplyRestarted
| ReplyStatusInactive
| ReplyStatus (elapsed : option (Z * Z)) (count : Z) (creator : string)
| ReplyNoCreator
| ReplyCreator (creator : string)
| ReplyMustProvideUser
| ReplyAssigned (creator : string).

(** What the bot sends, each with the time it was sent at. *)
Inductive Obs :=
| ObsReminder (channel creator : string) (count : Z) (final : bool) (time : Z)
| ObsStaffAlert (channel : string) (ticket : option Ticket) (time : Z)
| ObsLog (channel : string) (msg : LogMsg) (time : Z)
| ObsReply (channel : string) (r : Reply) (time : Z).

Record State := mkState {
  clock : Z;
  db : gmap string Ticket;
  next_oid : nat;
  timers : gmap string nat;
  heap : gmap nat Timer;
  next_ref : nat;
  pending : list Sched;
  next_hid : nat;
  trace : list Obs }.

Definition set_clock (t : Z) (st : State) : State :=
  mkState t (db st) (next_oid st) (timers st) (heap st) (next_ref st)
          (pending st) (next_hid st) (trace st).
Definition set_db (d : gmap string Ticket) (st : State) : State :=
  mkState (clock st) d (next_oid st) (timers st) (heap st) (next_ref st)
          (pending st) (next_hid st) (trace st).
Definition set_timers (m : gmap string nat) (st : State) : State :=
  mkState (clock st) (db st) (next_oid st) m (heap st) (next_ref st)
          (pending st) (next_hid st) (trace st).
Definition set_heap (h : gmap nat Timer) (st : State) : State :=
  mkState (clock st) (db st) (next_oid st) (timers st) h (next_ref st)
          (pending st) (next_hid st) (trace st).
Definition set_pending (p : list Sched) (st : State) : State :=
  mkState (clock st) (db st) (next_oid st) (timers st) (heap st) (next_ref st)
          p (next_hid st) (trace st).
Definition emit (o : Obs) (st : State) : State :=
  mkState (clock st) (db st) (next_oid st) (timers st) (heap st) (next_ref st)
          (pending st) (next_hid st) (o :: trace st).

Definition log (c : string) (m : LogMsg) (st : State) : State :=
  emit (ObsLog c m (clock st)) st.
Definition reply (c : string) (r : Reply) (st : State) : State :=
  emit (ObsReply c r (clock st)) st.

(** ** The ticket collection *)

Definition findOne (d : gmap string Ticket) (c : string) : option Doc :=
  match d !! c with
  | Some t => Some (mkDoc c t t)
  | None => None
  end.

Definition assign_creatorId (v : string) (d : Doc) : Doc :=
  mkDoc (doc_channel d) (loaded d)
        (mkTicket (oid (cur d)) v (timerStartTime (cur d)) (reminderCount (cur d))).
Definition assign_timerStartTime (v : option Z) (d : Doc) : Doc :=
  mkDoc (doc_channel d) (loaded d)
        (mkTicket (oid (cur d)) (creatorId (cur d)) v (reminderCount (cur d))).
Definition assign_reminderCount (v : Z) (d : Doc) : Doc :=
  mkDoc (doc_channel d) (loaded d)
        (mkTicket (oid (cur d)) (creatorId (cur d)) (timerStartTime (cur d)) v).

(** [ticket.save()] writes the paths whose value differs from the loaded one
    into the stored document with the same [_id]; with no modified path it
    writes nothing, and it throws when the stored document is gone. *)
Definition merge_paths (l c s : Ticket) : Ticket :=
  mkTicket (oid s)
    (if decide (creatorId c = creatorId l) then creatorId s else creatorId c)
    (if decide (timerStartTime c = timerStartTime l)
     then timerStartTime s else timerStartTime c)
    (if decide (reminderCount c = reminderCount l)
     then reminderCount s else reminderCount c).

Definition save (d : Doc) (m : gmap string Ticket) : option (gmap string Ticket) :=
  if decide (cur d = loaded d) then Some m
  else match m !! doc_channel d with
       | Some s =>
           if decide (oid s = oid (loaded d))
           then Some (<[doc_channel d := merge_paths (loaded d) (cur d) s]> m)
           else None
       | None => None
       end.

(** [Ticket.create({channelId, creatorId, timerStartTime: null,
    reminderCount: 0})].  Identifiers are Discord snowflakes, never empty, so
    the schema's [required] always passes. *)
Definition create (c creator : string) (st : State) : State :=
  mkState (clock st)
          (<[c := mkTicket (next_oid st) creator None 0]> (db st))
          (S (next_oid st)) (timers st) (heap st) (next_ref st)
          (pending st) (next_hid st) (trace st).

Definition deleteOne (c : string) (st : State) : State :=
  set_db (delete c (db st)) st.

(** ** The runtime's timers *)

Definition TIMEOUT_MAX : Z := 2147483647.

(** A delay outside [1 .. TIMEOUT_MAX] is replaced by 1 ms. *)
Definition timer_delay (after : Z) : Z :=
  if (1 <=? after) && (after <=? TIMEOUT_MAX) then after else 1.

Definition arm (p : option Z) (k : Callback) (after : Z) (st : State)
  : nat * State :=
  (next_hid st,
   mkState (clock st) (db st) (next_oid st) (timers st) (heap st) (next_ref st)
           (pending st ++ [mkSched (next_hid st) (clock st + timer_delay after) p k])
           (S (next_hid st)) (trace st)).

Definition setTimeout (k : Callback) (after : Z) (st : State) : nat * State :=
  arm None k after st.
Definition setInterval (k : Callback) (after : Z) (st : State) : nat * State :=
  arm (Some (timer_delay after)) k after st.

Definition clearTimeout (h : nat) (st : State) : State :=
  set_pending (filter (λ e, hid e ≠ h) (pending st)) st.
Definition clearInterval (h : nat) (st : State) : State := clearTimeout h st.

(** [const timer = {}]: a fresh object on the heap. *)
Definition new_timer (st : State) : nat * State :=
  (next_ref st,
   mkState (clock st) (db st) (next_oid st) (timers st)
           (<[next_ref st := empty_timer]> (heap st)) (S (next_ref st))
           (pending st) (next_hid st) (trace st)).

Definition deref (r : nat) (st : State) : Timer :=
  default empty_timer (heap st !! r).

Definition set_start (r h : nat) (st : State) : State :=
  let o := deref r st in
  set_heap (<[r := mkTimer (Some h) (timer_repeat o) (timer_staff o)]> (heap st)) st.
Definition set_repeat (r h : nat) (st : State) : State :=
  let o := deref r st in
  set_heap (<[r := mkTimer (timer_start o) (Some h) (timer_staff o)]> (heap st)) st.
Definition set_staff (r h : nat) (st : State) : State :=
  let o := deref r st in
  set_heap (<[r := mkTimer (timer_start o) (timer_repeat o) (Some h)]> (heap st)) st.

(** ** The engine *)

Definition clearAllTimers (c : string) (st : State) : State :=
  match timers st !! c with
  | None => st
  | Some r =>
      let timer := deref r st in
      let st := match timer_start timer with
                | Some h => clearTimeout h st
                | None => st
                end in
      let st := match timer_repeat timer with
                | Some h => clearInterval h st
                | None => st
                end in
      let st := match timer_staff timer with
                | Some h => clearTimeout h st
                | None => st
                end in
      set_timers (delete c (timers st)) st
  end.

Definition startTimers (c : string) (st : State) : State :=
  match findOne (db st) c with
  | None => st
  | Some ticket =>
      let st := clearAllTimers c st in
      let '(r, st) := new_timer st in
      let '(h, st) := setTimeout (CbStart c ticket r) START_DELAY st in
      let st := set_start r h st in
      set_timers (<[c := r]> (timers st)) st
  end.

Definition sendReminder (c : string) (st : State) : State :=
  match findOne (db st) c with
  | None => st
  | Some ticket =>
      let ticket := assign_reminderCount (reminderCount (cur ticket) + 1) ticket in
      match save ticket (db st) with
      | None => st
      | Some d =>
          let st := set_db d st in
          let n := reminderCount (cur ticket) in
          let isFinalReminder := n =? 3 in
          let st := emit (ObsReminder c (creatorId (cur ticket)) n
                                      isFinalReminder (clock st)) st in
          log c (LogReminder n) st
      end
  end.

Definition sendStaffAlert (c : string) (st : State) : State :=
  let ticket := db st !! c in
  let st := emit (ObsStaffAlert c ticket (clock st)) st in
  log c LogStaffAlert st.

(** The body of the timeout armed by [startTimers]. *)
Definition start_callback (c : string) (ticket : Doc) (r : nat) (st : State)
  : State :=
  let ticket := assign_timerStartTime (Some (clock st)) ticket in
  let ticket := assign_reminderCount 0 ticket in
  match save ticket (db st) with
  | None => st
  | Some d =>
      let st := set_db d st in
      let st := log c LogTimerStarted st in
      let '(h, st) := setInterval (CbReminder c) REMINDER_INTERVAL st in
      let st := set_repeat r h st in
      let '(h, st) := setTimeout (CbStaffAlert c) STAFF_ALERT_TIME st in
      set_staff r h st
  end.

Definition run_callback (k : Callback) (st : State) : State :=
  match k with
  | CbStart c ticket r => start_callback c ticket r st
  | CbReminder c => sendReminder c st
  | CbStaffAlert c => sendStaffAlert c st
  end.

(** ** Startup recovery ([clientready]) *)

(** JavaScript truthiness of the nullable number [timerStartTime]. *)
Definition truthy (t : option Z) : option Z :=
  match t with
  | Some v => if v =? 0 then None else Some v
  | None => None
  end.

(** One round of the recovery loop; [alive] lists the channels that
    [client.channels.fetch] still finds. *)
Definition recover_ticket (alive : list string) (st : State)
    (entry : string * Ticket) : State :=
  let '(c, ticket) := entry in
  match truthy (timerStartTime ticket) with
  | None => st
  | Some startTime =>
      if bool_decide (c ∈ alive) then
        let elapsed := clock st - startTime in
        if elapsed <? STAFF_ALERT_TIME then
          let remainingTime := STAFF_ALERT_TIME - elapsed in
          let timeSinceLastReminder := Z.rem elapsed REMINDER_INTERVAL in
          let timeToNextReminder := REMINDER_INTERVAL - timeSinceLastReminder in
          let '(r, st) := new_timer st in
          let '(h, st) := setInterval (CbReminder c) REMINDER_INTERVAL st in
          let st := set_repeat r h st in
          let st := if timeToNextReminder <=? 1000
                    then sendReminder c st
                    else snd (setTimeout (CbReminder c) timeToNextReminder st) in
          let '(h, st) := setTimeout (CbStaffAlert c) remainingTime st in
          let st := set_staff r h st in
          set_timers (<[c := r]> (timers st)) st
        else sendStaffAlert c st
      else deleteOne c st
  end.

Definition clientready (alive : list string) (st : State) : State :=
  foldl (recover_ticket alive) st (map_to_list (db st)).

(** The memory of a process that has just started: the collection survives
    the process before it, the [timers] map, the timer objects and every
    armed timer are gone. *)
Definition fresh (st : State) : State :=
  mkState (clock st) (db st) (next_oid st) ∅ ∅ (next_ref st)
          [] (next_hid st) (trace st).

(** [client.once("clientready", ...)]: the name the recovery listener is
    registered under. *)
Definition READY_LISTENER : string := "clientready".

(** [client.login]: the client, which is discord.js and not part of the
    source, announces that it has logged in by emitting one event, of the
    name [announced].  An emitter runs the listeners registered under
    exactly the name it emits, so the recovery listener runs when
    [announced] is [clientready], and nothing runs otherwise.  discord.js
    emits [ready], and from version 14.22 on [clientReady]. *)
Definition login (announced : string) (alive : list string) (st : State) : State :=
  if String.eqb announced READY_LISTENER then clientready alive st else st.

(** A start of the process. *)
Definition restart (announced : string) (alive : list string) (st : State) : State :=
  login announced alive (fresh st).

(** ** Messages and commands *)

Record User := mkUser {
  user_id : string;
  user_bot : bool }.

Record Member := mkMember {
  roles : list string }.

Record Message := mkMessage {
  guild : bool;
  author : User;
  member : option Member;
  channel_id : string;
  parentId : string;
  mentions : list (User * option Member) }.

(** [interaction.member] is [null] for a command used outside a guild. *)
Record Interaction := mkInteraction {
  isCommand : bool;
  i_channel : string;
  i_member : option Member;
  commandName : string;
  opt_action : option string;
  opt_user : option User }.

Definition nonempty (s : string) : bool :=
  match s with
  | EmptyString => false
  | _ => true
  end.

(** [getTimeElapsed]: whole hours and the minutes left over, or [None] for
    the answer given when no timer was started. *)
Definition getTimeElapsed (startTime : option Z) (st : State) : option (Z * Z) :=
  match truthy startTime with
  | None => None
  | Some startTime =>
      let elapsed := clock st - startTime in
      Some (elapsed / (60 * 60 * 1000),
            Z.rem elapsed (60 * 60 * 1000) / (60 * 1000))
  end.

(** ** The firing of timers *)

(** The runtime fires handle [h]: an interval is armed again one period
    after the firing, a timeout is gone; then the callback runs. *)
Definition rearm (h : nat) (t : Z) (e : Sched) : list Sched :=
  if decide (hid e = h)
  then match period e with
       | Some p => [mkSched (hid e) (t + p) (period e) (cb e)]
       | None => []
       end
  else [e].

Definition fire (h : nat) (st : State) : option State :=
  match list_find (λ e, hid e = h) (pending st) with
  | Some (_, e) =>
      if due e <=? clock st
      then Some (run_callback (cb e)
                   (set_pending (pending st ≫= rearm h (clock st)) st))
      else None
  | None => None
  end.

(** ** The handlers *)

Section Handlers.

Variable env : Env.

Definition has_staff_role (m : Member) : bool :=
  bool_decide (STAFF_ROLE_ID env ∈ roles m)
  || bool_decide (KING_ROLE_ID env ∈ roles m).

(** [member?.roles.cache.has(STAFF_ROLE_ID) || member?.roles.cache.has(KING_ROLE_ID)] *)
Definition isStaff (m : option Member) : bool :=
  match m with
  | Some x => has_staff_role x
  | None => false
  end.

(** The first mentioned user whose member is found, is neither staff nor a bot. *)
Fixpoint first_mentioned (ms : list (User * option Member)) : option string :=
  match ms with
  | [] => None
  | (user, mentionedMember) :: rest =>
      match mentionedMember with
      | Some mm =>
          if negb (has_staff_role mm) && negb (user_bot user)
          then Some (user_id user)
          else first_mentioned rest
      | None => first_mentioned rest
      end
  end.

Definition detect_creator (message : Message) : option string :=
  if String.eqb (user_id (author message)) (TICKET_TOOL_BOT_ID env)
  then first_mentioned (mentions message)
  else if negb (isStaff (member message)) && negb (user_bot (author message))
       then Some (user_id (author message))
       else None.

Definition messageCreate (message : Message) (st : State) : State :=
  if negb (guild message) then st
  else if user_bot (author message)
          && negb (String.eqb (user_id (author message)) (TICKET_TOOL_BOT_ID env))
  then st
  else if negb (String.eqb (parentId message) (TICKET_CATEGORY_ID env)) then st
  else
    let c := channel_id message in
    match findOne (db st) c with
    | None =>
        match detect_creator message with
        | Some creator =>
            if nonempty creator
            then log c (LogCreatorStored creator) (create c creator st)
            else st
        | None => st
        end
    | Some ticket =>
        if negb (isStaff (member message))
           && String.eqb (user_id (author message)) (creatorId (cur ticket))
        then
          let wasActive := bool_decide (timerStartTime (cur ticket) ≠ None) in
          let st := clearAllTimers c st in
          let ticket := assign_timerStartTime None ticket in
          let ticket := assign_reminderCount 0 ticket in
          match save ticket (db st) with
          | None => st
          | Some d =>
              let st := set_db d st in
              if wasActive then log c LogCreatorReplied st else st
          end
        else if isStaff (member message)
        then startTimers c (clearAllTimers c st)
        else st
    end.

Definition timer_stop (c : string) (ticket : option Doc) (st : State) : State :=
  match ticket with
  | None => reply c ReplyNoActiveTimer st
  | Some ticket =>
      match truthy (timerStartTime (cur ticket)) with
      | None => reply c ReplyNoActiveTimer st
      | Some _ =>
          let st := clearAllTimers c st in
          let ticket := assign_timerStartTime None ticket in
          let ticket := assign_reminderCount 0 ticket in
          match save ticket (db st) with
          | None => st
          | Some d =>
              let st := set_db d st in
              let st := reply c ReplyStopped st in
              log c LogManualStop st
          end
      end
  end.

Definition timer_restart (c : string) (ticket : option Doc) (st : State) : State :=
  match ticket with
  | None => reply c (ReplyNoTicketData true) st
  | Some ticket =>
      let st := clearAllTimers c st in
      let ticket := assign_timerStartTime (Some (clock st)) ticket in
      let ticket := assign_reminderCount 0 ticket in
      match save ticket (db st) with
      | None => st
      | Some d =>
          let st := set_db d st in
          let '(r, st) := new_timer st in
          let '(h, st) := setInterval (CbReminder c) REMINDER_INTERVAL st in
          let st := set_repeat r h st in
          let '(h, st) := setTimeout (CbStaffAlert c) STAFF_ALERT_TIME st in
          let st := set_staff r h st in
          let st := set_timers (<[c := r]> (timers st)) st in
          let st := reply c ReplyRestarted st in
          log c LogManualRestart st
      end
  end.

Definition timer_status (c : string) (ticket : option Doc) (st : State) : State :=
  match ticket with
  | None => reply c (ReplyNoTicketData false) st
  | Some ticket =>
      match truthy (timerStartTime (cur ticket)) with
      | None => reply c ReplyStatusInactive st
      | Some _ =>
          reply c (ReplyStatus (getTimeElapsed (timerStartTime (cur ticket)) st)
                               (reminderCount (cur ticket))
                               (creatorId (cur ticket))) st
      end
  end.

Definition creator_check (c : string) (ticket : option Doc) (st : State) : State :=
  match ticket with
  | None => reply c ReplyNoCreator st
  | Some ticket => reply c (ReplyCreator (creatorId (cur ticket))) st
  end.

Definition creator_assign (c : string) (ticket : option Doc) (user : option User)
    (st : State) : State :=
  match user with
  | None => reply c ReplyMustProvideUser st
  | Some user =>
      let st' :=
        match ticket with
        | None => Some (create c (user_id user) st)
        | Some ticket =>
            match save (assign_creatorId (user_id user) ticket) (db st) with
            | None => None
            | Some d => Some (set_db d st)
            end
        end in
      match st' with
      | None => st
      | Some st =>
          let st := reply c (ReplyAssigned (user_id user)) st in
          log c (LogManualAssign (user_id user)) st
      end
  end.

(** [member.roles] throws when there is no member: the handler ends before
    it has answered or changed anything. *)
Definition interactionCreate (interaction : Interaction) (st : State) : State :=
  if negb (isCommand interaction) then st
  else
    let c := i_channel interaction in
    match i_member interaction with
    | None => st
    | Some member =>
        if negb (has_staff_role member)
        then reply c ReplyNotAuthorized st
        else
          let ticket := findOne (db st) c in
          if String.eqb (commandName interaction) "timer" then
            match opt_action interaction with
            | Some action =>
                if String.eqb action "stop" then timer_stop c ticket st
                else if String.eqb action "restart" then timer_restart c ticket st
                else if String.eqb action "status" then timer_status c ticket st
                else st
            | None => st
            end
          else if String.eqb (commandName interaction) "creator" then
            match opt_action interaction with
            | Some action =>
                if String.eqb action "check" then creator_check c ticket st
                else if String.eqb action "assign"
                     then creator_assign c ticket (opt_user interaction) st
                     else st
            | None => st
            end
          else st
    end.

Definition channelDelete (c : string) (st : State) : State :=
  match findOne (db st) c with
  | Some _ => deleteOne c (clearAllTimers c st)
  | None => st
  end.

(** ** Events *)

Inductive Event :=
| MessageCreate (message : Message)
| InteractionCreate (interaction : Interaction)
| ChannelDelete (channel : string)
| TimerFires (handle : nat)
| ProcessRestart (announced : string) (alive : list string).

(** One event at wall-clock time [t]; the clock never runs backwards, and a
    timer never fires before it is due. *)
Definition step (st : State) (ev : Z * Event) : option State :=
  let '(t, e) := ev in
  if t <? clock st then None
  else
    let st := set_clock t st in
    match e with
    | MessageCreate m => Some (messageCreate m st)
    | InteractionCreate i => Some (interactionCreate i st)
    | ChannelDelete c => Some (channelDelete c st)
    | TimerFires h => fire h st
    | ProcessRestart announced alive => Some (restart announced alive st)
    end.

Fixpoint run (evs : list (Z * Event)) (st : State) : option State :=
  match evs with
  | [] => Some st
  | ev :: rest =>
      match step st ev with
      | Some st' => run rest st'
      | None => None
      end
  end.

End Handlers.

(** ** A concrete deployment, used by the examples below *)

Definition env0 : Env := mkEnv "category" "staff-role" "king-role" "ticket-tool".
Definition hour : Z := 60 * 60 * 1000.
Definition minute : Z := 60 * 1000.

Definition alice : User := mkUser "alice" false.
Definition bob : User := mkUser "bob" false.
Definition helper_bot : User := mkUser "helper-bot" true.
Definition plain_member : Member := mkMember [].
Definition staff_member : Member := mkMember ["staff-role"].

(** A message written in the ticket channel [chan]. *)
Definition says (u : User) (m : Member) : Message :=
  mkMessage true u (Some m) "chan" "category" [].

(** A slash command of a staff member in [chan]. *)
Definition command (name action : string) (user : option User) : Interaction :=
  mkInteraction true "chan" (Some staff_member) name (Some action) user.

(** The collection as a stopped process left it: one ticket of [creator]
    whose countdown began at [startTime], with [count] reminders sent. *)
Definition persisted (creator : string) (startTime : option Z) (count : Z) : State :=
  mkState 0 {[ "chan" := mkTicket 0 creator startTime count ]} 1 ∅ ∅ 0 [] 0 [].

(** ** Vocabulary of the statements *)

(** *** Handles *)

(** The handles held by the timer object that [timers] keeps for a ticket. *)
Definition registered (c : string) (st : State) : list nat :=
  match timers st !! c with
  | Some r =>
      let timer := deref r st in
      omap id [timer_start timer; timer_repeat timer; timer_staff timer]
  | None => []
  end.

(** Clearing a handle that may be absent. *)
Definition clear_opt (h : option nat) (st : State) : State :=
  match h with
  | Some x => clearTimeout x st
  | None => st
  end.

(** Every armed timer of the ticket is held by the ticket's timer object. *)
Definition all_registered (c : string) (st : State) : Prop :=
  ∀ e, e ∈ pending st → cb_channel (cb e) = c → hid e ∈ registered c st.

(** No pre-delay and no staff alert is armed for the ticket. *)
Definition quiet (c : string) (st : State) : Prop :=
  ∀ e, e ∈ pending st →
       (∀ d r, cb e ≠ CbStart c d r) ∧ cb e ≠ CbStaffAlert c.

(** The timers left armed when handle [h] fires. *)
Definition fired (h : nat) (st : State) : State :=
  set_pending (pending st ≫= rearm h (clock st)) st.

(** *** Records *)

(** The record that [/creator assign] leaves for the ticket. *)
Definition assigned (u : User) (st : State) (old : option Ticket) : Ticket :=
  match old with
  | Some t => mkTicket (oid t) (user_id u) (timerStartTime t) (reminderCount t)
  | None => mkTicket (next_oid st) (user_id u) None 0
  end.

Definition reminded (t : Ticket) : Ticket :=
  mkTicket (oid t) (creatorId t) (timerStartTime t) (reminderCount t + 1).

Definition restarted (t : Ticket) (now : Z) : Ticket :=
  mkTicket (oid t) (creatorId t) (Some now) 0.

(** The state that the cancellation of a countdown leaves: the handles of
    the ticket's timer object cleared, its entry of [timers] deleted, and
    the record saved with no start time and a zero count. *)
Definition cancelled (c : string) (t : Ticket) (st : State) : State :=
  set_db (<[c := mkTicket (oid t) (creatorId t) None 0]> (db st))
         (clearAllTimers c st).

(** The countdown as [/timer restart] arms it: a new timer object holding
    the interval of the reminders and the timeout of the staff alert. *)
Definition countdown (c : string) (st : State) : State :=
  mkState (clock st) (db st) (next_oid st)
          (<[c := next_ref st]> (timers st))
          (<[next_ref st := mkTimer None (Some (next_hid st))
                                    (Some (S (next_hid st)))]> (heap st))
          (S (next_ref st))
          (pending st
           ++ [mkSched (next_hid st) (clock st + REMINDER_INTERVAL)
                       (Some REMINDER_INTERVAL) (CbReminder c);
               mkSched (S (next_hid st)) (clock st + STAFF_ALERT_TIME) None
                       (CbStaffAlert c)])
          (S (S (next_hid st))) (trace st).

(** *** Messages and events *)

Definition heard (env : Env) (message : Message) : Prop :=
  guild message = true
  ∧ parentId message = TICKET_CATEGORY_ID env
  ∧ (user_bot (author message) = false
     ∨ user_id (author message) = TICKET_TOOL_BOT_ID env).

Definition staff_message (env : Env) (c : string) (m : Message) : Prop :=
  heard env m ∧ channel_id m = c ∧ isStaff env (member m) = true.


Definition is_restart (e : Event) : Prop :=
  match e with
  | ProcessRestart _ _ => True
  | _ => False
  end.

(** *** What was sent *)

Definition obs_channel (o : Obs) : string :=
  match o with
  | ObsReminder c _ _ _ _ => c
  | ObsStaffAlert c _ _ => c
  | ObsLog c _ _ => c
  | ObsReply c _ _ => c
  end.

(** What was sent about a ticket: its reminders, alerts, log lines and
    command answers. *)
Definition about (c : string) (tr : list Obs) : list Obs :=
  filter (λ o, obs_channel o = c) tr.

(** The times at which reminders were sent in a ticket, the latest first. *)
Definition reminder_times (c : string) (tr : list Obs) : list Z :=
  omap (λ o, match o with
             | ObsReminder c' _ _ _ time => if decide (c' = c) then Some time else None
             | _ => None
             end) tr.

Definition count_of (c : string) (st : State) : option Z :=
  reminderCount <$> db st !! c.

Definition is_alert (o : Obs) : Prop :=
  match o with
  | ObsStaffAlert _ _ _ => True
  | _ => False
  end.

(** The start times for which a staff alert was sent in a ticket. *)
Definition alert_epochs (c : string) (tr : list Obs) : list Z :=
  omap (λ o, match o with
             | ObsStaffAlert c' (Some t) _ =>
                 if decide (c' = c) then timerStartTime t else None
             | _ => None
             end) tr.

(** *** The pre-delay *)



(** *** Recovery *)

(** What [sendReminder] saves and sends, from the collection, the time and
    what was sent before. *)
Definition reminder_out (c : string) (d : gmap string Ticket) (now : Z)
    (tr : list Obs) : gmap string Ticket * list Obs :=
  match d !! c with
  | Some t =>
      (<[c := reminded t]> d,
       ObsLog c (LogReminder (reminderCount t + 1)) now
       :: ObsReminder c (creatorId t) (reminderCount t + 1)
                      (reminderCount t + 1 =? 3) now
       :: tr)
  | None => (d, tr)
  end.

(** The three timers of a recovered countdown: the interval, the timeout for
    the next reminder when it is more than a second away, the staff alert. *)
Definition recovery_timers (c : string) (h : nat) (now startTime : Z)
  : list Sched :=
  let elapsed := now - startTime in
  let timeToNextReminder := REMINDER_INTERVAL - Z.rem elapsed REMINDER_INTERVAL in
  if timeToNextReminder <=? 1000
  then [mkSched h (now + REMINDER_INTERVAL) (Some REMINDER_INTERVAL) (CbReminder c);
        mkSched (S h) (now + timer_delay (STAFF_ALERT_TIME - elapsed)) None
                (CbStaffAlert c)]
  else [mkSched h (now + REMINDER_INTERVAL) (Some REMINDER_INTERVAL) (CbReminder c);
        mkSched (S h) (now + timer_delay timeToNextReminder) None (CbReminder c);
        mkSched (S (S h)) (now + timer_delay (STAFF_ALERT_TIME - elapsed)) None
                (CbStaffAlert c)].

(** How a round of the loop for one ticket leaves another ticket [c]. *)
Definition keeps (c : string) (st st' : State) : Prop :=
  clock st' = clock st
  ∧ db st' !! c = db st !! c
  ∧ timers st' !! c = timers st !! c
  ∧ (∀ r, (r < next_ref st)%nat → heap st' !! r = heap st !! r)
  ∧ (next_ref st ≤ next_ref st')%nat
  ∧ (∀ e, e ∈ pending st → e ∈ pending st')
  ∧ (∀ o, o ∈ trace st → o ∈ trace st').

(** The run that is never interrupted, in the words of the specification:
    once the countdown has begun at [T], a reminder is sent every
    [REMINDER_INTERVAL]; the number of reminders sent by the time [t], and
    the time of the first one after [t]. *)
Definition spec_reminder_count (T t : Z) : Z := (t - T) / REMINDER_INTERVAL.
Definition spec_next_reminder (T t : Z) : Z :=
  T + (spec_reminder_count T t + 1) * REMINDER_INTERVAL.

(** The ticket of [alice], counting since [1000], as the recovery listener
    leaves it when it runs in a process that starts one hour later. *)
Definition recovered : State :=
  clientready ["chan"]
    (fresh (set_clock (1000 + hour) (persisted "alice" (Some 1000) 0))).

(** *** The invariant of one run *)

(** An armed pre-delay: a timeout held as [start] by the ticket's timer
    object, which holds nothing else; its document is unmodified and has the
    start time of the stored record. *)
Definition start_ok (st : State) (e : Sched) (c : string) (d : Doc) (r : nat)
  : Prop :=
  period e = None ∧ doc_channel d = c ∧ cur d = loaded d
  ∧ timers st !! c = Some r
  ∧ heap st !! r = Some (mkTimer (Some (hid e)) None None)
  ∧ ∃ t, db st !! c = Some t ∧ timerStartTime t = timerStartTime (loaded d).

(** An armed staff alert: a timeout held as [staff] by the ticket's timer
    object, not due before the alert time of the record's start time, for
    which no alert was sent. *)
Definition alert_ok (st : State) (e : Sched) (c : string) : Prop :=
  period e = None
  ∧ ∃ r o t T,
      timers st !! c = Some r ∧ heap st !! r = Some o
      ∧ timer_staff o = Some (hid e)
      ∧ db st !! c = Some t ∧ timerStartTime t = Some T
      ∧ T + STAFF_ALERT_TIME ≤ due e
      ∧ T ∉ alert_epochs c (trace st).

(** What holds of the armed timers and of what was sent in every state of a
    run.  With [strict], no start time is in the future either, which the
    recovery listener needs of the collection it finds. *)
Record Inv_at (strict : bool) (st : State) : Prop := mkInv {
  inv_hid_fresh : ∀ e, e ∈ pending st → (hid e < next_hid st)%nat;
  inv_hid_nodup : NoDup (hid <$> pending st);
  inv_ref_fresh : ∀ c r, timers st !! c = Some r → (r < next_ref st)%nat;
  inv_ref_inj : ∀ c1 c2 r,
      timers st !! c1 = Some r → timers st !! c2 = Some r → c1 = c2;
  inv_start : ∀ e c d r,
      e ∈ pending st → cb e = CbStart c d r → start_ok st e c d r;
  inv_alert : ∀ e c, e ∈ pending st → cb e = CbStaffAlert c → alert_ok st e c;
  inv_past : strict = true → ∀ c t T,
      db st !! c = Some t → timerStartTime t = Some T → T ≤ clock st;
  inv_epoch_past : ∀ c T,
      T ∈ alert_epochs c (trace st) → T + STAFF_ALERT_TIME ≤ clock st;
  inv_once : ∀ c, NoDup (alert_epochs c (trace st));
  inv_epoch : ∀ c tk τ,
      ObsStaffAlert c tk τ ∈ trace st →
      ∃ t T, tk = Some t ∧ timerStartTime t = Some T }.

Arguments inv_hid_fresh {strict} st _.
Arguments inv_hid_nodup {strict} st _.
Arguments inv_ref_fresh {strict} st _.
Arguments inv_ref_inj {strict} st _.
Arguments inv_start {strict} st _.
Arguments inv_alert {strict} st _.
Arguments inv_past {strict} st _.
Arguments inv_epoch_past {strict} st _.
Arguments inv_once {strict} st _.
Arguments inv_epoch {strict} st _.

(** The invariant of one run of the process, recovery included. *)
Definition Inv : State → Prop := Inv_at true.

(** *** The program as it is shipped *)

(** A process that has just started: nothing in memory, nothing sent yet. *)
Definition started (st : State) : Prop :=
  timers st = ∅ ∧ pending st = [] ∧ trace st = [].

(** The events that the program receives: the client announces a start of
    the process under a name that no listener is registered for, so that
    the recovery listener, registered under [clientready], does not run. *)
Definition shipped (ev : Event) : Prop :=
  match ev with
  | ProcessRestart announced _ => announced ≠ READY_LISTENER
  | _ => True
  end.

(** A run of the program: a process that has just started at [st0] handles
    the events [evs], further starts of the process among them, which
    leave it in [st]. *)
Definition program (env : Env) (st0 : State) (evs : list (Z * Event))
    (st : State) : Prop :=
  started st0 ∧ Forall (λ ev, shipped ev.2) evs ∧ run env evs st0 = Some st.

(** An armed reminder: the interval held as [repeat] by the ticket's timer
    object, for a record with a start time. *)
Definition reminder_ok (st : State) (e : Sched) (c : string) : Prop :=
  ∃ p r o t T,
    period e = Some p
    ∧ timers st !! c = Some r ∧ heap st !! r = Some o
    ∧ timer_repeat o = Some (hid e)
    ∧ db st !! c = Some t ∧ timerStartTime t = Some T.

Definition held (st : State) : Prop :=
  ∀ e c, e ∈ pending st → cb e = CbReminder c → reminder_ok st e c.

(** No timer is armed for the ticket. *)
Definition silent (c : string) (st : State) : Prop :=
  ∀ e, e ∈ pending st → cb_channel (cb e) ≠ c.

(** No record counts reminders without a start time. *)
Definition counts_started (m : gmap string Ticket) : Prop :=
  ∀ c t, m !! c = Some t → 0 < reminderCount t → timerStartTime t ≠ None.


(** *** A run of the program, used by the examples below *)

(** What a process finds that starts at [1000 + hour]: the ticket of
    [alice], counting since [1000].  discord.js 14.22 announces the client
    as [clientReady]. *)
Definition found : State :=
  set_clock (1000 + hour) (persisted "alice" (Some 1000) 0).

(** The process starts, a staff member writes an hour later, the pre-delay
    ends at [day_start], and the interval of the reminders fires twice. *)
Definition day_start : Z := 1000 + 2 * hour + START_DELAY.

Definition day_one : list (Z * Event) :=
  [(1000 + hour, ProcessRestart "clientReady" ["chan"]);
   (1000 + 2 * hour, MessageCreate (says bob staff_member));
   (day_start, TimerFires 0);
   (day_start + 6 * hour, TimerFires 1);
   (day_start + 12 * hour, TimerFires 1)].



Definition after (evs : list (Z * Event)) : State :=
  default found (run env0 evs found).

(** The ticket with its countdown running, and after the staff alert. *)
Definition active : State := after day_one.

(** *** Messages and commands that change nothing *)

(** A mentioned user who can be taken for the creator: the member is found
    and is neither staff nor a bot. *)
Definition eligible (env : Env) (p : User * option Member) : Prop :=
  ∃ mm, p.2 = Some mm ∧ has_staff_role env mm = false ∧ user_bot p.1 = false.

(** The commands that change a record or a timer: [/timer stop] on a
    countdown that has begun, [/timer restart] on a tracked ticket, and
    [/creator assign] with a user, each by a staff member. *)
Definition acts (env : Env) (i : Interaction) (st : State) : Prop :=
  isCommand i = true ∧ isStaff env (i_member i) = true
  ∧ ((commandName i = "timer" ∧ opt_action i = Some "stop"
      ∧ ∃ t T, db st !! i_channel i = Some t
               ∧ truthy (timerStartTime t) = Some T)
     ∨ (commandName i = "timer" ∧ opt_action i = Some "restart"
        ∧ is_Some (db st !! i_channel i))
     ∨ (commandName i = "creator" ∧ opt_action i = Some "assign"
        ∧ is_Some (opt_user i))).

(** *** Intervals *)

(** The armed timers with the timers of handle [h] due at [d]. *)
Definition reschedule (h : nat) (d : Z) (l : list Sched) : list Sched :=
  (λ x, if decide (hid x = h) then mkSched (hid x) d (period x) (cb x) else x) <$> l.

(** The firing times [ts] of an interval of period [p] that is due at [d]:
    no firing is early. *)
Fixpoint on_time (d p : Z) (ts : list Z) : Prop :=
  match ts with
  | [] => True
  | τ :: rest => d ≤ τ ∧ on_time (τ + p) p rest
  end.

(** When the interval is due after the firings at [ts]. *)
Definition next_due (d p : Z) (ts : list Z) : Z :=
  match last ts with
  | Some τ => τ + p
  | None => d
  end.

(** What the reminders sent at the times [ts] add to what was sent, the
    count being [n] before the first of them. *)
Fixpoint reminders_at (c creator : string) (n : Z) (ts : list Z) (tr : list Obs)
  : list Obs :=
  match ts with
  | [] => tr
  | τ :: rest =>
      reminders_at c creator (n + 1) rest
        (ObsLog c (LogReminder (n + 1)) τ
         :: ObsReminder c creator (n + 1) (n + 1 =? 3) τ :: tr)
  end.

(** *** The other rounds of the recovery loop *)

(** What the rounds of the recovery loop for other tickets leave of ticket
    [c]: its record, its entry of [timers], what was sent about it, and no
    new timer armed for it. *)
Definition untouched (c : string) (st st' : State) : Prop :=
  clock st' = clock st
  ∧ db st' !! c = db st !! c
  ∧ timers st' !! c = timers st !! c
  ∧ about c (trace st') = about c (trace st)
  ∧ ∀ e, e ∈ pending st' → cb_channel (cb e) = c → e ∈ pending st.

(** *** The creator of a record *)

(** The event is [/creator assign] of user [u] by a staff member in ticket [c]. *)
Definition assigns (env : Env) (c : string) (u : User) (ev : Event) : Prop :=
  ∃ i, ev = InteractionCreate i
       ∧ isCommand i = true ∧ isStaff env (i_member i) = true
       ∧ commandName i = "creator" ∧ opt_action i = Some "assign"
       ∧ opt_user i = Some u ∧ i_channel i = c.

(** Every record of [st'] is a record of [st] with the same creator. *)
Definition records_kept (st st' : State) : Prop :=
  ∀ c t', db st' !! c = Some t' →
          ∃ t, db st !! c = Some t ∧ creatorId t' = creatorId t.

(** *** Runs *)

(** One run of the process: it starts at [st0] with the collection it finds
    (nothing sent yet, no start time in the future), the client announces
    itself as [announced], which runs the recovery listener or not, and the
    process handles the events [evs], none of them a restart, which leave
    it in [st']. *)
Definition one_run (env : Env) (announced : string) (alive : list string)
    (st0 : State) (evs : list (Z * Event)) (st' : State) : Prop :=
  trace st0 = []
  ∧ (∀ c t T, db st0 !! c = Some t → timerStartTime t = Some T → T ≤ clock st0)
  ∧ Forall (λ ev, ¬ is_restart ev.2) evs
  ∧ run env evs (restart announced alive st0) = Some st'.



(** The log lines and the answers to commands. *)
Definition is_note (o : Obs) : Prop :=
  match o with
  | ObsLog _ _ _ | ObsReply _ _ _ => True
  | _ => False
  end.

(** Between [st] and [st'] nothing was sent but log lines and answers. *)
Definition only_notes (st st' : State) : Prop :=
  ∀ o, o ∈ trace st' → o ∈ trace st ∨ is_note o.

(** The process that found the ticket of [alice], as discord.js 14.22
    starts it, and what it goes through: a staff message and the end of its
    pre-delay, a reminder of the interval, the staff alert, a staff message
    an hour after the alert, and the end of its pre-delay. *)
Definition booted : State := restart "clientReady" ["chan"] found.

Definition sample_events : list (Z * Event) :=
  [(1000 + 2 * hour, MessageCreate (says bob staff_member));
   (day_start, TimerFires 0);
   (day_start + 6 * hour, TimerFires 1);
   (day_start + 24 * hour, TimerFires 2);
   (day_start + 25 * hour, MessageCreate (says bob staff_member));
   (day_start + 25 * hour + START_DELAY, TimerFires 3)].

(** *** Counts *)

(** No record has a negative count. *)
Definition counts_nonneg (m : gmap string Ticket) : Prop :=
  ∀ c t, m !! c = Some t → 0 ≤ reminderCount t.

(** Every reminder sent has a number from 1 on and is the final reminder
    exactly when its number is 3. *)
Definition reminders_numbered (tr : list Obs) : Prop :=
  ∀ c creator n final τ,
    ObsReminder c creator n final τ ∈ tr → 1 ≤ n ∧ final = (n =? 3).

Definition counting (st : State) : Prop :=
  counts_nonneg (db st) ∧ reminders_numbered (trace st).

(** Every record of [st'] has a zero count or the count of its record in [st]. *)
Definition counts_kept (st st' : State) : Prop :=
  ∀ c t', db st' !! c = Some t' →
          reminderCount t' = 0 ∨ ∃ t, db st !! c = Some t ∧ reminderCount t' = reminderCount t.

(** Every ticket with a timer object in [timers] has a record. *)
Definition tracked (st : State) : Prop :=
  ∀ c r, timers st !! c = Some r → is_Some (db st !! c).

(** ** The variant that keeps its tickets in a file

    The bot of [index.js] that keeps the tickets in the [tickets] map and
    writes them to [STORAGE_FILE].  A ticket is an object of the map, shared
    with the callback of its pre-delay; its timers are a field of the
    object.  The file holds what [saveTickets] wrote; writing it succeeds.
    Messages, interactions, log lines and answers are those of the bot
    above. *)
Module FileBacked.

Record Ticket := mkTicket {
  creatorId : string;
  timers : Timer;
  timerStartTime : option Z;
  reminderCount : Z }.

(** An entry of the file: [{creatorId, timerStartTime, reminderCount}]. *)
Record Stored := mkStored {
  s_creatorId : string;
  s_timerStartTime : option Z;
  s_reminderCount : Z }.

(** The closures handed to [setTimeout] and [setInterval]; the callback of
    the pre-delay holds the ticket object. *)
Inductive Callback :=
| CbStart (channel : string) (ticket : nat)
| CbReminder (channel : string)
| CbStaffAlert (channel : string).

Record Sched := mkSched {
  hid : nat;
  due : Z;
  period : option Z;
  cb : Callback }.

Inductive Obs :=
| ObsReminder (channel creator : string) (count : Z) (time : Z)
| ObsStaffAlert (channel : string) (creator : option string) (time : Z)
| ObsLog (channel : string) (msg : LogMsg) (time : Z)
| ObsReply (channel : string) (r : Reply) (time : Z).

Record State := mkState {
  clock : Z;
  tickets : gmap string nat;
  objs : gmap nat Ticket;
  next_ref : nat;
  file : option (gmap string Stored);
  pending : list Sched;
  next_hid : nat;
  trace : list Obs }.

Definition set_clock (t : Z) (st : State) : State :=
  mkState t (tickets st) (objs st) (next_ref st) (file st) (pending st)
          (next_hid st) (trace st).
Definition set_tickets (m : gmap string nat) (st : State) : State :=
  mkState (clock st) m (objs st) (next_ref st) (file st) (pending st)
          (next_hid st) (trace st).
Definition set_objs (o : gmap nat Ticket) (st : State) : State :=
  mkState (clock st) (tickets st) o (next_ref st) (file st) (pending st)
          (next_hid st) (trace st).
Definition set_file (f : option (gmap string Stored)) (st : State) : State :=
  mkState (clock st) (tickets st) (objs st) (next_ref st) f (pending st)
          (next_hid st) (trace st).
Definition set_pending (p : list Sched) (st : State) : State :=
  mkState (clock st) (tickets st) (objs st) (next_ref st) (file st) p
          (next_hid st) (trace st).
Definition emit (o : Obs) (st : State) : State :=
  mkState (clock st) (tickets st) (objs st) (next_ref st) (file st) (pending st)
          (next_hid st) (o :: trace st).

Definition log (c : string) (m : LogMsg) (st : State) : State :=
  emit (ObsLog c m (clock st)) st.
Definition reply (c : string) (r : Reply) (st : State) : State :=
  emit (ObsReply c r (clock st)) st.

(** [tickets.get(channelId)]: the ticket object and its fields. *)
Definition get (c : string) (st : State) : option Ticket :=
  r ← tickets st !! c; objs st !! r.

(** An assignment to fields of the ticket object [r]. *)
Definition upd (r : nat) (f : Ticket → Ticket) (st : State) : State :=
  set_objs (alter f r (objs st)) st.

Definition with_timers (f : Timer → Timer) (t : Ticket) : Ticket :=
  mkTicket (creatorId t) (f (timers t)) (timerStartTime t) (reminderCount t).
Definition with_start (h : nat) (o : Timer) : Timer :=
  mkTimer (Some h) (timer_repeat o) (timer_staff o).
Definition with_repeat (h : nat) (o : Timer) : Timer :=
  mkTimer (timer_start o) (Some h) (timer_staff o).
Definition with_staff (h : nat) (o : Timer) : Timer :=
  mkTimer (timer_start o) (timer_repeat o) (Some h).

(** *** The file *)

Definition stored (t : Ticket) : Stored :=
  mkStored (creatorId t) (timerStartTime t) (reminderCount t).

(** The [data] that [saveTickets] builds from the map. *)
Definition snapshot (st : State) : gmap string Stored :=
  omap (λ r, stored <$> objs st !! r) (tickets st).

Definition saveTickets (st : State) : State :=
  set_file (Some (snapshot st)) st.

Definition load_entry (st : State) (entry : string * Stored) : State :=
  let '(c, d) := entry in
  mkState (clock st) (<[c := next_ref st]> (tickets st))
          (<[next_ref st := mkTicket (s_creatorId d) empty_timer
                                     (truthy (s_timerStartTime d))
                                     (s_reminderCount d)]> (objs st))
          (S (next_ref st)) (file st) (pending st) (next_hid st) (trace st).

Definition loadTickets (st : State) : State :=
  match file st with
  | Some data => foldl load_entry st (map_to_list data)
  | None => st
  end.

(** *** The runtime's timers *)

Definition arm (p : option Z) (k : Callback) (after : Z) (st : State)
  : nat * State :=
  (next_hid st,
   mkState (clock st) (tickets st) (objs st) (next_ref st) (file st)
           (pending st ++ [mkSched (next_hid st) (clock st + timer_delay after) p k])
           (S (next_hid st)) (trace st)).

Definition setTimeout (k : Callback) (after : Z) (st : State) : nat * State :=
  arm None k after st.
Definition setInterval (k : Callback) (after : Z) (st : State) : nat * State :=
  arm (Some (timer_delay after)) k after st.

Definition clearTimeout (h : nat) (st : State) : State :=
  set_pending (filter (λ e, hid e ≠ h) (pending st)) st.
Definition clearInterval (h : nat) (st : State) : State := clearTimeout h st.

(** *** The engine *)

Definition clearAllTimers (c : string) (st : State) : State :=
  match tickets st !! c with
  | None => st
  | Some r =>
      match objs st !! r with
      | None => st
      | Some ticket =>
          let st := match timer_start (timers ticket) with
                    | Some h => clearTimeout h st
                    | None => st
                    end in
          let st := match timer_repeat (timers ticket) with
                    | Some h => clearInterval h st
                    | None => st
                    end in
          let st := match timer_staff (timers ticket) with
                    | Some h => clearTimeout h st
                    | None => st
                    end in
          let st := upd r (λ t, mkTicket (creatorId t) empty_timer None 0) st in
          saveTickets st
      end
  end.

Definition startTimers (c : string) (st : State) : State :=
  match tickets st !! c with
  | None => st
  | Some ticket =>
      let st := clearAllTimers c st in
      let '(h, st) := setTimeout (CbStart c ticket) START_DELAY st in
      upd ticket (with_timers (with_start h)) st
  end.

Definition sendReminder (c : string) (st : State) : State :=
  match tickets st !! c with
  | None => st
  | Some r =>
      match objs st !! r with
      | None => st
      | Some ticket =>
          let n := reminderCount ticket + 1 in
          let st := upd r (λ t, mkTicket (creatorId t) (timers t)
                                         (timerStartTime t) n) st in
          let st := saveTickets st in
          let st := emit (ObsReminder c (creatorId ticket) n (clock st)) st in
          log c (LogReminder n) st
      end
  end.

Definition sendStaffAlert (c : string) (st : State) : State :=
  let st := emit (ObsStaffAlert c (creatorId <$> get c st) (clock st)) st in
  log c LogStaffAlert st.

(** The body of the timeout armed by [startTimers]. *)
Definition start_callback (c : string) (ticket : nat) (st : State) : State :=
  let st := upd ticket (λ t, mkTicket (creatorId t) (timers t)
                                      (Some (clock st)) 0) st in
  let st := saveTickets st in
  let st := log c LogTimerStarted st in
  let '(h, st) := setInterval (CbReminder c) REMINDER_INTERVAL st in
  let st := upd ticket (with_timers (with_repeat h)) st in
  let '(h, st) := setTimeout (CbStaffAlert c) STAFF_ALERT_TIME st in
  upd ticket (with_timers (with_staff h)) st.

Definition run_callback (k : Callback) (st : State) : State :=
  match k with
  | CbStart c ticket => start_callback c ticket st
  | CbReminder c => sendReminder c st
  | CbStaffAlert c => sendStaffAlert c st
  end.

(** *** Startup recovery *)

Definition recover_ticket (alive : list string) (st : State)
    (entry : string * nat) : State :=
  let '(c, r) := entry in
  match objs st !! r with
  | None => st
  | Some ticket =>
      match truthy (timerStartTime ticket) with
      | None => st
      | Some startTime =>
          if bool_decide (c ∈ alive) then
            let elapsed := clock st - startTime in
            if elapsed <? STAFF_ALERT_TIME then
              let remainingTime := STAFF_ALERT_TIME - elapsed in
              let timeSinceLastReminder := Z.rem elapsed REMINDER_INTERVAL in
              let timeToNextReminder := REMINDER_INTERVAL - timeSinceLastReminder in
              let '(h, st) := setInterval (CbReminder c) REMINDER_INTERVAL st in
              let st := upd r (with_timers (with_repeat h)) st in
              let st := if timeToNextReminder <=? 1000
                        then sendReminder c st
                        else snd (setTimeout (CbReminder c) timeToNextReminder st) in
              let '(h, st) := setTimeout (CbStaffAlert c) remainingTime st in
              upd r (with_timers (with_staff h)) st
            else sendStaffAlert c st
          else set_tickets (delete c (tickets st)) st
      end
  end.

Definition clientready (alive : list string) (st : State) : State :=
  let st := loadTickets st in
  saveTickets (foldl (recover_ticket alive) st (map_to_list (tickets st))).

(** The memory of a process that has just started: the file survives the
    process before it, the map, the ticket objects and every armed timer
    are gone. *)
Definition reboot (st : State) : State :=
  mkState (clock st) ∅ ∅ (next_ref st) (file st) [] (next_hid st) (trace st).

(** [client.login]: the listener that loads the file and recovers is
    registered under [clientready] here too, and runs when the client
    announces itself under that name. *)
Definition login (announced : string) (alive : list string) (st : State) : State :=
  if String.eqb announced READY_LISTENER then clientready alive st else st.

(** A start of the process. *)
Definition restart (announced : string) (alive : list string) (st : State) : State :=
  login announced alive (reboot st).

(** *** The firing of timers *)

Definition rearm (h : nat) (t : Z) (e : Sched) : list Sched :=
  if decide (hid e = h)
  then match period e with
       | Some p => [mkSched (hid e) (t + p) (period e) (cb e)]
       | None => []
       end
  else [e].

Definition fire (h : nat) (st : State) : option State :=
  match list_find (λ e, hid e = h) (pending st) with
  | Some (_, e) =>
      if due e <=? clock st
      then Some (run_callback (cb e)
                   (set_pending (pending st ≫= rearm h (clock st)) st))
      else None
  | None => None
  end.

Definition getTimeElapsed (startTime : option Z) (st : State) : option (Z * Z) :=
  match truthy startTime with
  | None => None
  | Some startTime =>
      let elapsed := clock st - startTime in
      Some (elapsed / (60 * 60 * 1000),
            Z.rem elapsed (60 * 60 * 1000) / (60 * 1000))
  end.

(** *** The handlers *)

Section Handlers.

Variable env : Env.

Definition new_ticket (c creator : string) (st : State) : State :=
  mkState (clock st) (<[c := next_ref st]> (tickets st))
          (<[next_ref st := mkTicket creator empty_timer None 0]> (objs st))
          (S (next_ref st)) (file st) (pending st) (next_hid st) (trace st).

Definition messageCreate (message : Message) (st : State) : State :=
  if negb (guild message) then st
  else if user_bot (author message)
          && negb (String.eqb (user_id (author message)) (TICKET_TOOL_BOT_ID env))
  then st
  else if negb (String.eqb (parentId message) (TICKET_CATEGORY_ID env)) then st
  else
    let c := channel_id message in
    match tickets st !! c with
    | None =>
        match detect_creator env message with
        | Some creator =>
            if nonempty creator
            then log c (LogCreatorStored creator) (saveTickets (new_ticket c creator st))
            else st
        | None => st
        end
    | Some r =>
        match objs st !! r with
        | None => st
        | Some ticket =>
            if negb (isStaff env (member message))
               && String.eqb (user_id (author message)) (creatorId ticket)
            then
              let wasActive := bool_decide (timerStartTime ticket ≠ None) in
              let st := clearAllTimers c st in
              if wasActive then log c LogCreatorReplied st else st
            else if isStaff env (member message)
            then startTimers c (clearAllTimers c st)
            else st
        end
    end.

Definition timer_stop (c : string) (st : State) : State :=
  match get c st with
  | None => reply c ReplyNoActiveTimer st
  | Some ticket =>
      match truthy (timerStartTime ticket) with
      | None => reply c ReplyNoActiveTimer st
      | Some _ =>
          let st := clearAllTimers c st in
          let st := reply c ReplyStopped st in
          log c LogManualStop st
      end
  end.

Definition timer_restart (c : string) (st : State) : State :=
  match tickets st !! c with
  | None => reply c (ReplyNoTicketData true) st
  | Some ticket =>
      let st := clearAllTimers c st in
      let st := upd ticket (λ t, mkTicket (creatorId t) (timers t)
                                          (Some (clock st)) 0) st in
      let st := saveTickets st in
      let '(h, st) := setInterval (CbReminder c) REMINDER_INTERVAL st in
      let st := upd ticket (with_timers (with_repeat h)) st in
      let '(h, st) := setTimeout (CbStaffAlert c) STAFF_ALERT_TIME st in
      let st := upd ticket (with_timers (with_staff h)) st in
      let st := reply c ReplyRestarted st in
      log c LogManualRestart st
  end.

Definition timer_status (c : string) (st : State) : State :=
  match get c st with
  | None => reply c (ReplyNoTicketData false) st
  | Some ticket =>
      match truthy (timerStartTime ticket) with
      | None => reply c ReplyStatusInactive st
      | Some _ =>
          reply c (ReplyStatus (getTimeElapsed (timerStartTime ticket) st)
                               (reminderCount ticket) (creatorId ticket)) st
      end
  end.

Definition creator_check (c : string) (st : State) : State :=
  match get c st with
  | None => reply c ReplyNoCreator st
  | Some ticket => reply c (ReplyCreator (creatorId ticket)) st
  end.

Definition creator_assign (c : string) (user : option User) (st : State) : State :=
  match user with
  | None => reply c ReplyMustProvideUser st
  | Some user =>
      let st := match tickets st !! c with
                | None => new_ticket c (user_id user) st
                | Some r =>
                    upd r (λ t, mkTicket (user_id user) (timers t)
                                         (timerStartTime t) (reminderCount t)) st
                end in
      let st := saveTickets st in
      let st := reply c (ReplyAssigned (user_id user)) st in
      log c (LogManualAssign (user_id user)) st
  end.

Definition interactionCreate (interaction : Interaction) (st : State) : State :=
  if negb (isCommand interaction) then st
  else
    let c := i_channel interaction in
    match i_member interaction with
    | None => st
    | Some member =>
        if negb (has_staff_role env member)
        then reply c ReplyNotAuthorized st
        else
          if String.eqb (commandName interaction) "timer" then
            match opt_action interaction with
            | Some action =>
                if String.eqb action "stop" then timer_stop c st
                else if String.eqb action "restart" then timer_restart c st
                else if String.eqb action "status" then timer_status c st
                else st
            | None => st
            end
          else if String.eqb (commandName interaction) "creator" then
            match opt_action interaction with
            | Some action =>
                if String.eqb action "check" then creator_check c st
                else if String.eqb action "assign"
                     then creator_assign c (opt_user interaction) st
                     else st
            | None => st
            end
          else st
    end.

Definition channelDelete (c : string) (st : State) : State :=
  match tickets st !! c with
  | Some _ =>
      let st := clearAllTimers c st in
      saveTickets (set_tickets (delete c (tickets st)) st)
  | None => st
  end.

Definition step (st : State) (ev : Z * Event) : option State :=
  let '(t, e) := ev in
  if t <? clock st then None
  else
    let st := set_clock t st in
    match e with
    | MessageCreate m => Some (messageCreate m st)
    | InteractionCreate i => Some (interactionCreate i st)
    | ChannelDelete c => Some (channelDelete c st)
    | TimerFires h => fire h st
    | ProcessRestart announced alive => Some (restart announced alive st)
    end.

Fixpoint run (evs : list (Z * Event)) (st : State) : option State :=
  match evs with
  | [] => Some st
  | ev :: rest =>
      match step st ev with
      | Some st' => run rest st'
      | None => None
      end
  end.

End Handlers.

(** *** Vocabulary of the statements *)

(** The file holds the tickets of the map. *)
Definition synced (st : State) : Prop := file st = Some (snapshot st).

(** The handles held by a ticket object. *)
Definition handles (t : Ticket) : list nat :=
  omap id [timer_start (timers t); timer_repeat (timers t); timer_staff (timers t)].

(** The ticket as [clearAllTimers] leaves it. *)
Definition cleared (t : Ticket) : Ticket := mkTicket (creatorId t) empty_timer None 0.

(** What the state keeps when only timers, the clock or what was sent
    change: the map, the saved fields of every ticket object, the file. *)
Definition same_records (st st' : State) : Prop :=
  tickets st' = tickets st
  ∧ (∀ r, stored <$> objs st' !! r = stored <$> objs st !! r)
  ∧ file st' = file st.

(** What an event leaves of the records: the map, the saved fields and
    the file as they were, or a file written from the map. *)
Definition kept (st st' : State) : Prop := same_records st st' ∨ synced st'.

(** While the map holds a ticket, the file holds the tickets of the map. *)
Definition in_step (st : State) : Prop := tickets st = ∅ ∨ synced st.

(** *** A concrete run, used by the examples below *)

(** The file as a stopped process left it: one ticket of [alice] whose
    countdown began at 1000, with two reminders sent; and the process that
    starts one hour later, the client announcing itself as [clientReady]. *)
Definition persisted : State :=
  mkState 0 ∅ ∅ 0 (Some {[ "chan" := mkStored "alice" (Some 1000) 2 ]}) [] 0 [].

Definition booted : State :=
  restart "clientReady" ["chan"] (set_clock (1000 + hour) persisted).

(** What that process goes through: a message of [alice] that opens the
    ticket, a staff message and the end of its pre-delay, the first
    reminder, an assignment of the creator, and the deletion of the
    channel. *)
Definition sample_events : list (Z * Event) :=
  [(1000 + 2 * hour, MessageCreate (says alice plain_member));
   (1000 + 3 * hour, MessageCreate (says bob staff_member));
   (1000 + 3 * hour + START_DELAY, TimerFires 0);
   (1000 + 9 * hour + START_DELAY, TimerFires 1);
   (1000 + 10 * hour, InteractionCreate (command "creator" "assign" (Some bob)));
   (1000 + 11 * hour, ChannelDelete "chan")].

(** The state of that process after the first reminder. *)
Definition active : State :=
  default booted (run env0 (take 4 sample_events) booted).

End FileBacked.

(** ** The first version

    The bot at the head of [index.js]: a staff message arms a reminder and
    an automatic close for the ticket, a user's message forgets them. *)
Module FirstVersion.

(** The values that the handler compares with [!==]: the parent of a
    channel is a string or [null], the literal it is compared with is a
    number. *)
Inductive Value :=
| VNull
| VString (s : string)
| VNumber (n : Z).

(** [a !== b]: values of different types are not equal. *)
Definition strict_neq (a b : Value) : bool :=
  match a, b with
  | VNull, VNull => false
  | VString s, VString s' => negb (String.eqb s s')
  | VNumber n, VNumber n' => negb (n =? n')
  | _, _ => true
  end.

Record Message := mkMessage {
  guild : bool;
  author_bot : bool;
  member_staff : bool;
  channel_id : string;
  parentId : option string }.

Definition parent (message : Message) : Value :=
  match parentId message with
  | Some s => VString s
  | None => VNull
  end.

Inductive Callback :=
| CbReminder (channel : string)
| CbAutoclose (channel : string).

Record Sched := mkSched {
  hid : nat;
  due : Z;
  cb : Callback }.

(** The [tickets] map keeps [{reminder, autoclose}] for a channel. *)
Record State := mkState {
  clock : Z;
  tickets : gmap string (nat * nat);
  pending : list Sched;
  next_hid : nat }.

Definition setTimeout (k : Callback) (after : Z) (st : State) : nat * State :=
  (next_hid st,
   mkState (clock st) (tickets st)
           (pending st ++ [mkSched (next_hid st) (clock st + timer_delay after) k])
           (S (next_hid st))).

Definition messageCreate (message : Message) (st : State) : State :=
  if negb (guild message) || author_bot message then st
  else
    let c := channel_id message in
    if strict_neq (parent message) (VNumber 1434571556121743411) then st
    else
      let isStaff := member_staff message in
      if negb isStaff
      then mkState (clock st) (delete c (tickets st)) (pending st) (next_hid st)
      else
        if bool_decide (is_Some (tickets st !! c)) then st
        else
          let '(reminder, st) := setTimeout (CbReminder c) (6 * 60 * 60 * 1000) st in
          let '(autoclose, st) := setTimeout (CbAutoclose c) (24 * 60 * 60 * 1000) st in
          mkState (clock st) (<[c := (reminder, autoclose)]> (tickets st))
                  (pending st) (next_hid st).

End FirstVersion.

(** ** Basic facts *)

Lemma merge_paths_fresh (t t' : Ticket) :
  oid t' = oid t → merge_paths t t' t = t'.
Proof.
  intros Ho. destruct t as [o c s n], t' as [o' c' s' n']. simpl in Ho. subst o'.
  unfold merge_paths; simpl. by repeat case_decide; subst.
Qed.

(** Saving a document right after it was loaded stores its current values. *)
Lemma save_fresh (m : gmap string Ticket) (c : string) (t t' : Ticket) :
  m !! c = Some t → oid t' = oid t →
  save (mkDoc c t t') m = Some (<[c := t']> m).
Proof.
  intros Hm Ho. unfold save; simpl. case_decide as Heq.
  - subst t'. by rewrite insert_id.
  - rewrite Hm. rewrite decide_True by done. by rewrite merge_paths_fresh.
Qed.

Arguments save : simpl never.

(** ** Messages of other bots *)

(** C10: a message whose author is a bot other than the ticket-tool bot
    leaves the whole state as it was: no record is created or changed, no
    timer is armed, cancelled or re-armed, whatever [creatorId] holds. *)
Theorem messageCreate_ignores_other_bots (env : Env) (message : Message) (st : State) :
  user_bot (author message) = true →
  user_id (author message) ≠ TICKET_TOOL_BOT_ID env →
  messageCreate env message st = st.
Proof.
  intros Hbot Hid. unfold messageCreate.
  destruct (guild message); simpl; [|done].
  rewrite Hbot. simpl.
  by destruct (String.eqb_spec (user_id (author message)) (TICKET_TOOL_BOT_ID env)).
Qed.

Lemma messageCreate_ignores_other_bots_witness :
  let st := snd (setTimeout (CbReminder "chan") hour
                   (persisted "helper-bot" (Some 1000) 2)) in
  messageCreate env0 (says helper_bot plain_member) st = st.
Proof.
  apply (messageCreate_ignores_other_bots env0 (says helper_bot plain_member)).
  - reflexivity.
  - simpl. discriminate.
Defined.

(** ** Manual creator assignment *)

Lemma interactionCreate_assign (env : Env) (i : Interaction) (u : User) (st : State) :
  isCommand i = true →
  isStaff env (i_member i) = true →
  commandName i = "creator" →
  opt_action i = Some "assign" →
  opt_user i = Some u →
  interactionCreate env i st
  = creator_assign (i_channel i) (findOne (db st) (i_channel i)) (Some u) st.
Proof.
  intros Hc Hs Hn Ha Hu. unfold interactionCreate.
  destruct (i_member i) as [mm|]; [|done]. simpl in Hs.
  rewrite Hc, Hs, Hn, Ha, Hu. reflexivity.
Qed.

(** C9: [/creator assign] by a staff member stores the given user as
    [creatorId], in a new record with no start time and a zero count when
    the ticket had none and in the existing record otherwise; the start
    time, the reminder count, the [timers] map, the timer objects and every
    armed timer stay as they were, and so does every other record. *)
Theorem creator_assign_frame (env : Env) (i : Interaction) (u : User) (st : State) :
  isCommand i = true →
  isStaff env (i_member i) = true →
  commandName i = "creator" →
  opt_action i = Some "assign" →
  opt_user i = Some u →
  let st' := interactionCreate env i st in
  db st' = <[i_channel i := assigned u st (db st !! i_channel i)]> (db st)
  ∧ timers st' = timers st
  ∧ heap st' = heap st
  ∧ pending st' = pending st
  ∧ clock st' = clock st.
Proof.
  intros Hc Hs Hn Ha Hu. cbv zeta.
  rewrite (interactionCreate_assign env i u st Hc Hs Hn Ha Hu).
  unfold creator_assign, findOne.
  destruct (db st !! i_channel i) as [t|] eqn:Hdb; simpl.
  - unfold assign_creatorId; simpl.
    rewrite (save_fresh (db st) (i_channel i) t
               (mkTicket (oid t) (user_id u) (timerStartTime t) (reminderCount t)) Hdb eq_refl).
    done.
  - done.
Qed.

Lemma creator_assign_frame_witness :
  let st := snd (setTimeout (CbStaffAlert "chan") hour (persisted "alice" (Some 1000) 2)) in
  let st' := interactionCreate env0 (command "creator" "assign" (Some bob)) st in
  db st' = <["chan" := mkTicket 0 "bob" (Some 1000) 2]> (db st)
  ∧ timers st' = timers st
  ∧ heap st' = heap st
  ∧ pending st' = pending st
  ∧ clock st' = clock st.
Proof.
  exact (creator_assign_frame env0 (command "creator" "assign" (Some bob)) bob _
           eq_refl eq_refl eq_refl eq_refl eq_refl).
Defined.

(** ** What [clearAllTimers] cancels *)

Lemma clearAllTimers_clear_opt (c : string) (st : State) :
  clearAllTimers c st
  = match timers st !! c with
    | None => st
    | Some r =>
        let timer := deref r st in
        let st := clear_opt (timer_start timer) st in
        let st := clear_opt (timer_repeat timer) st in
        let st := clear_opt (timer_staff timer) st in
        set_timers (delete c (timers st)) st
    end.
Proof. reflexivity. Qed.

Lemma filter_all {A} (P : A → Prop) `{∀ x, Decision (P x)} (l : list A) :
  (∀ x, x ∈ l → P x) → filter P l = l.
Proof.
  induction l as [|x l IH]; intros HP; [done|].
  rewrite filter_cons_True by (apply HP; left).
  rewrite IH; [done|]. intros y Hy. apply HP. by right.
Qed.

(** Closed statements about concrete runs are settled by evaluation. *)
Ltac by_evaluation :=
  vm_compute; repeat (apply conj; [reflexivity|]); reflexivity.

Ltac elem_norm :=
  simpl; rewrite ?not_elem_of_cons, ?elem_of_cons, ?elem_of_nil.

Lemma clear_opt_pending (h : option nat) (st : State) :
  pending (clear_opt h st)
  = filter (λ e, hid e ∉ omap id [h]) (pending st).
Proof.
  destruct h as [x|]; simpl.
  - apply list_filter_iff. intros e. elem_norm. tauto.
  - symmetry. apply filter_all. intros e _. apply not_elem_of_nil.
Qed.

Lemma clearAllTimers_pending (c : string) (st : State) :
  pending (clearAllTimers c st)
  = filter (λ e, hid e ∉ registered c st) (pending st).
Proof.
  rewrite clearAllTimers_clear_opt. unfold registered.
  destruct (timers st !! c) as [r|]; simpl.
  - rewrite !clear_opt_pending, !list_filter_filter.
    apply list_filter_iff. intros e.
    destruct (timer_start (deref r st)), (timer_repeat (deref r st)),
      (timer_staff (deref r st)); elem_norm; tauto.
  - symmetry. apply filter_all. intros e _. apply not_elem_of_nil.
Qed.

Lemma clearAllTimers_frame (c : string) (st : State) :
  clock (clearAllTimers c st) = clock st ∧ db (clearAllTimers c st) = db st
  ∧ next_oid (clearAllTimers c st) = next_oid st
  ∧ timers (clearAllTimers c st) = delete c (timers st)
  ∧ heap (clearAllTimers c st) = heap st
  ∧ next_ref (clearAllTimers c st) = next_ref st
  ∧ next_hid (clearAllTimers c st) = next_hid st
  ∧ trace (clearAllTimers c st) = trace st.
Proof.
  rewrite clearAllTimers_clear_opt.
  destruct (timers st !! c) as [r|] eqn:Ht; simpl.
  - destruct (timer_start (deref r st)), (timer_repeat (deref r st)),
      (timer_staff (deref r st)); simpl; done.
  - rewrite delete_id by done. done.
Qed.

(** [clearAllTimers] twice is [clearAllTimers] once. *)
Lemma clearAllTimers_idempotent (c : string) (st : State) :
  clearAllTimers c (clearAllTimers c st) = clearAllTimers c st.
Proof.
  destruct (clearAllTimers_frame c st) as (_ & _ & _ & Ht & _).
  unfold clearAllTimers at 1. rewrite Ht, lookup_delete_eq. done.
Qed.

Arguments cancelled : simpl never.

Lemma cancelled_fields (c : string) (t : Ticket) (st : State) :
  db (cancelled c t st) = <[c := mkTicket (oid t) (creatorId t) None 0]> (db st)
  ∧ timers (cancelled c t st) = delete c (timers st)
  ∧ heap (cancelled c t st) = heap st
  ∧ pending (cancelled c t st)
    = filter (λ e, hid e ∉ registered c st) (pending st)
  ∧ trace (cancelled c t st) = trace st
  ∧ clock (cancelled c t st) = clock st.
Proof.
  destruct (clearAllTimers_frame c st) as (Hc & Hd & _ & Ht & Hh & _ & _ & Htr).
  unfold cancelled; simpl. rewrite Ht, Hh, Htr, Hc, clearAllTimers_pending. done.
Qed.

Lemma save_cancel (c : string) (t : Ticket) (st : State) :
  db st !! c = Some t →
  save (assign_reminderCount 0
          (assign_timerStartTime None (mkDoc c t t)))
       (db (clearAllTimers c st))
  = Some (<[c := mkTicket (oid t) (creatorId t) None 0]> (db st)).
Proof.
  intros Hdb. destruct (clearAllTimers_frame c st) as (_ & Hd & _).
  rewrite Hd. unfold assign_reminderCount, assign_timerStartTime; simpl.
  by apply save_fresh.
Qed.

Lemma timer_delay_id (d : Z) : 1 ≤ d ≤ TIMEOUT_MAX → timer_delay d = d.
Proof.
  intros [H1 H2]. unfold timer_delay.
  destruct (Z.leb_spec 1 d); [|lia]. destruct (Z.leb_spec d TIMEOUT_MAX); [done|lia].
Qed.

(** The staff branch of [messageCreate]: the registered handles are cleared
    and one timeout for the pre-delay is armed, held by a new timer object. *)
Lemma restart_countdown_fields (c : string) (t : Ticket) (st : State) :
  db st !! c = Some t →
  let st' := startTimers c (clearAllTimers c st) in
  clock st' = clock st ∧ db st' = db st ∧ next_oid st' = next_oid st
  ∧ timers st' = <[c := next_ref st]> (timers st)
  ∧ heap st' = <[next_ref st := mkTimer (Some (next_hid st)) None None]> (heap st)
  ∧ next_ref st' = S (next_ref st)
  ∧ pending st'
    = filter (λ e, hid e ∉ registered c st) (pending st)
      ++ [mkSched (next_hid st) (clock st + START_DELAY) None
                  (CbStart c (mkDoc c t t) (next_ref st))]
  ∧ next_hid st' = S (next_hid st)
  ∧ trace st' = trace st.
Proof.
  intros Hdb. cbv zeta.
  destruct (clearAllTimers_frame c st)
    as (Hc & Hd & Ho & Ht & Hh & Hr & Hn & Htr).
  unfold startTimers, findOne. rewrite Hd, Hdb.
  rewrite clearAllTimers_idempotent.
  unfold new_timer, setTimeout, arm, set_start, deref; simpl.
  rewrite Hc, Hd, Ho, Ht, Hh, Hr, Hn, Htr, clearAllTimers_pending.
  rewrite lookup_insert_eq; simpl.
  rewrite insert_insert_eq, insert_delete_eq.
  rewrite timer_delay_id by (unfold START_DELAY, TIMEOUT_MAX; lia).
  done.
Qed.

Lemma messageCreate_heard (env : Env) (message : Message) (st : State) (t : Ticket) :
  heard env message →
  db st !! channel_id message = Some t →
  messageCreate env message st
  = let c := channel_id message in
    if negb (isStaff env (member message))
       && String.eqb (user_id (author message)) (creatorId t)
    then
      match save (assign_reminderCount 0
                    (assign_timerStartTime None (mkDoc c t t)))
                 (db (clearAllTimers c st)) with
      | None => clearAllTimers c st
      | Some d =>
          let st1 := set_db d (clearAllTimers c st) in
          if bool_decide (timerStartTime t ≠ None)
          then log c LogCreatorReplied st1 else st1
      end
    else if isStaff env (member message)
         then startTimers c (clearAllTimers c st)
         else st.
Proof.
  intros (Hg & Hp & Hb) Hdb. unfold messageCreate.
  rewrite Hg; simpl.
  replace (user_bot (author message)
           && negb (user_id (author message) =? TICKET_TOOL_BOT_ID env)%string)
    with false.
  2:{ destruct Hb as [->| ->]; [done|]. rewrite String.eqb_refl. by rewrite andb_false_r. }
  rewrite Hp, String.eqb_refl; simpl.
  unfold findOne. rewrite Hdb. reflexivity.
Qed.

(** A reply of the ticket's creator, heard by the bot. *)
Lemma messageCreate_creator_reply (env : Env) (message : Message) (st : State)
    (t : Ticket) :
  heard env message →
  db st !! channel_id message = Some t →
  isStaff env (member message) = false →
  user_id (author message) = creatorId t →
  messageCreate env message st
  = if bool_decide (timerStartTime t ≠ None)
    then log (channel_id message) LogCreatorReplied (cancelled (channel_id message) t st)
    else cancelled (channel_id message) t st.
Proof.
  intros Hh Hdb Hs Ha.
  rewrite (messageCreate_heard env message st t Hh Hdb).
  cbv zeta. rewrite Hs, Ha, String.eqb_refl. simpl.
  rewrite (save_cancel _ _ _ Hdb). reflexivity.
Qed.

Lemma messageCreate_staff (env : Env) (message : Message) (st : State) (t : Ticket) :
  heard env message →
  db st !! channel_id message = Some t →
  isStaff env (member message) = true →
  messageCreate env message st
  = startTimers (channel_id message) (clearAllTimers (channel_id message) st).
Proof.
  intros Hh Hdb Hs.
  rewrite (messageCreate_heard env message st t Hh Hdb).
  cbv zeta. rewrite Hs. reflexivity.
Qed.

(** ** The creator's reply *)


(** ** Manual stop *)

Lemma interactionCreate_timer (env : Env) (i : Interaction) (action : string)
    (st : State) :
  isCommand i = true →
  isStaff env (i_member i) = true →
  commandName i = "timer" →
  opt_action i = Some action →
  interactionCreate env i st
  = let c := i_channel i in
    let ticket := findOne (db st) c in
    if String.eqb action "stop" then timer_stop c ticket st
    else if String.eqb action "restart" then timer_restart c ticket st
    else if String.eqb action "status" then timer_status c ticket st
    else st.
Proof.
  intros Hc Hs Hn Ha. unfold interactionCreate.
  destruct (i_member i) as [mm|]; [|done]. simpl in Hs.
  rewrite Hc, Hs, Hn, Ha. reflexivity.
Qed.

(** [/timer stop] by a staff member on a ticket whose record holds a start
    time does what the creator's reply does and answers that the timer was
    stopped.  With no record or no start time it changes nothing and
    answers that there is no active timer. *)
Lemma timer_stop_fields (env : Env) (i : Interaction) (st : State) :
  isCommand i = true →
  isStaff env (i_member i) = true →
  commandName i = "timer" →
  opt_action i = Some "stop" →
  let c := i_channel i in
  let st' := interactionCreate env i st in
  match db st !! c with
  | Some t =>
      match truthy (timerStartTime t) with
      | Some _ =>
          st' = log c LogManualStop (reply c ReplyStopped (cancelled c t st))
          ∧ ∀ message,
              heard env message → channel_id message = c →
              isStaff env (member message) = false →
              user_id (author message) = creatorId t →
              let st'' := messageCreate env message st in
              db st' = db st'' ∧ timers st' = timers st''
              ∧ heap st' = heap st'' ∧ pending st' = pending st''
      | None => st' = reply c ReplyNoActiveTimer st
      end
  | None => st' = reply c ReplyNoActiveTimer st
  end.
Proof.
  intros Hc Hs Hn Ha c st'. subst st'.
  rewrite (interactionCreate_timer env i "stop" st Hc Hs Hn Ha).
  cbv zeta. simpl String.eqb. cbv iota. fold c.
  unfold timer_stop, findOne.
  destruct (db st !! c) as [t|] eqn:Hdb; [|done]. simpl cur.
  destruct (truthy (timerStartTime t)) as [v|] eqn:Hv; [|done].
  rewrite (save_cancel c t st Hdb). split; [done|].
  intros message Hh Hch Hst Hau. cbv zeta.
  rewrite <- Hch in Hdb.
  rewrite (messageCreate_creator_reply env message st t Hh Hdb Hst Hau).
  rewrite Hch. by destruct (bool_decide (timerStartTime t ≠ None)).
Qed.

(** ** The reminder that the recovery listener arms outside the timer object *)

(** The listener arms three timers and stores two handles: the timeout for
    the next reminder (handle 1) is in no timer object. *)
Lemma recovered_pending :
  pending recovered
  = [mkSched 0 (1000 + hour + REMINDER_INTERVAL) (Some REMINDER_INTERVAL)
             (CbReminder "chan");
     mkSched 1 (1000 + REMINDER_INTERVAL) None (CbReminder "chan");
     mkSched 2 (1000 + STAFF_ALERT_TIME) None (CbStaffAlert "chan")]
  ∧ registered "chan" recovered = [0%nat; 2%nat].
Proof. by_evaluation. Qed.

(** So [clearAllTimers] would leave that timeout armed, were the listener
    to run. *)
Lemma recovered_reminder_escapes :
  pending (clearAllTimers "chan" recovered)
  = [mkSched 1 (1000 + REMINDER_INTERVAL) None (CbReminder "chan")].
Proof. by_evaluation. Qed.

(** ** Staff messages during the pre-delay *)


Lemma timer_delay_interval : timer_delay REMINDER_INTERVAL = REMINDER_INTERVAL.
Proof. reflexivity. Qed.

Lemma timer_delay_alert : timer_delay STAFF_ALERT_TIME = STAFF_ALERT_TIME.
Proof. reflexivity. Qed.

(** The countdown as the pre-delay's callback begins it. *)
Lemma start_callback_fields (c : string) (d : Doc) (r : nat) (st : State)
    (m' : gmap string Ticket) :
  save (assign_reminderCount 0 (assign_timerStartTime (Some (clock st)) d)) (db st)
  = Some m' →
  let st' := start_callback c d r st in
  clock st' = clock st ∧ db st' = m' ∧ next_oid st' = next_oid st
  ∧ timers st' = timers st
  ∧ heap st' = <[r := mkTimer (timer_start (deref r st)) (Some (next_hid st))
                              (Some (S (next_hid st)))]> (heap st)
  ∧ next_ref st' = next_ref st
  ∧ pending st'
    = pending st
      ++ [mkSched (next_hid st) (clock st + REMINDER_INTERVAL)
                  (Some REMINDER_INTERVAL) (CbReminder c);
          mkSched (S (next_hid st)) (clock st + STAFF_ALERT_TIME) None
                  (CbStaffAlert c)]
  ∧ next_hid st' = S (S (next_hid st))
  ∧ trace st' = ObsLog c LogTimerStarted (clock st) :: trace st.
Proof.
  intros Hsave. unfold start_callback. rewrite Hsave.
  unfold setInterval, setTimeout, arm, set_repeat, set_staff, deref; simpl.
  rewrite lookup_insert_eq; simpl. rewrite insert_insert_eq, <- app_assoc.
  rewrite timer_delay_interval, timer_delay_alert. done.
Qed.

Lemma start_callback_aborts (c : string) (d : Doc) (r : nat) (st : State) :
  save (assign_reminderCount 0 (assign_timerStartTime (Some (clock st)) d)) (db st)
  = None →
  start_callback c d r st = st.
Proof. intros Hsave. unfold start_callback. by rewrite Hsave. Qed.

Lemma sendReminder_found (c : string) (t : Ticket) (st : State) :
  db st !! c = Some t →
  sendReminder c st
  = log c (LogReminder (reminderCount t + 1))
      (emit (ObsReminder c (creatorId t) (reminderCount t + 1)
                         (reminderCount t + 1 =? 3) (clock st))
            (set_db (<[c := reminded t]> (db st)) st)).
Proof.
  intros Hdb. unfold sendReminder, findOne. rewrite Hdb.
  unfold assign_reminderCount; simpl.
  pose proof (save_fresh (db st) c t (reminded t) Hdb eq_refl) as Hs.
  unfold reminded in Hs. by rewrite Hs.
Qed.

Lemma sendReminder_missing (c : string) (st : State) :
  db st !! c = None → sendReminder c st = st.
Proof. intros Hdb. unfold sendReminder, findOne. by rewrite Hdb. Qed.

Lemma about_cons_ne (c : string) (o : Obs) (tr : list Obs) :
  obs_channel o ≠ c → about c (o :: tr) = about c tr.
Proof. intros Hne. unfold about. by rewrite filter_cons_False. Qed.




Lemma elem_of_rearm (h : nat) (t : Z) (e e' : Sched) :
  e' ∈ rearm h t e →
  hid e' = hid e ∧ cb e' = cb e ∧ period e' = period e
  ∧ (e' = e ∨ ∃ p, period e = Some p ∧ hid e = h ∧ due e' = t + p).
Proof.
  unfold rearm. case_decide as Hh.
  - destruct (period e) as [p|] eqn:Hp; intros He.
    + apply list_elem_of_singleton in He. subst e'. simpl.
      split; [done|]. split; [done|]. split; [done|]. right. by exists p.
    + by apply elem_of_nil in He.
  - intros He. apply list_elem_of_singleton in He. subst e'.
    split; [done|]. split; [done|]. split; [done|]. by left.
Qed.

Lemma fire_inv (h : nat) (st st' : State) :
  fire h st = Some st' →
  ∃ e, e ∈ pending st ∧ hid e = h ∧ due e ≤ clock st
       ∧ st' = run_callback (cb e)
                 (set_pending (pending st ≫= rearm h (clock st)) st).
Proof.
  unfold fire. destruct (list_find _ (pending st)) as [[i e]|] eqn:Hf; [|done].
  apply list_find_Some in Hf as (Hi & Hh & _).
  destruct (Z.leb_spec (due e) (clock st)); [|done].
  intros [= <-]. exists e. repeat split; try done.
  apply list_elem_of_lookup. by exists i.
Qed.




(** ** The body of the recovery listener *)

Lemma sendReminder_eq (c : string) (st : State) :
  sendReminder c st
  = mkState (clock st) (reminder_out c (db st) (clock st) (trace st)).1
            (next_oid st) (timers st) (heap st) (next_ref st)
            (pending st) (next_hid st)
            (reminder_out c (db st) (clock st) (trace st)).2.
Proof.
  unfold reminder_out. destruct (db st !! c) as [t|] eqn:Hdb.
  - by rewrite (sendReminder_found c t st Hdb).
  - rewrite (sendReminder_missing c st Hdb). by destruct st.
Qed.

(** The round of the recovery loop for a ticket whose countdown has not
    reached the staff alert. *)
Lemma recover_ticket_rearms (alive : list string) (c : string) (t : Ticket)
    (startTime : Z) (st : State) :
  truthy (timerStartTime t) = Some startTime →
  c ∈ alive →
  clock st - startTime < STAFF_ALERT_TIME →
  let now := clock st in
  let near := REMINDER_INTERVAL - Z.rem (now - startTime) REMINDER_INTERVAL <=? 1000 in
  let out := if near then reminder_out c (db st) now (trace st)
             else (db st, trace st) in
  let new := recovery_timers c (next_hid st) now startTime in
  recover_ticket alive st (c, t)
  = mkState now out.1 (next_oid st)
            (<[c := next_ref st]> (timers st))
            (<[next_ref st :=
                 mkTimer None (Some (next_hid st))
                         (Some (if near then S (next_hid st)
                                else S (S (next_hid st))))]> (heap st))
            (S (next_ref st))
            (pending st ++ new)
            (length new + next_hid st)%nat
            out.2.
Proof.
  intros Ht Hal Hel. cbv zeta. unfold recover_ticket, recovery_timers. rewrite Ht.
  rewrite bool_decide_eq_true_2 by done.
  destruct (Z.ltb_spec (clock st - startTime) STAFF_ALERT_TIME); [|lia].
  unfold new_timer, setInterval, setTimeout, arm, set_repeat, set_staff, deref; simpl.
  rewrite lookup_insert_eq; simpl.
  destruct (REMINDER_INTERVAL - Z.rem (clock st - startTime) REMINDER_INTERVAL <=? 1000).
  - rewrite sendReminder_eq; simpl.
    rewrite lookup_insert_eq; simpl. rewrite !insert_insert_eq, <- app_assoc.
    rewrite timer_delay_interval. reflexivity.
  - simpl. rewrite lookup_insert_eq; simpl.
    rewrite !insert_insert_eq, <- !app_assoc. rewrite timer_delay_interval.
    reflexivity.
Qed.

Lemma keeps_refl (c : string) (st : State) : keeps c st st.
Proof. by repeat split. Qed.

Lemma keeps_trans (c : string) (st1 st2 st3 : State) :
  keeps c st1 st2 → keeps c st2 st3 → keeps c st1 st3.
Proof.
  intros (Hc & Hd & Ht & Hh & Hr & Hp & Ho) (Hc' & Hd' & Ht' & Hh' & Hr' & Hp' & Ho').
  split; [congruence|]. split; [congruence|]. split; [congruence|].
  split; [intros r Hlt; rewrite Hh' by lia; by apply Hh|].
  split; [lia|]. split; [by auto|by auto].
Qed.

Lemma reminder_out_keeps (c c' : string) (d : gmap string Ticket) (now : Z)
    (tr : list Obs) :
  c' ≠ c →
  (reminder_out c' d now tr).1 !! c = d !! c
  ∧ ∀ o, o ∈ tr → o ∈ (reminder_out c' d now tr).2.
Proof.
  intros Hne. unfold reminder_out. destruct (d !! c') as [t|]; simpl.
  - split; [by rewrite lookup_insert_ne|]. intros o Ho. by do 2 right.
  - done.
Qed.

Lemma recover_ticket_keeps (alive : list string) (c c' : string) (t : Ticket)
    (st : State) :
  c' ≠ c → keeps c st (recover_ticket alive st (c', t)).
Proof.
  intros Hne.
  destruct (truthy (timerStartTime t)) as [startTime|] eqn:Ht.
  2:{ unfold recover_ticket. rewrite Ht. apply keeps_refl. }
  destruct (decide (c' ∈ alive)) as [Hal|Hal].
  2:{ unfold recover_ticket. rewrite Ht, bool_decide_eq_false_2 by done.
      unfold deleteOne, keeps; simpl. rewrite lookup_delete_ne by done.
      by repeat split. }
  destruct (Z.lt_ge_cases (clock st - startTime) STAFF_ALERT_TIME) as [Hel|Hel].
  - rewrite (recover_ticket_rearms alive c' t startTime st Ht Hal Hel).
    unfold keeps; simpl.
    split; [done|]. split.
    { destruct (_ <=? 1000); [|done].
      by destruct (reminder_out_keeps c c' (db st) (clock st) (trace st) Hne). }
    split; [by rewrite lookup_insert_ne|].
    split; [intros r Hr; rewrite lookup_insert_ne by lia; done|].
    split; [lia|]. split; [intros e He; rewrite elem_of_app; by left|].
    destruct (_ <=? 1000); [|done].
    by destruct (reminder_out_keeps c c' (db st) (clock st) (trace st) Hne).
  - unfold recover_ticket. rewrite Ht, bool_decide_eq_true_2 by done.
    destruct (Z.ltb_spec (clock st - startTime) STAFF_ALERT_TIME); [lia|].
    unfold sendStaffAlert, log, emit, keeps; simpl.
    repeat split; try done. intros o Ho. by do 2 right.
Qed.

Lemma recovery_loop_keeps (alive : list string) (c : string)
    (l : list (string * Ticket)) :
  ∀ st, c ∉ l.*1 → keeps c st (foldl (recover_ticket alive) st l).
Proof.
  induction l as [|[c' t] l IH]; intros st Hc; simpl.
  - apply keeps_refl.
  - simpl in Hc. apply not_elem_of_cons in Hc as [Hne Hc].
    eapply keeps_trans; [|by apply IH].
    by apply recover_ticket_keeps.
Qed.

Lemma rem_elapsed (k r : Z) :
  0 ≤ k → 0 ≤ r < REMINDER_INTERVAL →
  Z.rem (k * REMINDER_INTERVAL + r) REMINDER_INTERVAL = r.
Proof.
  intros Hk Hr. assert (0 < REMINDER_INTERVAL) by (unfold REMINDER_INTERVAL; lia).
  rewrite Z.rem_mod_nonneg by nia.
  rewrite Z.add_comm, Z_mod_plus_full. by apply Z.mod_small.
Qed.

Lemma spec_next_elapsed (T k r now : Z) :
  0 ≤ k → 0 ≤ r < REMINDER_INTERVAL → now = T + k * REMINDER_INTERVAL + r →
  spec_next_reminder T now = now + (REMINDER_INTERVAL - r).
Proof.
  intros Hk Hr ->. unfold spec_next_reminder, spec_reminder_count.
  replace (T + k * REMINDER_INTERVAL + r - T) with (k * REMINDER_INTERVAL + r) by lia.
  rewrite Z.div_add_l by (unfold REMINDER_INTERVAL; lia).
  rewrite Z.div_small by done. lia.
Qed.

(** What the listener does when it runs: a ticket persisted with start time
    [T] and found by a process that starts at
    [T + k * REMINDER_INTERVAL + r], before the staff alert is due, gets a
    timeout for its next reminder due [REMINDER_INTERVAL - r] after the
    start when that is more than a second away, and is sent that reminder
    at once otherwise; the staff alert is armed for [T + STAFF_ALERT_TIME]
    and held by the ticket's timer object; the count of the record is the
    persisted one, plus one for a reminder sent at once. *)
Lemma listener_rearms (alive : list string) (st : State) (c : string)
    (t : Ticket) (T k r : Z) :
  db st !! c = Some t → timerStartTime t = Some T → T ≠ 0 → c ∈ alive →
  0 ≤ k → 0 ≤ r < REMINDER_INTERVAL →
  clock st = T + k * REMINDER_INTERVAL + r →
  k * REMINDER_INTERVAL + r < STAFF_ALERT_TIME →
  let st' := clientready alive (fresh st) in
  (if REMINDER_INTERVAL - r <=? 1000
   then db st' !! c = Some (reminded t)
        ∧ ObsReminder c (creatorId t) (reminderCount t + 1)
                      (reminderCount t + 1 =? 3) (clock st) ∈ trace st'
   else db st' !! c = Some t
        ∧ ∃ h, mkSched h (clock st + (REMINDER_INTERVAL - r)) None (CbReminder c)
               ∈ pending st')
  ∧ clock st + (REMINDER_INTERVAL - r) = spec_next_reminder T (clock st)
  ∧ (∃ ref h, timers st' !! c = Some ref
              ∧ timer_staff (deref ref st') = Some h
              ∧ mkSched h (T + STAFF_ALERT_TIME) None (CbStaffAlert c) ∈ pending st')
  ∧ ∀ st1 t1, db st1 !! c = Some t1 →
              db (sendReminder c st1) !! c = Some (reminded t1).
Proof.
  intros Hdb HT HT0 Hal Hk Hr Hclk Hel st'.
  split; [|split; [by rewrite (spec_next_elapsed T k r (clock st))|]]; [| split].
  3:{ intros st1 t1 Hdb1. rewrite (sendReminder_found c t1 st1 Hdb1). simpl.
      by rewrite lookup_insert_eq. }
  all: subst st'; unfold clientready; simpl db.
  all: set (st0 := fresh st).
  all: assert (Hin : (c, t) ∈ map_to_list (db st)) by by apply elem_of_map_to_list.
  all: pose proof (NoDup_fst_map_to_list (db st)) as Hnd.
  all: apply list_elem_of_split in Hin as (l1 & l2 & Hl); rewrite Hl in Hnd |- *.
  all: rewrite fmap_app, fmap_cons in Hnd; simpl in Hnd.
  all: apply NoDup_app in Hnd as (_ & Hl1 & Hnd); apply NoDup_cons in Hnd as [Hl2 _].
  all: assert (Hc1 : c ∉ l1.*1) by (intros Hc; apply (Hl1 c Hc); left).
  all: rewrite foldl_app; cbn [foldl].
  all: set (sta := foldl (recover_ticket alive) st0 l1).
  all: destruct (recovery_loop_keeps alive c l1 st0 Hc1)
         as (Hca & Hda & _); fold sta in Hca, Hda.
  all: change (clock st0) with (clock st) in Hca; change (db st0) with (db st) in Hda.
  all: assert (Htr : truthy (timerStartTime t) = Some T)
         by (rewrite HT; simpl; by destruct (Z.eqb_spec T 0)).
  all: assert (Hel' : clock sta - T < STAFF_ALERT_TIME) by lia.
  all: pose proof (recover_ticket_rearms alive c t T sta Htr Hal Hel') as Hb.
  all: cbv zeta in Hb; set (stb := recover_ticket alive sta (c, t)) in *.
  all: destruct (recovery_loop_keeps alive c l2 stb Hl2)
         as (Hcc & Hdc & Htc & Hhc & _ & Hpc & Hoc).
  all: replace (clock sta - T) with (k * REMINDER_INTERVAL + r) in Hb by lia.
  all: rewrite (rem_elapsed k r Hk Hr) in Hb.
  all: unfold recovery_timers in Hb.
  all: replace (clock sta - T) with (k * REMINDER_INTERVAL + r) in Hb by lia.
  all: rewrite (rem_elapsed k r Hk Hr) in Hb.
  all: pose proof (f_equal db Hb) as Hbd; pose proof (f_equal trace Hb) as Hbt;
       pose proof (f_equal pending Hb) as Hbp; pose proof (f_equal timers Hb) as Hbm;
       pose proof (f_equal heap Hb) as Hbh; pose proof (f_equal next_ref Hb) as Hbr;
       simpl in Hbd, Hbt, Hbp, Hbm, Hbh, Hbr; clear Hb.
  - rewrite Hdc, Hbd. destruct (REMINDER_INTERVAL - r <=? 1000) eqn:Hnear.
    + unfold reminder_out in *. rewrite Hda, Hdb in *. simpl in *.
      rewrite lookup_insert_eq. split; [done|].
      apply Hoc. rewrite Hbt, Hca. right; left.
    + simpl. rewrite Hda, Hdb. split; [done|].
      apply Z.leb_gt in Hnear.
      rewrite (timer_delay_id (REMINDER_INTERVAL - r)) in Hbp
        by (unfold REMINDER_INTERVAL, TIMEOUT_MAX in *; lia).
      rewrite Hca in Hbp.
      exists (S (next_hid sta)). apply Hpc. rewrite Hbp.
      rewrite elem_of_app. right. right. left.
  - exists (next_ref sta).
    exists (if REMINDER_INTERVAL - r <=? 1000
            then S (next_hid sta) else S (S (next_hid sta))).
    rewrite Htc, Hbm. split; [by rewrite lookup_insert_eq|].
    unfold deref. rewrite Hhc by (rewrite Hbr; lia). rewrite Hbh.
    split; [by rewrite lookup_insert_eq|].
    rewrite (timer_delay_id (STAFF_ALERT_TIME - (k * REMINDER_INTERVAL + r))) in Hbp
      by (unfold STAFF_ALERT_TIME, REMINDER_INTERVAL, TIMEOUT_MAX in *; lia).
    replace (clock sta + (STAFF_ALERT_TIME - (k * REMINDER_INTERVAL + r)))
      with (T + STAFF_ALERT_TIME) in Hbp by lia.
    apply Hpc. rewrite Hbp. rewrite elem_of_app. right.
    destruct (REMINDER_INTERVAL - r <=? 1000).
    + right; left.
    + right; right; left.
Qed.

(** ** The staff alert within one run of the process *)

Lemma quiet_no_timer {b : bool} (c : string) (st : State) :
  Inv_at b st → timers st !! c = None → quiet c st.
Proof.
  intros HI Ht e He. split.
  - intros d r Hcb. destruct (inv_start st HI e c d r He Hcb) as (_ & _ & _ & Hr & _).
    congruence.
  - intros Hcb. destruct (inv_alert st HI e c He Hcb) as (_ & r & o & t & T & Hr & _).
    congruence.
Qed.

Lemma quiet_no_record {b : bool} (c : string) (st : State) :
  Inv_at b st → db st !! c = None → quiet c st.
Proof.
  intros HI Hd e He. split.
  - intros d r Hcb.
    destruct (inv_start st HI e c d r He Hcb) as (_ & _ & _ & _ & _ & t & Ht & _).
    congruence.
  - intros Hcb.
    destruct (inv_alert st HI e c He Hcb) as (_ & r & o & t & T & _ & _ & _ & Ht & _).
    congruence.
Qed.

Lemma alert_epochs_cons_other (c : string) (o : Obs) (tr : list Obs) :
  ¬ is_alert o → alert_epochs c (o :: tr) = alert_epochs c tr.
Proof. intros Ho. by destruct o. Qed.

Arguments alert_epochs : simpl never.

(** The invariant does not read [next_oid], and reads the other fields only. *)
Lemma Inv_fields {b : bool} (st st' : State) :
  Inv_at b st →
  clock st' = clock st → db st' = db st → timers st' = timers st →
  heap st' = heap st → next_ref st' = next_ref st →
  pending st' = pending st → next_hid st' = next_hid st →
  trace st' = trace st →
  Inv_at b st'.
Proof.
  intros [H1 H2 H3 H4 H5 H6 H7 H8 H9 H10] Hc Hd Ht Hh Hr Hp Hn Htr.
  constructor; unfold start_ok, alert_ok in *;
    rewrite ?Hc, ?Hd, ?Ht, ?Hh, ?Hr, ?Hp, ?Hn, ?Htr; done.
Qed.

Lemma Inv_emit {b : bool} (o : Obs) (st : State) :
  ¬ is_alert o → Inv_at b st → Inv_at b (emit o st).
Proof.
  intros Ho [H1 H2 H3 H4 H5 H6 H7 H8 H9 H10].
  constructor; simpl; try done.
  - intros e c He Hcb.
    destruct (H6 e c He Hcb) as (Hp1 & r & o' & t & T & Hr1 & Hr2 & Hr3 & Hr4 & Hr5 & Hr6 & Hr7).
    split; [done|]. exists r, o', t, T. simpl.
    rewrite alert_epochs_cons_other by done. done.
  - intros c T. rewrite alert_epochs_cons_other by done. apply H8.
  - intros c. rewrite alert_epochs_cons_other by done. apply H9.
  - intros c tk τ Hin. apply elem_of_cons in Hin as [Heq|Hin].
    + subst o. by destruct Ho.
    + by apply (H10 c tk τ).
Qed.

Lemma Inv_set_clock {b : bool} (τ : Z) (st : State) :
  clock st ≤ τ → Inv_at b st → Inv_at b (set_clock τ st).
Proof.
  intros Hτ [H1 H2 H3 H4 H5 H6 H7 H8 H9 H10].
  constructor; unfold start_ok, alert_ok in *; simpl; try done.
  - intros Hb c t T Hd HT. specialize (H7 Hb c t T Hd HT). lia.
  - intros c T HT. specialize (H8 c T HT). lia.
Qed.

Lemma NoDup_fmap_filter {A B} (f : A → B) (P : A → Prop)
    `{∀ x, Decision (P x)} (l : list A) :
  NoDup (f <$> l) → NoDup (f <$> filter P l).
Proof.
  induction l as [|x l IH]; [done|].
  rewrite fmap_cons, NoDup_cons. intros [Hx Hl].
  destruct (decide (P x)).
  - rewrite filter_cons_True by done. rewrite fmap_cons, NoDup_cons.
    split; [|by apply IH]. intros Hin. apply Hx.
    apply list_elem_of_fmap in Hin as (y & -> & Hy).
    apply list_elem_of_filter in Hy as [_ Hy]. by apply list_elem_of_fmap_2.
  - rewrite filter_cons_False by done. by apply IH.
Qed.

Lemma Inv_clearAllTimers {b : bool} (c : string) (st : State) :
  Inv_at b st →
  Inv_at b (clearAllTimers c st) ∧ timers (clearAllTimers c st) !! c = None.
Proof.
  intros HI.
  destruct (clearAllTimers_frame c st) as (Hc & Hd & _ & Ht & Hh & Hr & Hn & Htr).
  pose proof (clearAllTimers_pending c st) as Hp.
  split; [|by rewrite Ht, lookup_delete_eq].
  destruct HI as [H1 H2 H3 H4 H5 H6 H7 H8 H9 H10].
  constructor; unfold start_ok, alert_ok in *; rewrite ?Hc, ?Hd, ?Ht, ?Hh, ?Hr, ?Hp, ?Hn, ?Htr;
    try done.
  - intros e He. apply list_elem_of_filter in He as [_ He]. by apply H1.
  - by apply NoDup_fmap_filter.
  - intros c' r Hl. apply lookup_delete_Some in Hl as [_ Hl]. by apply (H3 c').
  - intros c1 c2 r Hl1 Hl2. apply lookup_delete_Some in Hl1 as [_ Hl1].
    apply lookup_delete_Some in Hl2 as [_ Hl2]. by apply (H4 c1 c2 r).
  - intros e c' d r He Hcb. apply list_elem_of_filter in He as [Hn' He].
    destruct (H5 e c' d r He Hcb) as (Hp1 & Hp2 & Hp3 & Hp4 & Hp5 & Hp6).
    destruct (decide (c' = c)) as [->|Hne].
    + destruct Hn'. unfold registered, deref. rewrite Hp4, Hp5. simpl. left.
    + rewrite lookup_delete_ne by done. done.
  - intros e c' He Hcb. apply list_elem_of_filter in He as [Hn' He].
    destruct (H6 e c' He Hcb) as (Hp1 & r & o & t & T & Hr1 & Hr2 & Hr3 & Hrest).
    destruct (decide (c' = c)) as [->|Hne].
    + destruct Hn'. unfold registered, deref. rewrite Hr1, Hr2. simpl.
      destruct (timer_start o), (timer_repeat o); rewrite Hr3; simpl;
        rewrite ?elem_of_cons; tauto.
    + split; [done|]. exists r, o, t, T. rewrite lookup_delete_ne by done. done.
Qed.

Lemma Inv_set_record {b : bool} (c : string) (t : Ticket) (st : State) :
  Inv_at b st →
  (b = true → ∀ T, timerStartTime t = Some T → T ≤ clock st) →
  (quiet c st
   ∨ ∃ t0, db st !! c = Some t0 ∧ timerStartTime t = timerStartTime t0) →
  Inv_at b (set_db (<[c := t]> (db st)) st).
Proof.
  intros [H1 H2 H3 H4 H5 H6 H7 H8 H9 H10] Hpast Hcase.
  constructor; simpl; try done.
  - intros e c' d r He Hcb.
    destruct (H5 e c' d r He Hcb) as (Hp1 & Hp2 & Hp3 & Hp4 & Hp5 & t1 & Hp6 & Hp7).
    repeat (split; [done|]). simpl.
    destruct (decide (c' = c)) as [->|Hne].
    + destruct Hcase as [Hq|(t0 & Ht0 & Hs)].
      * destruct (Hq e He) as [Hq1 _]. by destruct (Hq1 d r).
      * exists t. rewrite lookup_insert_eq. split; [done|]. congruence.
    + exists t1. by rewrite lookup_insert_ne.
  - intros e c' He Hcb.
    destruct (H6 e c' He Hcb)
      as (Hp1 & r & o & t1 & T & Hr1 & Hr2 & Hr3 & Hr4 & Hr5 & Hr6 & Hr7).
    split; [done|]. simpl.
    destruct (decide (c' = c)) as [->|Hne].
    + destruct Hcase as [Hq|(t0 & Ht0 & Hs)].
      * destruct (Hq e He) as [_ Hq2]. by destruct Hq2.
      * exists r, o, t, T. rewrite lookup_insert_eq.
        repeat (split; [done|]). split; [congruence|]. done.
    + exists r, o, t1, T. by rewrite lookup_insert_ne.
  - intros Hb c' t1 T Hd HT. destruct (decide (c' = c)) as [->|Hne].
    + rewrite lookup_insert_eq in Hd. simplify_eq. by apply Hpast.
    + rewrite lookup_insert_ne in Hd by done. by apply (H7 Hb c' t1 T).
Qed.

Lemma Inv_deleteOne {b : bool} (c : string) (st : State) :
  Inv_at b st → quiet c st → Inv_at b (deleteOne c st).
Proof.
  intros [H1 H2 H3 H4 H5 H6 H7 H8 H9 H10] Hq.
  constructor; simpl; try done.
  - intros e c' d r He Hcb.
    destruct (H5 e c' d r He Hcb) as (Hp1 & Hp2 & Hp3 & Hp4 & Hp5 & t1 & Hp6 & Hp7).
    repeat (split; [done|]). simpl.
    destruct (decide (c' = c)) as [->|Hne].
    + destruct (Hq e He) as [Hq1 _]. by destruct (Hq1 d r).
    + exists t1. by rewrite lookup_delete_ne.
  - intros e c' He Hcb.
    destruct (H6 e c' He Hcb)
      as (Hp1 & r & o & t1 & T & Hr1 & Hr2 & Hr3 & Hr4 & Hr5 & Hr6 & Hr7).
    split; [done|]. simpl.
    destruct (decide (c' = c)) as [->|Hne].
    + destruct (Hq e He) as [_ Hq2]. by destruct Hq2.
    + exists r, o, t1, T. by rewrite lookup_delete_ne.
  - intros Hb c' t1 T Hd HT. apply lookup_delete_Some in Hd as [_ Hd].
    by apply (H7 Hb c' t1 T).
Qed.

(** A start time that is the present has no alert sent for it. *)
Lemma present_not_alerted {b : bool} (c : string) (st : State) :
  Inv_at b st → clock st ∉ alert_epochs c (trace st).
Proof.
  intros HI Hin. pose proof (inv_epoch_past st HI c _ Hin).
  unfold STAFF_ALERT_TIME in *. lia.
Qed.

(** Timers armed for a ticket with no pre-delay and no staff alert armed,
    held by a timer object that is new or held nothing but the pre-delay
    callback that arms them. *)
Lemma Inv_arm {b : bool} (c : string) (r : nat) (o : Timer) (new : list Sched)
    (st st' : State) :
  Inv_at b st → quiet c st →
  (timers st !! c = Some r ∨ (timers st !! c = None ∧ r = next_ref st)) →
  clock st' = clock st → db st' = db st → trace st' = trace st →
  timers st' = <[c := r]> (timers st) →
  heap st' = <[r := o]> (heap st) →
  (next_ref st ≤ next_ref st')%nat → (r < next_ref st')%nat →
  (next_hid st ≤ next_hid st')%nat →
  pending st' = pending st ++ new →
  NoDup (hid <$> new) →
  (∀ e, e ∈ new → (next_hid st ≤ hid e < next_hid st')%nat
                  ∧ cb_channel (cb e) = c
                  ∧ (∀ d r', cb e = CbStart c d r' → start_ok st' e c d r')
                  ∧ (cb e = CbStaffAlert c → alert_ok st' e c)) →
  Inv_at b st'.
Proof.
  intros HI Hq Hr Hc Hd Htr Ht Hh Hnr Hrn Hnh Hp Hnd Hnew.
  assert (Hother : ∀ c' r', c' ≠ c → timers st !! c' = Some r' → r' ≠ r).
  { intros c' r' Hne Hl ->. destruct Hr as [Hr|[_ ->]].
    - by apply Hne, (inv_ref_inj st HI c' c r).
    - pose proof (inv_ref_fresh st HI c' _ Hl). lia. }
  constructor; rewrite ?Hc, ?Hd, ?Htr, ?Hp; try by destruct HI.
  - intros e He. apply elem_of_app in He as [He|He].
    + pose proof (inv_hid_fresh st HI e He). lia.
    + destruct (Hnew e He) as [? _]. lia.
  - rewrite fmap_app. apply NoDup_app. split; [by destruct HI|]. split; [|done].
    intros h Hin Hin'. apply list_elem_of_fmap in Hin as (e & -> & He).
    apply list_elem_of_fmap in Hin' as (e' & Heq & He').
    pose proof (inv_hid_fresh st HI e He). destruct (Hnew e' He') as [? _]. lia.
  - intros c' r'. rewrite Ht. intros Hl.
    apply lookup_insert_Some in Hl as [[_ <-]|[_ Hl]]; [done|].
    pose proof (inv_ref_fresh st HI c' r' Hl). lia.
  - intros c1 c2 r'. rewrite Ht. intros Hl1 Hl2.
    apply lookup_insert_Some in Hl1 as [[<- <-]|[Hn1 Hl1]];
      apply lookup_insert_Some in Hl2 as [[<- Heq]|[Hn2 Hl2]]; try done.
    + by destruct (Hother c2 r).
    + subst r'. by destruct (Hother c1 r).
    + by apply (inv_ref_inj st HI c1 c2 r').
  - intros e c' d r' He Hcb. apply elem_of_app in He as [He|He].
    + destruct (Hq e He) as [Hq1 _].
      assert (c' ≠ c) by (intros ->; by destruct (Hq1 d r')).
      destruct (inv_start st HI e c' d r' He Hcb)
        as (Hp1 & Hp2 & Hp3 & Hp4 & Hp5 & Hp6).
      unfold start_ok. rewrite Ht, Hh, Hd, lookup_insert_ne by done.
      rewrite lookup_insert_ne by (intros ->; by destruct (Hother c' r')). done.
    + destruct (Hnew e He) as (_ & Hch & Hs & _).
      rewrite Hcb in Hch. simpl in Hch. subst c'. by apply Hs.
  - intros e c' He Hcb. apply elem_of_app in He as [He|He].
    + destruct (Hq e He) as [_ Hq2].
      assert (c' ≠ c) by (intros ->; by destruct Hq2).
      destruct (inv_alert st HI e c' He Hcb)
        as (Hp1 & r1 & o1 & t1 & T & Hr1 & Hr2 & Hr3 & Hr4).
      split; [done|]. exists r1, o1, t1, T.
      rewrite Ht, Hh, Hd, Htr, lookup_insert_ne by done.
      rewrite lookup_insert_ne by (intros ->; by destruct (Hother c' r1)). done.
    + destruct (Hnew e He) as (_ & Hch & _ & Ha).
      rewrite Hcb in Hch. simpl in Hch. subst c'. by apply Ha.
Qed.

Lemma clearAllTimers_no_timer (c : string) (st : State) :
  timers st !! c = None → clearAllTimers c st = st.
Proof. intros Ht. unfold clearAllTimers. by rewrite Ht. Qed.

Lemma Inv_startTimers {b : bool} (c : string) (st : State) :
  Inv_at b st → timers st !! c = None → Inv_at b (startTimers c st).
Proof.
  intros HI Ht.
  destruct (db st !! c) as [t|] eqn:Hdb.
  2:{ unfold startTimers, findOne. by rewrite Hdb. }
  pose proof (restart_countdown_fields c t st Hdb) as Hf. cbv zeta in Hf.
  rewrite (clearAllTimers_no_timer c st Ht) in Hf.
  destruct Hf as (Hc & Hd & _ & Htm & Hh & Hr & Hp & Hn & Htr).
  assert (Hreg : registered c st = []) by (unfold registered; by rewrite Ht).
  rewrite Hreg in Hp. rewrite filter_all in Hp by (intros; apply not_elem_of_nil).
  eapply (Inv_arm c (next_ref st) _ _ st); try done.
  - by eapply quiet_no_timer.
  - by right.
  - lia.
  - lia.
  - lia.
  - apply NoDup_singleton.
  - intros e He. apply list_elem_of_singleton in He. subst e. simpl.
    split; [lia|]. split; [done|]. split; [|done].
    intros d r' [= <- <-]. unfold start_ok; simpl.
    rewrite Htm, Hh, Hd, !lookup_insert_eq. repeat (split; [done|]). by exists t.
Qed.

Lemma Inv_cancelled {b : bool} (c : string) (t : Ticket) (st : State) :
  Inv_at b st → Inv_at b (cancelled c t st).
Proof.
  intros HI. destruct (Inv_clearAllTimers c st HI) as [HI' Ht].
  unfold cancelled.
  destruct (clearAllTimers_frame c st) as (_ & Hd & _).
  rewrite <- Hd. apply Inv_set_record; [done|done|].
  left. by eapply quiet_no_timer.
Qed.

Lemma Inv_create {b : bool} (c creator : string) (st : State) :
  Inv_at b st → db st !! c = None → Inv_at b (create c creator st).
Proof.
  intros HI Hd.
  apply (Inv_fields (set_db (<[c := mkTicket (next_oid st) creator None 0]> (db st)) st));
    try done.
  apply Inv_set_record; [done|done|]. left. by eapply quiet_no_record.
Qed.

Lemma Inv_log {b : bool} (c : string) (m : LogMsg) (st : State) : Inv_at b st → Inv_at b (log c m st).
Proof. apply Inv_emit. by intros []. Qed.

Lemma Inv_reply {b : bool} (c : string) (r : Reply) (st : State) : Inv_at b st → Inv_at b (reply c r st).
Proof. apply Inv_emit. by intros []. Qed.

Lemma Inv_messageCreate {b : bool} (env : Env) (m : Message) (st : State) :
  Inv_at b st → Inv_at b (messageCreate env m st).
Proof.
  intros HI. unfold messageCreate.
  destruct (negb (guild m)); [done|].
  destruct (user_bot (author m) && _); [done|].
  destruct (negb _); [done|].
  unfold findOne. destruct (db st !! channel_id m) as [t|] eqn:Hdb.
  - destruct (negb (isStaff env (member m)) && _).
    + simpl cur. rewrite (save_cancel (channel_id m) t st Hdb).
      change (set_db _ (clearAllTimers (channel_id m) st))
        with (cancelled (channel_id m) t st).
      destruct (bool_decide _); [apply Inv_log|]; by apply Inv_cancelled.
    + destruct (isStaff env (member m)); [|done].
      destruct (Inv_clearAllTimers (channel_id m) st HI) as [HI' Ht].
      by apply Inv_startTimers.
  - destruct (detect_creator env m) as [creator|]; [|done].
    destruct (nonempty creator); [|done].
    apply Inv_log. by apply Inv_create.
Qed.

Lemma Inv_channelDelete {b : bool} (c : string) (st : State) :
  Inv_at b st → Inv_at b (channelDelete c st).
Proof.
  intros HI. unfold channelDelete, findOne.
  destruct (db st !! c); [|done].
  destruct (Inv_clearAllTimers c st HI) as [HI' Ht].
  apply Inv_deleteOne; [done|]. by eapply quiet_no_timer.
Qed.

Lemma timer_restart_found (c : string) (t : Ticket) (st : State) :
  db st !! c = Some t →
  timer_restart c (Some (mkDoc c t t)) st
  = log c LogManualRestart
      (reply c ReplyRestarted
         (countdown c (set_db (<[c := restarted t (clock st)]> (db st))
                              (clearAllTimers c st)))).
Proof.
  intros Hdb. unfold timer_restart.
  destruct (clearAllTimers_frame c st) as (Hc & Hd & _).
  unfold assign_reminderCount, assign_timerStartTime; simpl.
  rewrite Hc, Hd.
  pose proof (save_fresh (db st) c t (restarted t (clock st)) Hdb eq_refl) as Hs.
  unfold restarted in *. rewrite Hs.
  unfold countdown, new_timer, setInterval, setTimeout, arm, set_repeat, set_staff,
    deref; simpl.
  rewrite !lookup_insert_eq; simpl. rewrite !insert_insert_eq, <- app_assoc.
  rewrite timer_delay_interval, timer_delay_alert, Hc. reflexivity.
Qed.

Lemma Inv_countdown {b : bool} (c : string) (t : Ticket) (st : State) :
  Inv_at b st → timers st !! c = None →
  db st !! c = Some t → timerStartTime t = Some (clock st) →
  Inv_at b (countdown c st).
Proof.
  intros HI Ht Hdb Hs.
  eapply (Inv_arm c (next_ref st) _ _ st (countdown c st)); try done; simpl.
  - by eapply quiet_no_timer.
  - by right.
  - lia.
  - lia.
  - lia.
  - apply NoDup_cons. split; [|apply NoDup_singleton].
    rewrite list_elem_of_singleton. lia.
  - intros e He. rewrite !elem_of_cons, elem_of_nil in He.
    destruct He as [->|[->|[]]]; simpl.
    + split; [lia|]. done.
    + split; [lia|]. split; [done|]. split; [done|]. intros _.
      split; [done|]. eexists _, _, t, (clock st); simpl.
      rewrite !lookup_insert_eq. repeat (split; [done || lia|]).
      by eapply present_not_alerted.
Qed.

Lemma Inv_timer_restart {b : bool} (c : string) (t : Ticket) (st : State) :
  Inv_at b st → db st !! c = Some t →
  Inv_at b (timer_restart c (Some (mkDoc c t t)) st).
Proof.
  intros HI Hdb. rewrite (timer_restart_found c t st Hdb).
  apply Inv_log, Inv_reply.
  destruct (Inv_clearAllTimers c st HI) as [HI' Ht].
  destruct (clearAllTimers_frame c st) as (Hc & Hd & _).
  eapply (Inv_countdown c (restarted t (clock st))).
  - rewrite <- Hd. apply Inv_set_record; [done| |].
    + simpl. intros _ T [= <-]. lia.
    + left. by eapply quiet_no_timer.
  - done.
  - simpl. by rewrite lookup_insert_eq.
  - simpl. by rewrite Hc.
Qed.

Lemma Inv_interactionCreate {b : bool} (env : Env) (i : Interaction) (st : State) :
  Inv_at b st → Inv_at b (interactionCreate env i st).
Proof.
  intros HI. unfold interactionCreate.
  destruct (negb (isCommand i)); [done|].
  destruct (i_member i) as [mm|]; [|done].
  destruct (negb (has_staff_role env mm)); [by apply Inv_reply|].
  unfold findOne.
  destruct (String.eqb (commandName i) "timer").
  - destruct (opt_action i) as [action|]; [|done].
    destruct (String.eqb action "stop").
    { unfold timer_stop. destruct (db st !! i_channel i) as [t|] eqn:Hdb;
        [|by apply Inv_reply].
      simpl cur. destruct (truthy (timerStartTime t)); [|by apply Inv_reply].
      rewrite (save_cancel (i_channel i) t st Hdb).
      apply Inv_log, Inv_reply. by apply Inv_cancelled. }
    destruct (String.eqb action "restart").
    { destruct (db st !! i_channel i) as [t|] eqn:Hdb.
      - by apply Inv_timer_restart.
      - by apply Inv_reply. }
    destruct (String.eqb action "status"); [|done].
    unfold timer_status. destruct (db st !! i_channel i) as [t|];
      [|by apply Inv_reply].
    simpl cur. destruct (truthy (timerStartTime t)); by apply Inv_reply.
  - destruct (String.eqb (commandName i) "creator"); [|done].
    destruct (opt_action i) as [action|]; [|done].
    destruct (String.eqb action "check").
    { unfold creator_check. destruct (db st !! i_channel i); by apply Inv_reply. }
    destruct (String.eqb action "assign"); [|done].
    unfold creator_assign. destruct (opt_user i) as [u|]; [|by apply Inv_reply].
    destruct (db st !! i_channel i) as [t|] eqn:Hdb.
    + unfold assign_creatorId; simpl.
      rewrite (save_fresh (db st) (i_channel i) t
                 (mkTicket (oid t) (user_id u) (timerStartTime t) (reminderCount t))
                 Hdb eq_refl).
      apply Inv_log, Inv_reply. apply Inv_set_record; [done| |].
      * simpl. intros Hb T HT. by apply (inv_past st HI Hb (i_channel i) t T).
      * right. by exists t.
    + apply Inv_log, Inv_reply. by apply Inv_create.
Qed.

Lemma NoDup_hid_eq (l : list Sched) (e1 e2 : Sched) :
  NoDup (hid <$> l) → e1 ∈ l → e2 ∈ l → hid e1 = hid e2 → e1 = e2.
Proof.
  induction l as [|x l IH]; intros Hnd H1 H2 Hh.
  - by apply elem_of_nil in H1.
  - rewrite fmap_cons in Hnd. apply NoDup_cons in Hnd as [Hx Hnd].
    apply elem_of_cons in H1 as [->|H1]; apply elem_of_cons in H2 as [->|H2].
    + done.
    + destruct Hx. rewrite Hh. by apply list_elem_of_fmap_2.
    + destruct Hx. rewrite <- Hh. by apply list_elem_of_fmap_2.
    + by apply IH.
Qed.

Lemma NoDup_hid_rearm (h : nat) (τ : Z) (l : list Sched) :
  NoDup (hid <$> l) → NoDup (hid <$> (l ≫= rearm h τ)).
Proof.
  induction l as [|x l IH]; [done|].
  rewrite fmap_cons. intros Hnd. apply NoDup_cons in Hnd as [Hx Hnd].
  rewrite bind_cons, fmap_app. apply NoDup_app.
  split; [|split; [|by apply IH]].
  - unfold rearm. case_decide; [destruct (period x)|]; simpl;
      try apply NoDup_singleton. apply NoDup_nil_2.
  - intros h' Hin Hin'. apply Hx.
    apply list_elem_of_fmap in Hin as (e1 & Hh1 & He1).
    apply elem_of_rearm in He1 as (Hx1 & _).
    apply list_elem_of_fmap in Hin' as (e2 & Hh2 & He2).
    apply list_elem_of_bind in He2 as (e3 & He2 & He3).
    apply elem_of_rearm in He2 as (Hx2 & _).
    replace (hid x) with (hid e3) by congruence. by apply list_elem_of_fmap_2.
Qed.

Lemma fired_origin (h : nat) (st : State) (e' : Sched) :
  e' ∈ pending (fired h st) →
  ∃ e, e ∈ pending st ∧ hid e' = hid e ∧ cb e' = cb e ∧ period e' = period e
       ∧ (period e = None → e' = e ∧ hid e ≠ h).
Proof.
  intros He'. apply list_elem_of_bind in He' as (e1 & He' & He1).
  exists e1. split; [done|].
  pose proof He' as Hin.
  apply elem_of_rearm in He' as (Hh & Hcb & Hp & Hcase).
  repeat (split; [done|]). intros Hnone.
  destruct Hcase as [->|(p & Hpp & _)]; [|congruence].
  split; [done|]. intros Heq. unfold rearm in Hin.
  rewrite decide_True, Hnone in Hin by done. by apply elem_of_nil in Hin.
Qed.

Lemma Inv_fired {b : bool} (h : nat) (st : State) : Inv_at b st → Inv_at b (fired h st).
Proof.
  intros HI.
  constructor; simpl; try by destruct HI.
  - intros e' He'. destruct (fired_origin h st e' He') as (e & He & -> & _).
    by apply (inv_hid_fresh st HI).
  - apply NoDup_hid_rearm. by destruct HI.
  - intros e' c d r He' Hcb.
    destruct (fired_origin h st e' He') as (e & He & Hh & Hc & Hp & Hn).
    rewrite Hc in Hcb. pose proof (inv_start st HI e c d r He Hcb) as Hok.
    destruct (Hn (proj1 Hok)) as [-> _]. exact Hok.
  - intros e' c He' Hcb.
    destruct (fired_origin h st e' He') as (e & He & Hh & Hc & Hp & Hn).
    rewrite Hc in Hcb. pose proof (inv_alert st HI e c He Hcb) as Hok.
    destruct (Hn (proj1 Hok)) as [-> _]. exact Hok.
Qed.

(** A timeout that has fired is not armed any more. *)
Lemma fired_gone {b : bool} (st : State) (e0 e' : Sched) :
  Inv_at b st → e0 ∈ pending st → period e0 = None →
  e' ∈ pending (fired (hid e0) st) → hid e' ≠ hid e0.
Proof.
  intros HI He0 Hp He' Heq.
  apply list_elem_of_bind in He' as (e1 & He' & He1).
  pose proof He' as Hin.
  apply elem_of_rearm in He' as (Hh & _).
  assert (e1 = e0) as ->.
  { apply (NoDup_hid_eq (pending st)); [by destruct HI|done|done|congruence]. }
  unfold rearm in Hin. rewrite decide_True, Hp in Hin by done.
  by apply elem_of_nil in Hin.
Qed.

Lemma Inv_sendReminder {b : bool} (c : string) (st : State) : Inv_at b st → Inv_at b (sendReminder c st).
Proof.
  intros HI. destruct (db st !! c) as [t|] eqn:Hdb.
  - rewrite (sendReminder_found c t st Hdb).
    apply Inv_log, Inv_emit; [by intros []|].
    apply Inv_set_record; [done| |].
    + simpl. intros Hb T HT. by apply (inv_past st HI Hb c t T).
    + right. by exists t.
  - by rewrite (sendReminder_missing c st Hdb).
Qed.

Lemma save_start (c : string) (d : Doc) (t : Ticket) (m m' : gmap string Ticket)
    (now : Z) :
  doc_channel d = c → cur d = loaded d →
  m !! c = Some t → timerStartTime t = timerStartTime (loaded d) →
  save (assign_reminderCount 0 (assign_timerStartTime (Some now) d)) m = Some m' →
  ∃ t', m' = <[c := t']> m ∧ timerStartTime t' = Some now.
Proof.
  intros Hc Hcur Hm Hs. unfold save; simpl.
  case_decide as Heq.
  - intros [= <-]. exists t. split; [by rewrite insert_id|].
    rewrite Hs, <- Heq. done.
  - rewrite Hc, Hm. case_decide; [|done]. intros [= <-].
    eexists. split; [done|]. unfold merge_paths; simpl.
    case_decide as Hd; [|done]. rewrite Hs. by rewrite <- Hd.
Qed.

Lemma alert_epochs_cons_alert (c c' : string) (t : Ticket) (T τ : Z)
    (tr : list Obs) :
  timerStartTime t = Some T →
  alert_epochs c' (ObsStaffAlert c (Some t) τ :: tr)
  = if decide (c = c') then T :: alert_epochs c' tr else alert_epochs c' tr.
Proof.
  intros HT. unfold alert_epochs. simpl. case_decide; [|done]. by rewrite HT.
Qed.

Lemma Inv_start_callback {b : bool} (st : State) (e0 : Sched) (c : string) (d : Doc) (r : nat) :
  Inv_at b st → e0 ∈ pending st → cb e0 = CbStart c d r →
  Inv_at b (start_callback c d r (fired (hid e0) st)).
Proof.
  intros HI He0 Hcb.
  destruct (inv_start st HI e0 c d r He0 Hcb)
    as (Hper & Hdc & Hcur & Htm & Hhp & t & Hdb & Hst).
  set (st1 := fired (hid e0) st).
  assert (HI1 : Inv_at b st1) by by apply Inv_fired.
  assert (Hq : quiet c st1).
  { intros e' He'. pose proof (fired_gone st e0 e' HI He0 Hper He') as Hne. split.
    - intros d' r' Hcb'.
      destruct (inv_start st1 HI1 e' c d' r' He' Hcb') as (_ & _ & _ & Htm' & Hhp' & _).
      simpl in Htm', Hhp'. congruence.
    - intros Hcb'.
      destruct (inv_alert st1 HI1 e' c He' Hcb')
        as (_ & r' & o' & _ & _ & Htm' & Hhp' & Hsf & _).
      simpl in Htm', Hhp'. rewrite Htm in Htm'. simplify_eq. }
  destruct (save (assign_reminderCount 0
                    (assign_timerStartTime (Some (clock st1)) d)) (db st1))
    as [m'|] eqn:Hsave.
  2:{ by rewrite (start_callback_aborts c d r st1 Hsave). }
  destruct (start_callback_fields c d r st1 m' Hsave)
    as (Hc' & Hd' & _ & Ht' & Hh' & Hr' & Hp' & Hn' & Htr').
  destruct (save_start c d t (db st1) m' (clock st1) Hdc Hcur Hdb Hst Hsave)
    as (t' & -> & Hst').
  set (st3 := log c LogTimerStarted (set_db (<[c := t']> (db st1)) st1)).
  assert (HI3 : Inv_at b st3).
  { apply Inv_log, Inv_set_record; [done| |by left].
    intros _ T HT. rewrite Hst' in HT. simplify_eq. done. }
  apply (Inv_arm c r
           (mkTimer (timer_start (deref r st1)) (Some (next_hid st1))
                    (Some (S (next_hid st1))))
           [mkSched (next_hid st1) (clock st1 + REMINDER_INTERVAL)
                    (Some REMINDER_INTERVAL) (CbReminder c);
            mkSched (S (next_hid st1)) (clock st1 + STAFF_ALERT_TIME) None
                    (CbStaffAlert c)] st3).
  - done.
  - done.
  - by left.
  - done.
  - done.
  - done.
  - rewrite Ht'. simpl. by rewrite insert_id.
  - done.
  - rewrite Hr'. done.
  - rewrite Hr'. by apply (inv_ref_fresh st HI c).
  - rewrite Hn'. simpl. lia.
  - done.
  - apply NoDup_cons. split; [|apply NoDup_singleton].
    rewrite list_elem_of_singleton. simpl. lia.
  - intros e He. rewrite !elem_of_cons, elem_of_nil in He.
    destruct He as [->|[->|[]]]; simpl; rewrite Hn';
      change (next_hid st1) with (next_hid st); change (clock st1) with (clock st).
    + split; [lia|]. done.
    + split; [lia|]. split; [done|]. split; [done|]. intros _.
      split; [done|]. eexists r, _, t', (clock st); simpl.
      rewrite Ht', Hh', Hd', Htr', !lookup_insert_eq.
      repeat (split; [done || lia|]).
      apply (present_not_alerted c st3 HI3).
Qed.

(** An alert sent for a start time that had none, with no further staff
    alert armed for the ticket. *)
Lemma Inv_alert_sent {b : bool} (c : string) (t : Ticket) (T : Z) (st : State) :
  Inv_at b st →
  (∀ e, e ∈ pending st → cb e ≠ CbStaffAlert c) →
  db st !! c = Some t → timerStartTime t = Some T →
  T ∉ alert_epochs c (trace st) →
  T + STAFF_ALERT_TIME ≤ clock st →
  Inv_at b (sendStaffAlert c st).
Proof.
  intros HI Hq Hdb HT Hnew Hpast.
  unfold sendStaffAlert. apply Inv_log. rewrite Hdb.
  constructor; simpl; try by destruct HI.
  - intros e' c' He' Hcb'.
    destruct (inv_alert st HI e' c' He' Hcb')
      as (Hp1 & r1 & o1 & t1 & T1 & Hr1 & Hr2 & Hr3 & Hr4 & Hr5 & Hr6 & Hr7).
    split; [done|]. exists r1, o1, t1, T1. repeat (split; [done|]). simpl.
    rewrite (alert_epochs_cons_alert c c' t T _ _ HT).
    case_decide as Hcc; [|done]. subst c'. by destruct (Hq e' He').
  - intros c' T'. rewrite (alert_epochs_cons_alert c c' t T _ _ HT).
    case_decide; [|by apply (inv_epoch_past st HI)].
    subst c'. intros Hin. apply elem_of_cons in Hin as [->|Hin]; [lia|].
    by apply (inv_epoch_past st HI c).
  - intros c'. rewrite (alert_epochs_cons_alert c c' t T _ _ HT).
    case_decide; [|by apply (inv_once st HI)].
    subst c'. apply NoDup_cons. split; [done|]. by apply (inv_once st HI).
  - intros c' tk τ Hin. apply elem_of_cons in Hin as [Heq|Hin].
    + simplify_eq. by exists t, T.
    + by apply (inv_epoch st HI c' tk τ).
Qed.

Lemma Inv_sendStaffAlert {b : bool} (st : State) (e0 : Sched) (c : string) :
  Inv_at b st → e0 ∈ pending st → cb e0 = CbStaffAlert c → due e0 ≤ clock st →
  Inv_at b (sendStaffAlert c (fired (hid e0) st)).
Proof.
  intros HI He0 Hcb Hdue.
  destruct (inv_alert st HI e0 c He0 Hcb)
    as (Hper & r & o & t & T & Htm & Hhp & Hsf & Hdb & HT & Hal & Hnew).
  set (st1 := fired (hid e0) st).
  assert (HI1 : Inv_at b st1) by by apply Inv_fired.
  apply (Inv_alert_sent c t T st1); try done.
  - intros e' He' Hcb'.
    pose proof (fired_gone st e0 e' HI He0 Hper He') as Hne.
    destruct (inv_alert st1 HI1 e' c He' Hcb')
      as (_ & r1 & o1 & _ & _ & Hr1 & Hr2 & Hr3 & _).
    simpl in Hr1, Hr2. destruct Hne. congruence.
  - simpl. lia.
Qed.

Lemma Inv_fire {b : bool} (h : nat) (st st' : State) :
  Inv_at b st → fire h st = Some st' → Inv_at b st'.
Proof.
  intros HI Hfire. apply fire_inv in Hfire as (e & He & <- & Hdue & ->).
  change (set_pending _ st) with (fired (hid e) st).
  destruct (cb e) as [c d r|c|c] eqn:Hcb; simpl.
  - by apply Inv_start_callback.
  - by apply Inv_sendReminder, Inv_fired.
  - by apply Inv_sendStaffAlert.
Qed.

Lemma Inv_step {b : bool} (env : Env) (st st' : State) (ev : Z * Event) :
  Inv_at b st → ¬ is_restart ev.2 → step env st ev = Some st' → Inv_at b st'.
Proof.
  destruct ev as [τ e]. simpl. intros HI Hnr.
  destruct (Z.ltb_spec τ (clock st)); [done|].
  assert (HI' : Inv_at b (set_clock τ st)) by by apply Inv_set_clock.
  destruct e as [m|i|c|h|alive].
  - intros [= <-]. by apply Inv_messageCreate.
  - intros [= <-]. by apply Inv_interactionCreate.
  - intros [= <-]. by apply Inv_channelDelete.
  - by apply Inv_fire.
  - by destruct Hnr.
Qed.

Lemma Inv_run {b : bool} (env : Env) (evs : list (Z * Event)) :
  ∀ st st',
    Inv_at b st → Forall (λ ev, ¬ is_restart ev.2) evs →
    run env evs st = Some st' → Inv_at b st'.
Proof.
  induction evs as [|ev evs IH]; intros st st' HI Hnr Hrun; simpl in Hrun.
  - by simplify_eq.
  - apply Forall_cons in Hnr as [Hev Hnr].
    destruct (step env st ev) as [st1|] eqn:Hstep; [|done].
    apply (IH st1 st'); [|done|done]. by apply (Inv_step env st st1 ev).
Qed.

Lemma truthy_Some (o : option Z) (T : Z) : truthy o = Some T → o = Some T ∧ T ≠ 0.
Proof.
  destruct o as [v|]; simpl; [|done].
  destruct (Z.eqb_spec v 0); [done|]. by intros [= <-].
Qed.

Lemma alert_epochs_reminder_out (c c' : string) (d : gmap string Ticket) (now : Z)
    (tr : list Obs) :
  alert_epochs c' (reminder_out c d now tr).2 = alert_epochs c' tr.
Proof.
  unfold reminder_out. destruct (d !! c); simpl; [|done].
  by rewrite !alert_epochs_cons_other by (by intros []).
Qed.

Lemma alert_epochs_sendStaffAlert_other (c c' : string) (st : State) :
  c' ≠ c →
  alert_epochs c' (trace (sendStaffAlert c st)) = alert_epochs c' (trace st).
Proof.
  intros Hne. unfold sendStaffAlert; simpl.
  rewrite alert_epochs_cons_other by (by intros []).
  unfold alert_epochs; simpl. destruct (db st !! c); [|done].
  by rewrite decide_False by done.
Qed.

Lemma recover_ticket_epochs_other (alive : list string) (c c' : string)
    (t : Ticket) (st : State) :
  c' ≠ c →
  alert_epochs c' (trace (recover_ticket alive st (c, t)))
  = alert_epochs c' (trace st).
Proof.
  intros Hne.
  destruct (truthy (timerStartTime t)) as [startTime|] eqn:Ht.
  2:{ unfold recover_ticket. by rewrite Ht. }
  destruct (decide (c ∈ alive)) as [Hal|Hal].
  2:{ unfold recover_ticket. by rewrite Ht, bool_decide_eq_false_2 by done. }
  destruct (Z.lt_ge_cases (clock st - startTime) STAFF_ALERT_TIME) as [Hel|Hel].
  - rewrite (recover_ticket_rearms alive c t startTime st Ht Hal Hel). simpl.
    destruct (_ <=? 1000); [|done]. apply alert_epochs_reminder_out.
  - unfold recover_ticket. rewrite Ht, bool_decide_eq_true_2 by done.
    destruct (Z.ltb_spec (clock st - startTime) STAFF_ALERT_TIME); [lia|].
    by apply alert_epochs_sendStaffAlert_other.
Qed.

(** A round of the recovery loop, for a ticket that the loop has not come
    to before. *)
Lemma Inv_recover_ticket (alive : list string) (c : string) (t : Ticket)
    (st : State) :
  Inv st → timers st !! c = None → alert_epochs c (trace st) = [] →
  db st !! c = Some t →
  Inv (recover_ticket alive st (c, t)).
Proof.
  intros HI Htm Hep Hdb.
  pose proof (quiet_no_timer c st HI Htm) as Hq.
  destruct (truthy (timerStartTime t)) as [T|] eqn:Ht.
  2:{ unfold recover_ticket. by rewrite Ht. }
  pose proof (truthy_Some _ _ Ht) as [HT HT0].
  pose proof (inv_past st HI eq_refl c t T Hdb HT) as Hpast.
  destruct (decide (c ∈ alive)) as [Hal|Hal].
  2:{ unfold recover_ticket. rewrite Ht, bool_decide_eq_false_2 by done.
      by apply Inv_deleteOne. }
  destruct (Z.lt_ge_cases (clock st - T) STAFF_ALERT_TIME) as [Hel|Hel].
  2:{ unfold recover_ticket. rewrite Ht, bool_decide_eq_true_2 by done.
      destruct (Z.ltb_spec (clock st - T) STAFF_ALERT_TIME); [lia|].
      apply (Inv_alert_sent c t T st); try done.
      - intros e He. by destruct (Hq e He).
      - rewrite Hep. apply not_elem_of_nil.
      - lia. }
  rewrite (recover_ticket_rearms alive c t T st Ht Hal Hel).
  assert (Hdelay : clock st + timer_delay (STAFF_ALERT_TIME - (clock st - T))
                   = T + STAFF_ALERT_TIME).
  { rewrite timer_delay_id by (unfold STAFF_ALERT_TIME, TIMEOUT_MAX in *; lia). lia. }
  unfold recovery_timers. rewrite Hdelay.
  destruct (_ <=? 1000) eqn:Hnear.
  - set (str := sendReminder c st).
    assert (HIr : Inv str) by by apply Inv_sendReminder.
    pose proof (sendReminder_eq c st) as Heq. fold str in Heq.
    unfold reminder_out in *. rewrite Hdb in *. simpl in *.
    apply (Inv_arm c (next_ref st)
             (mkTimer None (Some (next_hid st)) (Some (S (next_hid st))))
             [mkSched (next_hid st) (clock st + REMINDER_INTERVAL)
                      (Some REMINDER_INTERVAL) (CbReminder c);
              mkSched (S (next_hid st)) (T + STAFF_ALERT_TIME) None
                      (CbStaffAlert c)] str).
    + done.
    + intros e He. apply Hq. by rewrite Heq in He.
    + right. by rewrite Heq.
    + by rewrite Heq.
    + by rewrite Heq.
    + by rewrite Heq.
    + by rewrite Heq.
    + by rewrite Heq.
    + rewrite Heq. simpl. lia.
    + simpl. lia.
    + rewrite Heq. simpl. lia.
    + by rewrite Heq.
    + apply NoDup_cons. split; [|apply NoDup_singleton].
      rewrite list_elem_of_singleton. simpl. lia.
    + intros e He. rewrite !elem_of_cons, elem_of_nil in He.
      destruct He as [->|[->|[]]]; rewrite Heq; simpl.
      * split; [lia|]. done.
      * split; [lia|]. split; [done|]. split; [done|]. intros _.
        split; [done|]. eexists _, _, (reminded t), T; simpl.
        rewrite !lookup_insert_eq. repeat (split; [done || lia|]).
        rewrite !alert_epochs_cons_other by (by intros []).
        rewrite Hep. apply not_elem_of_nil.
  - apply (Inv_arm c (next_ref st)
             (mkTimer None (Some (next_hid st)) (Some (S (S (next_hid st)))))
             [mkSched (next_hid st) (clock st + REMINDER_INTERVAL)
                      (Some REMINDER_INTERVAL) (CbReminder c);
              mkSched (S (next_hid st))
                      (clock st + timer_delay (REMINDER_INTERVAL
                                    - Z.rem (clock st - T) REMINDER_INTERVAL))
                      None (CbReminder c);
              mkSched (S (S (next_hid st))) (T + STAFF_ALERT_TIME) None
                      (CbStaffAlert c)] st).
    + done.
    + done.
    + by right.
    + done.
    + done.
    + done.
    + done.
    + done.
    + simpl. lia.
    + simpl. lia.
    + simpl. lia.
    + done.
    + apply NoDup_cons. split.
      { rewrite !elem_of_cons, elem_of_nil. simpl. lia. }
      apply NoDup_cons. split; [|apply NoDup_singleton].
      rewrite list_elem_of_singleton. simpl. lia.
    + intros e He. rewrite !elem_of_cons, elem_of_nil in He.
      destruct He as [->|[->|[->|[]]]]; simpl.
      * split; [lia|]. done.
      * split; [lia|]. done.
      * split; [lia|]. split; [done|]. split; [done|]. intros _.
        split; [done|]. eexists _, _, t, T; simpl.
        rewrite !lookup_insert_eq. repeat (split; [done || lia|]).
        rewrite Hep. apply not_elem_of_nil.
Qed.

Lemma Inv_recovery_loop (alive : list string) (l : list (string * Ticket)) :
  ∀ st,
    NoDup (l.*1) → Inv st →
    (∀ c t, (c, t) ∈ l →
            timers st !! c = None ∧ alert_epochs c (trace st) = []
            ∧ db st !! c = Some t) →
    Inv (foldl (recover_ticket alive) st l).
Proof.
  induction l as [|[c t] l IH]; intros st Hnd HI Htodo; [done|].
  cbn [foldl]. rewrite fmap_cons in Hnd. apply NoDup_cons in Hnd as [Hc Hnd].
  destruct (Htodo c t) as (Htm & Hep & Hdb); [left|].
  apply IH; [done|by apply Inv_recover_ticket|].
  intros c' t' Hin.
  assert (c' ≠ c).
  { intros ->. apply Hc. by apply (list_elem_of_fmap_2' fst _ (c, t')). }
  destruct (Htodo c' t') as (Htm' & Hep' & Hdb'); [by right|].
  destruct (recover_ticket_keeps alive c' c t st) as (_ & Hd & Ht & _); [done|].
  rewrite Hd, Ht. repeat (split; [done|]).
  split; [|done]. by rewrite recover_ticket_epochs_other.
Qed.

(** The memory of a process that has just started, with nothing sent yet. *)
Lemma Inv_fresh (st : State) :
  trace st = [] →
  (∀ c t T, db st !! c = Some t → timerStartTime t = Some T → T ≤ clock st) →
  Inv (fresh st).
Proof.
  intros Htr Hpast. constructor; simpl; try done.
  - intros e He. by apply elem_of_nil in He.
  - apply NoDup_nil_2.
  - intros e c d r He. by apply elem_of_nil in He.
  - intros e c He. by apply elem_of_nil in He.
  - intros c T. rewrite Htr. intros Hin. by apply elem_of_nil in Hin.
  - intros c. rewrite Htr. apply NoDup_nil_2.
  - intros c tk τ. rewrite Htr. intros Hin. by apply elem_of_nil in Hin.
Qed.

Lemma login_listener (alive : list string) (st : State) :
  login READY_LISTENER alive st = clientready alive st.
Proof. reflexivity. Qed.

Lemma login_other (announced : string) (alive : list string) (st : State) :
  announced ≠ READY_LISTENER → login announced alive st = st.
Proof.
  intros Hne. unfold login.
  by destruct (String.eqb_spec announced READY_LISTENER).
Qed.

Lemma restart_cases (announced : string) (alive : list string) (st : State) :
  (announced = READY_LISTENER
   ∧ restart announced alive st = clientready alive (fresh st))
  ∨ (announced ≠ READY_LISTENER ∧ restart announced alive st = fresh st).
Proof.
  unfold restart, login.
  destruct (String.eqb_spec announced READY_LISTENER); [by left|by right].
Qed.

Lemma Inv_restart (announced : string) (alive : list string) (st : State) :
  trace st = [] →
  (∀ c t T, db st !! c = Some t → timerStartTime t = Some T → T ≤ clock st) →
  Inv (restart announced alive st).
Proof.
  intros Htr Hpast.
  destruct (restart_cases announced alive st) as [[_ ->]|[_ ->]];
    [|by apply Inv_fresh].
  unfold clientready. simpl db.
  apply Inv_recovery_loop.
  - apply NoDup_fst_map_to_list.
  - by apply Inv_fresh.
  - intros c t Hin. apply elem_of_map_to_list in Hin. simpl.
    rewrite Htr. done.
Qed.

(** ** The program from the start of a process *)

(** In a run every armed timer of a ticket is held by the ticket's timer
    object. *)
Lemma Inv_all_registered {b : bool} (c : string) (st : State) :
  Inv_at b st → held st → all_registered c st.
Proof.
  intros HI Hh e He Hc. unfold registered.
  destruct (cb e) as [c0 d r|c0|c0] eqn:Hcb; simpl in Hc; subst c0.
  - destruct (inv_start st HI e c d r He Hcb) as (_ & _ & _ & Ht & Hhp & _).
    rewrite Ht. unfold deref. rewrite Hhp. simpl. left.
  - destruct (Hh e c He Hcb) as (p & r & o & t & T & _ & Ht & Hhp & Hr & _).
    rewrite Ht. unfold deref. rewrite Hhp. simpl.
    destruct (timer_start o), (timer_staff o); rewrite Hr; simpl;
      rewrite ?elem_of_cons; tauto.
  - destruct (inv_alert st HI e c He Hcb) as (_ & r & o & t & T & Ht & Hhp & Hs & _).
    rewrite Ht. unfold deref. rewrite Hhp. simpl.
    destruct (timer_start o), (timer_repeat o); rewrite Hs; simpl;
      rewrite ?elem_of_cons; tauto.
Qed.

Lemma clearAllTimers_silent {b : bool} (c : string) (st : State) :
  Inv_at b st → held st → silent c (clearAllTimers c st).
Proof.
  intros HI Hh e He Hc. rewrite clearAllTimers_pending in He.
  apply list_elem_of_filter in He as [Hn He]. apply Hn.
  by apply (Inv_all_registered c st HI Hh).
Qed.

Lemma silent_no_reminder (c : string) (st : State) :
  silent c st → ∀ e, e ∈ pending st → cb e ≠ CbReminder c.
Proof. intros Hs e He Hcb. apply (Hs e He). by rewrite Hcb. Qed.

Lemma held_fields (st st' : State) :
  held st →
  db st' = db st → timers st' = timers st → heap st' = heap st →
  pending st' = pending st →
  held st'.
Proof.
  intros Hh Hd Ht Hhp Hp e c. unfold reminder_ok.
  rewrite Hd, Ht, Hhp, Hp. apply Hh.
Qed.

Lemma held_clearAllTimers {b : bool} (c : string) (st : State) :
  Inv_at b st → held st → held (clearAllTimers c st).
Proof.
  intros HI Hh e c' He Hcb.
  destruct (clearAllTimers_frame c st) as (_ & Hd & _ & Ht & Hhp & _).
  pose proof (clearAllTimers_silent c st HI Hh e He) as Hs.
  rewrite Hcb in Hs. simpl in Hs.
  rewrite clearAllTimers_pending in He. apply list_elem_of_filter in He as [_ He].
  destruct (Hh e c' He Hcb) as (p & r & o & t & T & H1 & H2 & H3 & H4 & H5 & H6).
  exists p, r, o, t, T. rewrite Hd, Ht, Hhp, lookup_delete_ne by done. done.
Qed.

Lemma held_set_record (c : string) (t : Ticket) (st : State) :
  held st →
  ((∀ e, e ∈ pending st → cb e ≠ CbReminder c)
   ∨ ∃ t0, db st !! c = Some t0 ∧ timerStartTime t = timerStartTime t0) →
  held (set_db (<[c := t]> (db st)) st).
Proof.
  intros Hh Hcase e c' He Hcb. simpl in He.
  destruct (Hh e c' He Hcb) as (p & r & o & t1 & T & H1 & H2 & H3 & H4 & H5 & H6).
  destruct (decide (c' = c)) as [->|Hne].
  - destruct Hcase as [Hs|(t0 & Ht0 & HT)].
    + by destruct (Hs e He).
    + exists p, r, o, t, T. simpl. rewrite lookup_insert_eq.
      repeat (split; [done|]). congruence.
  - exists p, r, o, t1, T. simpl. by rewrite lookup_insert_ne.
Qed.

Lemma held_deleteOne (c : string) (st : State) :
  held st → (∀ e, e ∈ pending st → cb e ≠ CbReminder c) → held (deleteOne c st).
Proof.
  intros Hh Hs e c' He Hcb. simpl in He.
  destruct (Hh e c' He Hcb) as (p & r & o & t1 & T & H1 & H2 & H3 & H4 & H5 & H6).
  assert (c' ≠ c) by (intros ->; by destruct (Hs e He)).
  exists p, r, o, t1, T. simpl. by rewrite lookup_delete_ne.
Qed.

(** Timers armed for a ticket with no reminder armed, held by a timer
    object that is new or the ticket's own. *)
Lemma held_arm {b : bool} (c : string) (r : nat) (o : Timer) (new : list Sched)
    (st st' : State) :
  Inv_at b st → held st →
  (∀ e, e ∈ pending st → cb e ≠ CbReminder c) →
  (timers st !! c = Some r ∨ (timers st !! c = None ∧ r = next_ref st)) →
  db st' = db st →
  timers st' = <[c := r]> (timers st) →
  heap st' = <[r := o]> (heap st) →
  pending st' = pending st ++ new →
  (∀ e c', e ∈ new → cb e = CbReminder c' → reminder_ok st' e c') →
  held st'.
Proof.
  intros HI Hh Hno Hr Hd Ht Hhp Hp Hnew e c' He Hcb.
  rewrite Hp in He. apply elem_of_app in He as [He|He]; [|by apply Hnew].
  assert (Hne : c' ≠ c) by (intros ->; by destruct (Hno e He)).
  destruct (Hh e c' He Hcb) as (p & r' & o' & t & T & H1 & H2 & H3 & H4 & H5 & H6).
  assert (Hr' : r' ≠ r).
  { intros ->. destruct Hr as [Hr|[_ ->]].
    - by apply Hne, (inv_ref_inj st HI c' c r).
    - pose proof (inv_ref_fresh st HI c' _ H2). lia. }
  exists p, r', o', t, T. rewrite Hd, Ht, Hhp, !lookup_insert_ne by done. done.
Qed.

Lemma counts_started_insert (c : string) (t : Ticket) (m : gmap string Ticket) :
  counts_started m →
  (0 < reminderCount t → timerStartTime t ≠ None) →
  counts_started (<[c := t]> m).
Proof.
  intros Hm Ht c' t'. destruct (decide (c' = c)) as [->|Hne].
  - rewrite lookup_insert_eq. by intros [= <-].
  - rewrite lookup_insert_ne by done. apply Hm.
Qed.

Lemma counts_started_delete (c : string) (m : gmap string Ticket) :
  counts_started m → counts_started (delete c m).
Proof.
  intros Hm c' t' Hl. apply lookup_delete_Some in Hl as [_ Hl]. by apply (Hm c').
Qed.

(** The cancellation of a countdown. *)
Lemma sound_cancelled {b : bool} (c : string) (t : Ticket) (st : State) :
  Inv_at b st → held st →
  held (cancelled c t st)
  ∧ (counts_started (db st) → counts_started (db (cancelled c t st)))
  ∧ silent c (cancelled c t st).
Proof.
  intros HI Hh. unfold cancelled.
  destruct (clearAllTimers_frame c st) as (_ & Hd & _).
  pose proof (clearAllTimers_silent c st HI Hh) as Hs.
  split; [|split].
  - rewrite <- Hd. apply held_set_record; [by apply (held_clearAllTimers c st HI)|].
    left. by apply silent_no_reminder.
  - intros Hcs. simpl. apply counts_started_insert; [done|]. simpl. lia.
  - done.
Qed.

Lemma held_startTimers {b : bool} (c : string) (st : State) :
  Inv_at b st → held st → timers st !! c = None →
  held (startTimers c st).
Proof.
  intros HI Hh Ht.
  destruct (db st !! c) as [t|] eqn:Hdb.
  2:{ unfold startTimers, findOne. by rewrite Hdb. }
  pose proof (restart_countdown_fields c t st Hdb) as Hf. cbv zeta in Hf.
  rewrite (clearAllTimers_no_timer c st Ht) in Hf.
  destruct Hf as (Hc & Hd & _ & Htm & Hhp & Hr & Hp & Hn & Htr).
  assert (Hreg : registered c st = []) by (unfold registered; by rewrite Ht).
  rewrite Hreg in Hp. rewrite filter_all in Hp by (intros; apply not_elem_of_nil).
  eapply (held_arm c (next_ref st) _ _ st _ HI Hh); try done.
  - intros e He Hcb. destruct (Hh e c He Hcb) as (p & r & o & _ & _ & _ & Hr' & _).
    congruence.
  - by right.
  - intros e c' He Hcb. apply list_elem_of_singleton in He. by subst e.
Qed.

Lemma sound_messageCreate {b : bool} (env : Env) (m : Message) (st : State) :
  Inv_at b st → held st →
  held (messageCreate env m st)
  ∧ (counts_started (db st) → counts_started (db (messageCreate env m st))).
Proof.
  intros HI Hh. unfold messageCreate.
  destruct (negb (guild m)); [done|].
  destruct (user_bot (author m) && _); [done|].
  destruct (negb _); [done|].
  unfold findOne. destruct (db st !! channel_id m) as [t|] eqn:Hdb.
  - destruct (negb (isStaff env (member m)) && _).
    + simpl cur. rewrite (save_cancel (channel_id m) t st Hdb).
      change (set_db _ (clearAllTimers (channel_id m) st))
        with (cancelled (channel_id m) t st).
      destruct (sound_cancelled (channel_id m) t st HI Hh) as (H1 & H2 & _).
      by destruct (bool_decide _).
    + destruct (isStaff env (member m)); [|done].
      destruct (Inv_clearAllTimers (channel_id m) st HI) as [HI' Ht].
      split.
      * apply (held_startTimers (channel_id m) _ HI'); [|done].
        by apply (held_clearAllTimers (channel_id m) st HI).
      * by destruct (restart_countdown_fields (channel_id m) t st Hdb) as (_ & -> & _).
  - destruct (detect_creator env m) as [creator|]; [|done].
    destruct (nonempty creator); [|done]. simpl. split.
    + apply (held_fields
               (set_db (<[channel_id m := mkTicket (next_oid st) creator None 0]> (db st))
                       st)); try done.
      apply held_set_record; [done|]. left.
      intros e He Hcb.
      destruct (Hh e _ He Hcb) as (p & r & o & t & T & _ & _ & _ & _ & Hd' & _).
      congruence.
    + intros Hcs. apply counts_started_insert; [done|]. simpl. lia.
Qed.

Lemma sound_channelDelete {b : bool} (c : string) (st : State) :
  Inv_at b st → held st →
  held (channelDelete c st)
  ∧ (counts_started (db st) → counts_started (db (channelDelete c st))).
Proof.
  intros HI Hh. unfold channelDelete, findOne.
  destruct (db st !! c); [|done].
  destruct (clearAllTimers_frame c st) as (_ & Hd & _).
  split.
  - apply held_deleteOne; [by apply (held_clearAllTimers c st HI)|].
    apply silent_no_reminder. by apply (clearAllTimers_silent c st HI).
  - intros Hcs. simpl. rewrite Hd. by apply counts_started_delete.
Qed.

Lemma held_countdown {b : bool} (c : string) (t : Ticket) (T : Z) (st : State) :
  Inv_at b st → held st → timers st !! c = None →
  db st !! c = Some t → timerStartTime t = Some T →
  held (countdown c st).
Proof.
  intros HI Hh Ht Hdb HT.
  eapply (held_arm c (next_ref st) _ _ st (countdown c st) HI Hh); try done; simpl.
  - intros e He Hcb. destruct (Hh e c He Hcb) as (p & r & o & _ & _ & _ & Hr' & _).
    congruence.
  - by right.
  - intros e c' He Hcb. rewrite !elem_of_cons, elem_of_nil in He.
    destruct He as [->|[->|[]]]; simpl in Hcb; [|done]. simplify_eq.
    eexists _, _, _, t, T. simpl. rewrite !lookup_insert_eq. done.
Qed.

Lemma sound_timer_restart {b : bool} (c : string) (t : Ticket) (st : State) :
  Inv_at b st → held st → db st !! c = Some t →
  held (timer_restart c (Some (mkDoc c t t)) st)
  ∧ (counts_started (db st)
     → counts_started (db (timer_restart c (Some (mkDoc c t t)) st))).
Proof.
  intros HI Hh Hdb. rewrite (timer_restart_found c t st Hdb).
  destruct (Inv_clearAllTimers c st HI) as [HI' Ht].
  destruct (clearAllTimers_frame c st) as (Hc & Hd & _).
  pose proof (clearAllTimers_silent c st HI Hh) as Hs.
  set (st1 := set_db (<[c := restarted t (clock st)]> (db st)) (clearAllTimers c st)).
  assert (HI1 : Inv_at b st1).
  { subst st1. rewrite <- Hd. apply Inv_set_record; [done| |].
    - simpl. intros _ T [= <-]. lia.
    - left. by eapply quiet_no_timer. }
  assert (Hh1 : held st1).
  { subst st1. rewrite <- Hd. apply held_set_record.
    - by apply (held_clearAllTimers c st HI).
    - left. by apply silent_no_reminder. }
  split.
  - apply (held_fields (countdown c st1)); try done.
    apply (held_countdown c (restarted t (clock st)) (clock st) st1 HI1 Hh1).
    + done.
    + simpl. by rewrite lookup_insert_eq.
    + done.
  - intros Hcs. simpl. apply counts_started_insert; [done|]. done.
Qed.

Lemma sound_interactionCreate {b : bool} (env : Env) (i : Interaction) (st : State) :
  Inv_at b st → held st →
  held (interactionCreate env i st)
  ∧ (counts_started (db st) → counts_started (db (interactionCreate env i st))).
Proof.
  intros HI Hh. unfold interactionCreate.
  destruct (negb (isCommand i)); [done|].
  destruct (i_member i) as [mm|]; [|done].
  destruct (negb (has_staff_role env mm)); [done|].
  unfold findOne.
  destruct (String.eqb (commandName i) "timer").
  - destruct (opt_action i) as [action|]; [|done].
    destruct (String.eqb action "stop").
    { unfold timer_stop. destruct (db st !! i_channel i) as [t|] eqn:Hdb; [|done].
      simpl cur. destruct (truthy (timerStartTime t)); [|done].
      rewrite (save_cancel (i_channel i) t st Hdb).
      change (set_db _ (clearAllTimers (i_channel i) st))
        with (cancelled (i_channel i) t st).
      by destruct (sound_cancelled (i_channel i) t st HI Hh) as (H1 & H2 & _). }
    destruct (String.eqb action "restart").
    { destruct (db st !! i_channel i) as [t|] eqn:Hdb; [|done].
      by apply (sound_timer_restart (i_channel i) t st HI). }
    destruct (String.eqb action "status"); [|done].
    unfold timer_status. destruct (db st !! i_channel i) as [t|]; [|done].
    simpl cur. by destruct (truthy (timerStartTime t)).
  - destruct (String.eqb (commandName i) "creator"); [|done].
    destruct (opt_action i) as [action|]; [|done].
    destruct (String.eqb action "check").
    { unfold creator_check. by destruct (db st !! i_channel i). }
    destruct (String.eqb action "assign"); [|done].
    unfold creator_assign. destruct (opt_user i) as [u|]; [|done].
    destruct (db st !! i_channel i) as [t|] eqn:Hdb.
    + unfold assign_creatorId; simpl.
      rewrite (save_fresh (db st) (i_channel i) t
                 (mkTicket (oid t) (user_id u) (timerStartTime t) (reminderCount t))
                 Hdb eq_refl).
      simpl. split.
      * apply (held_fields
                 (set_db (<[i_channel i := mkTicket (oid t) (user_id u)
                              (timerStartTime t) (reminderCount t)]> (db st)) st));
          try done.
        apply held_set_record; [done|]. right. by exists t.
      * intros Hcs. apply counts_started_insert; [done|]. simpl.
        by apply (Hcs (i_channel i)).
    + simpl. split.
      * apply (held_fields
                 (set_db (<[i_channel i := mkTicket (next_oid st) (user_id u) None 0]>
                            (db st)) st)); try done.
        apply held_set_record; [done|]. left.
        intros e He Hcb.
        destruct (Hh e _ He Hcb) as (p & r & o & t & T & _ & _ & _ & _ & Hd' & _).
        congruence.
      * intros Hcs. apply counts_started_insert; [done|]. simpl. lia.
Qed.

Lemma held_fired (h : nat) (st : State) : held st → held (fired h st).
Proof.
  intros Hh e' c He' Hcb.
  destruct (fired_origin h st e' He') as (e & He & Hhid & Hc & Hp & _).
  rewrite Hc in Hcb.
  destruct (Hh e c He Hcb) as (p & r & o & t & T & H1 & H2 & H3 & H4 & H5 & H6).
  exists p, r, o, t, T. simpl. rewrite Hp, Hhid. done.
Qed.

Lemma sound_sendReminder (c : string) (t : Ticket) (T : Z) (st : State) :
  held st → db st !! c = Some t → timerStartTime t = Some T →
  held (sendReminder c st)
  ∧ (counts_started (db st) → counts_started (db (sendReminder c st))).
Proof.
  intros Hh Hdb HT. rewrite (sendReminder_found c t st Hdb). split.
  - apply (held_fields (set_db (<[c := reminded t]> (db st)) st)); try done.
    apply held_set_record; [done|]. right. by exists t.
  - intros Hcs. simpl. apply counts_started_insert; [done|]. simpl. by rewrite HT.
Qed.

Lemma sound_start_callback {b : bool} (st : State) (e0 : Sched) (c : string)
    (d : Doc) (r : nat) :
  Inv_at b st → held st → e0 ∈ pending st → cb e0 = CbStart c d r →
  held (start_callback c d r (fired (hid e0) st))
  ∧ (counts_started (db st)
     → counts_started (db (start_callback c d r (fired (hid e0) st)))).
Proof.
  intros HI Hh He0 Hcb.
  destruct (inv_start st HI e0 c d r He0 Hcb)
    as (Hper & Hdc & Hcur & Htm & Hhp & t & Hdb & Hst).
  set (st1 := fired (hid e0) st).
  assert (HI1 : Inv_at b st1) by by apply Inv_fired.
  assert (Hh1 : held st1) by by apply held_fired.
  assert (Hno : ∀ e, e ∈ pending st1 → cb e ≠ CbReminder c).
  { intros e He Hcb'.
    destruct (Hh1 e c He Hcb') as (p & r' & o & _ & _ & _ & Hr1 & Hr2 & Hr3 & _).
    simpl in Hr1, Hr2. rewrite Htm in Hr1. simplify_eq. }
  assert (Hq : quiet c st1).
  { intros e' He'. pose proof (fired_gone st e0 e' HI He0 Hper He') as Hne. split.
    - intros d' r' Hcb'.
      destruct (inv_start st1 HI1 e' c d' r' He' Hcb') as (_ & _ & _ & Htm' & Hhp' & _).
      simpl in Htm', Hhp'. congruence.
    - intros Hcb'.
      destruct (inv_alert st1 HI1 e' c He' Hcb')
        as (_ & r' & o' & _ & _ & Htm' & Hhp' & Hsf & _).
      simpl in Htm', Hhp'. rewrite Htm in Htm'. simplify_eq. }
  destruct (save (assign_reminderCount 0
                    (assign_timerStartTime (Some (clock st1)) d)) (db st1))
    as [m'|] eqn:Hsave.
  2:{ by rewrite (start_callback_aborts c d r st1 Hsave). }
  destruct (start_callback_fields c d r st1 m' Hsave)
    as (Hc' & Hd' & _ & Ht' & Hh' & Hr' & Hp' & Hn' & Htr').
  destruct (save_start c d t (db st1) m' (clock st1) Hdc Hcur Hdb Hst Hsave)
    as (t' & -> & Hst').
  set (st3 := set_db (<[c := t']> (db st1)) st1).
  assert (Hh3 : held st3) by (apply held_set_record; [done|by left]).
  assert (HI3 : Inv_at b st3).
  { apply Inv_set_record; [done| |by left].
    intros _ T HT. rewrite Hst' in HT. simplify_eq. done. }
  split.
  - apply (held_arm c r
             (mkTimer (timer_start (deref r st1)) (Some (next_hid st1))
                      (Some (S (next_hid st1))))
             [mkSched (next_hid st1) (clock st1 + REMINDER_INTERVAL)
                      (Some REMINDER_INTERVAL) (CbReminder c);
              mkSched (S (next_hid st1)) (clock st1 + STAFF_ALERT_TIME) None
                      (CbStaffAlert c)] st3 _ HI3 Hh3); try done.
    + by left.
    + rewrite Ht'. simpl. by rewrite insert_id.
    + intros e c' He Hcbe. rewrite !elem_of_cons, elem_of_nil in He.
      destruct He as [->|[->|[]]]; simpl in Hcbe; [|done]. simplify_eq.
      eexists _, r, _, t', (clock st1). simpl.
      rewrite Ht', Hh', Hd', !lookup_insert_eq. done.
  - intros Hcs. rewrite Hd'. apply counts_started_insert; [done|]. by rewrite Hst'.
Qed.

Lemma sound_fire {b : bool} (h : nat) (st st' : State) :
  Inv_at b st → held st → fire h st = Some st' →
  held st' ∧ (counts_started (db st) → counts_started (db st')).
Proof.
  intros HI Hh Hfire. apply fire_inv in Hfire as (e & He & <- & Hdue & ->).
  change (set_pending _ st) with (fired (hid e) st).
  destruct (cb e) as [c d r|c|c] eqn:Hcb; simpl.
  - by apply (sound_start_callback st e c d r HI).
  - destruct (Hh e c He Hcb) as (p & r & o & t & T & _ & _ & _ & _ & Hdb & HT).
    apply (sound_sendReminder c t T (fired (hid e) st)); [|done|done].
    by apply held_fired.
  - split; [|done]. apply (held_fields (fired (hid e) st)); try done.
    by apply held_fired.
Qed.

(** A start of the process forgets the timers: what holds of them holds of
    none. *)
Lemma Inv_forget {b : bool} (st : State) : Inv_at b st → Inv_at b (fresh st).
Proof.
  intros [H1 H2 H3 H4 H5 H6 H7 H8 H9 H10].
  constructor; simpl; try done.
  - intros e He. by apply elem_of_nil in He.
  - apply NoDup_nil_2.
  - intros e c d r He. by apply elem_of_nil in He.
  - intros e c He. by apply elem_of_nil in He.
Qed.

Lemma held_fresh (st : State) : held (fresh st).
Proof. intros e c He. by apply elem_of_nil in He. Qed.

Lemma Inv_started (st : State) : started st → Inv_at false st.
Proof.
  intros (Ht & Hp & Htr). constructor; rewrite ?Ht, ?Hp, ?Htr; try done.
  - intros e He. by apply elem_of_nil in He.
  - apply NoDup_nil_2.
  - intros e c d r He. by apply elem_of_nil in He.
  - intros e c He. by apply elem_of_nil in He.
  - intros c T Hin. by apply elem_of_nil in Hin.
  - intros c. apply NoDup_nil_2.
  - intros c tk τ Hin. by apply elem_of_nil in Hin.
Qed.

Lemma held_started (st : State) : started st → held st.
Proof. intros (_ & Hp & _) e c He. rewrite Hp in He. by apply elem_of_nil in He. Qed.

Lemma sound_step {b : bool} (env : Env) (st st' : State) (ev : Z * Event) :
  Inv_at b st → held st → shipped ev.2 → step env st ev = Some st' →
  Inv_at b st' ∧ held st'
  ∧ (counts_started (db st) → counts_started (db st')).
Proof.
  destruct ev as [τ e]. simpl. intros HI Hh Hs.
  destruct (Z.ltb_spec τ (clock st)); [done|].
  assert (HI' : Inv_at b (set_clock τ st)) by by apply Inv_set_clock.
  assert (Hh' : held (set_clock τ st)) by by apply (held_fields st).
  destruct e as [m|i|c|h|announced alive].
  - intros [= <-]. split; [by apply Inv_messageCreate|].
    by apply (sound_messageCreate env m _ HI').
  - intros [= <-]. split; [by apply Inv_interactionCreate|].
    by apply (sound_interactionCreate env i _ HI').
  - intros [= <-]. split; [by apply Inv_channelDelete|].
    by apply (sound_channelDelete c _ HI').
  - intros Hfire. split; [by apply (Inv_fire h (set_clock τ st))|].
    by apply (sound_fire h (set_clock τ st) st' HI').
  - intros [= <-]. unfold restart. rewrite login_other by done.
    split; [by apply Inv_forget|]. split; [apply held_fresh|done].
Qed.

Lemma sound_run {b : bool} (env : Env) (evs : list (Z * Event)) :
  ∀ st st',
    Inv_at b st → held st → Forall (λ ev, shipped ev.2) evs →
    run env evs st = Some st' →
    Inv_at b st' ∧ held st'
    ∧ (counts_started (db st) → counts_started (db st')).
Proof.
  induction evs as [|ev evs IH]; intros st st' HI Hh Hs Hrun; simpl in Hrun.
  - by simplify_eq.
  - apply Forall_cons in Hs as [Hev Hs].
    destruct (step env st ev) as [st1|] eqn:Hstep; [|done].
    destruct (sound_step env st st1 ev HI Hh Hev Hstep) as (HI1 & Hh1 & Hc1).
    destruct (IH st1 st' HI1 Hh1 Hs Hrun) as (HI' & Hh' & Hc').
    split; [done|]. split; [done|]. by auto.
Qed.

Lemma program_sound (env : Env) (st0 : State) (evs : list (Z * Event))
    (st : State) :
  program env st0 evs st →
  Inv_at false st ∧ held st ∧ (counts_started (db st0) → counts_started (db st)).
Proof.
  intros (Hst & Hs & Hrun).
  apply (sound_run env evs st0 st); try done.
  - by apply Inv_started.
  - by apply held_started.
Qed.



(** ** The staff alert across restarts *)


Lemma found_started : started found.
Proof. by repeat split. Qed.



(** ** Counts and start times *)



(** ** What [clearAllTimers] leaves armed *)



(** ** Staff messages during the pre-delay *)




(** ** The creator's reply *)



(** ** Manual restart *)



(** ** The start of a process *)

(** A start of the process that the client announces under another name
    than [clientready] runs no listener: it leaves the collection as it is,
    arms nothing and sends nothing. *)
Lemma restart_unheard (announced : string) (alive : list string) (st : State) :
  announced ≠ READY_LISTENER → restart announced alive st = fresh st.
Proof. intros Hne. unfold restart. by rewrite login_other. Qed.

Lemma step_nothing_armed (env : Env) (st : State) (τ : Z) (h : nat) :
  pending st = [] → step env st (τ, TimerFires h) = None.
Proof.
  intros Hp. simpl. destruct (τ <? clock st); [done|].
  unfold fire. simpl. by rewrite Hp.
Qed.

(** C1: a start of the process recovers no schedule.  The ticket of [alice]
    counts since [day_start] and has been sent two reminders when its
    process stops; a process starts one hour after the second reminder.
    The process that never stopped sends the third reminder at
    [day_start + 18 * hour], which is also the time that the
    specification computes, and the count is 3.  The process that starts runs no
    recovery, whether the client announces itself as [clientReady] or as
    [ready]: the listener is registered under [clientready].  It has no
    timer armed, no timer can fire, and the count stays 2. *)
Theorem process_start_recovers_nothing :
  let restarted := after (day_one ++ [(day_start + 13 * hour,
                                       ProcessRestart "clientReady" ["chan"])]) in
  let continued := after (day_one ++ [(day_start + 18 * hour, TimerFires 1)]) in
  spec_next_reminder day_start (day_start + 13 * hour) = day_start + 18 * hour
  ∧ spec_reminder_count day_start (day_start + 18 * hour) = 3
  ∧ reminder_times "chan" (trace continued)
    = [day_start + 18 * hour; day_start + 12 * hour; day_start + 6 * hour]
  ∧ count_of "chan" continued = Some 3
  ∧ restarted = fresh (set_clock (day_start + 13 * hour) active)
  ∧ after (day_one ++ [(day_start + 13 * hour, ProcessRestart "ready" ["chan"])])
    = restarted
  ∧ pending restarted = [] ∧ timers restarted = ∅
  ∧ db restarted !! "chan" = Some (mkTicket 0 "alice" (Some day_start) 2)
  ∧ reminder_times "chan" (trace restarted)
    = [day_start + 12 * hour; day_start + 6 * hour]
  ∧ ∀ τ h, step env0 restarted (τ, TimerFires h) = None.
Proof.
  cbv zeta.
  repeat (split; [vm_compute; reflexivity|]).
  intros τ h. apply step_nothing_armed. vm_compute. reflexivity.
Qed.

(** ** Manual stop during the pre-delay *)

(** C7: [/timer stop] during the pre-delay stops nothing.  The creator
    replies, so the ticket is idle; a staff member writes, which arms the
    pre-delay; a minute later a staff member runs [/timer stop].  The
    command answers that there is no active timer and cancels nothing: the
    pre-delay stays armed, fires ten minutes after the staff message and
    begins the countdown.  The creator's reply at the same moment cancels
    the pre-delay. *)
Theorem timer_stop_misses_pre_delay :
  let waiting := after (day_one
                        ++ [(day_start + 13 * hour, MessageCreate (says alice plain_member));
                            (day_start + 14 * hour, MessageCreate (says bob staff_member))]) in
  let τ := day_start + 14 * hour + minute in
  let stopped := interactionCreate env0 (command "timer" "stop" None)
                   (set_clock τ waiting) in
  let idle := mkTicket 0 "alice" None 0 in
  db waiting !! "chan" = Some idle
  ∧ pending waiting
    = [mkSched 3 (day_start + 14 * hour + START_DELAY) None
               (CbStart "chan" (mkDoc "chan" idle idle) 1)]
  ∧ stopped = reply "chan" ReplyNoActiveTimer (set_clock τ waiting)
  ∧ pending stopped = pending waiting
  ∧ (db <$> step env0 stopped (day_start + 14 * hour + START_DELAY, TimerFires 3))
    = Some {[ "chan" := mkTicket 0 "alice" (Some (day_start + 14 * hour + START_DELAY)) 0 ]}
  ∧ (pending <$> step env0 stopped (day_start + 14 * hour + START_DELAY, TimerFires 3))
    = Some [mkSched 4 (day_start + 14 * hour + START_DELAY + REMINDER_INTERVAL)
                    (Some REMINDER_INTERVAL) (CbReminder "chan");
            mkSched 5 (day_start + 14 * hour + START_DELAY + STAFF_ALERT_TIME) None
                    (CbStaffAlert "chan")]
  ∧ pending (messageCreate env0 (says alice plain_member) (set_clock τ waiting)) = [].
Proof. by_evaluation. Qed.
(** ** The elapsed time, and the interactions that only answer *)

Lemma hours_minutes (e : Z) :
  0 ≤ e →
  let h := e / (60 * 60 * 1000) in
  let m := Z.rem e (60 * 60 * 1000) / (60 * 1000) in
  0 ≤ h ∧ 0 ≤ m < 60 ∧ h * hour + m * minute ≤ e < h * hour + (m + 1) * minute.
Proof.
  intros He. cbv zeta.
  change (60 * 60 * 1000) with 3600000. change (60 * 1000) with 60000.
  change hour with 3600000. change minute with 60000.
  rewrite Z.rem_mod_nonneg by lia.
  pose proof (Z.div_mod e 3600000 ltac:(lia)) as H1.
  pose proof (Z.mod_pos_bound e 3600000 ltac:(lia)) as H2.
  pose proof (Z.div_mod (e mod 3600000) 60000 ltac:(lia)) as H3.
  pose proof (Z.mod_pos_bound (e mod 3600000) 60000 ltac:(lia)) as H4.
  assert (0 ≤ e / 3600000) by (apply Z.div_pos; lia).
  assert (0 ≤ e mod 3600000 / 60000) by (apply Z.div_pos; lia).
  lia.
Qed.

(** X1: for a start time that is not zero and not in the future,
    [getTimeElapsed] gives the whole hours [h] and the minutes [m] of the
    time elapsed since the start: [m] is between 0 and 59, and the elapsed
    time lies in the minute that begins [h] hours and [m] minutes after the
    start. *)
Theorem getTimeElapsed_bounds (T : Z) (st : State) :
  T ≠ 0 → T ≤ clock st →
  ∃ h m, getTimeElapsed (Some T) st = Some (h, m)
         ∧ 0 ≤ h ∧ 0 ≤ m < 60
         ∧ h * hour + m * minute ≤ clock st - T < h * hour + (m + 1) * minute.
Proof.
  intros HT Hle. unfold getTimeElapsed, truthy.
  destruct (Z.eqb_spec T 0) as [|_]; [done|].
  eexists _, _. split; [reflexivity|]. apply hours_minutes. lia.
Qed.

Lemma getTimeElapsed_bounds_witness :
  ∃ h m, getTimeElapsed (Some 1000) (set_clock (1000 + 7 * hour + 95 * 1000)
                                        (persisted "alice" (Some 1000) 1))
         = Some (h, m)
         ∧ 0 ≤ h ∧ 0 ≤ m < 60
         ∧ h * hour + m * minute ≤ 1000 + 7 * hour + 95 * 1000 - 1000
           < h * hour + (m + 1) * minute.
Proof.
  apply (getTimeElapsed_bounds 1000
           (set_clock (1000 + 7 * hour + 95 * 1000) (persisted "alice" (Some 1000) 1))).
  - lia.
  - simpl. unfold hour. lia.
Defined.

(** X2: [interactionCreate] changes a record or a timer only for a staff
    member's [/timer stop] on a record with a start time, [/timer restart]
    on a tracked ticket, or [/creator assign] with a user.  Every other
    interaction (not a command, a member without the staff or king role,
    [status], [check], an unknown command or action, [stop] with nothing to
    stop, [restart] with no record, [assign] with no user) leaves the state
    as it was but for at most one answer.  A command without a member,
    which is one used outside a guild, gets no answer at all: the handler
    throws when it reads the member's roles, before it answers or changes
    anything, whatever the command. *)
Theorem interactionCreate_answers_only (env : Env) (i : Interaction) (st : State) :
  ¬ acts env i st →
  (i_member i = None → interactionCreate env i st = st)
  ∧ (interactionCreate env i st = st
     ∨ ∃ r, interactionCreate env i st = reply (i_channel i) r st).
Proof.
  intros Hn. unfold interactionCreate.
  destruct (isCommand i) eqn:Hc; simpl; [|by split; [|left]].
  destruct (i_member i) as [mm|] eqn:Hm; [|by split; [|left]].
  split; [done|]. unfold acts in Hn. rewrite Hm in Hn. simpl in Hn.
  destruct (has_staff_role env mm) eqn:Hs; simpl; [|right; by eexists].
  unfold findOne.
  destruct (String.eqb_spec (commandName i) "timer") as [Hname|_].
  - destruct (opt_action i) as [a|] eqn:Ha; [|by left].
    destruct (String.eqb_spec a "stop") as [->|_].
    { unfold timer_stop. destruct (db st !! i_channel i) as [t|] eqn:Hdb;
        [|right; by eexists]. simpl.
      destruct (truthy (timerStartTime t)) as [T|] eqn:HT; [|right; by eexists].
      destruct Hn. split; [done|]. split; [done|]. left. by eauto 10. }
    destruct (String.eqb_spec a "restart") as [->|_].
    { destruct (db st !! i_channel i) as [t|] eqn:Hdb; [|right; by eexists].
      destruct Hn. split; [done|]. split; [done|]. right; left. by eauto. }
    destruct (String.eqb_spec a "status") as [->|_]; [|by left].
    unfold timer_status. destruct (db st !! i_channel i) as [t|]; [|right; by eexists].
    simpl. destruct (truthy (timerStartTime t)); right; by eexists.
  - destruct (String.eqb_spec (commandName i) "creator") as [Hname|_]; [|by left].
    destruct (opt_action i) as [a|] eqn:Ha; [|by left].
    destruct (String.eqb_spec a "check") as [->|_].
    { unfold creator_check. destruct (db st !! i_channel i); right; by eexists. }
    destruct (String.eqb_spec a "assign") as [->|_]; [|by left].
    destruct (opt_user i) as [u|] eqn:Hu; [|right; by eexists].
    destruct Hn. split; [done|]. split; [done|]. right; right. by eauto.
Qed.

Lemma interactionCreate_answers_only_witness :
  (let i := command "timer" "status" None in
   interactionCreate env0 i active = active
   ∨ ∃ r, interactionCreate env0 i active = reply "chan" r active)
  ∧ (let i := mkInteraction true "chan" None "timer" (Some "restart") None in
     interactionCreate env0 i active = active).
Proof.
  split.
  - apply (interactionCreate_answers_only env0 (command "timer" "status" None)).
    intros (_ & _ & [(_ & Ha & _)|[(_ & Ha & _)|(Hn & _)]]); simpl in *; discriminate.
  - apply (interactionCreate_answers_only env0
             (mkInteraction true "chan" None "timer" (Some "restart") None) active).
    + intros (_ & Hs & _). simpl in Hs. discriminate.
    + reflexivity.
Defined.

(** X3: the creator found among the mentions of the ticket-tool bot's
    message is the first mentioned user whose member is found and who is
    neither staff nor a bot; none is found exactly when no mentioned user is
    such a one. *)
Theorem first_mentioned_first_eligible (env : Env) (ms : list (User * option Member)) :
  match first_mentioned env ms with
  | Some creator =>
      ∃ ms1 u mm ms2,
        ms = ms1 ++ (u, Some mm) :: ms2 ∧ creator = user_id u
        ∧ eligible env (u, Some mm)
        ∧ Forall (λ p, ¬ eligible env p) ms1
  | None => Forall (λ p, ¬ eligible env p) ms
  end.
Proof.
  induction ms as [|[u [mm|]] ms IH]; simpl.
  - constructor.
  - destruct (has_staff_role env mm) eqn:Hs; simpl.
    { assert (Hu : ¬ eligible env (u, Some mm)).
      { intros (mm' & Hm & Hs' & _). simpl in Hm. simplify_eq. congruence. }
      destruct (first_mentioned env ms) as [creator|].
      - destruct IH as (ms1 & u' & mm' & ms2 & -> & Hc & He & Hall).
        exists ((u, Some mm) :: ms1), u', mm', ms2.
        split; [done|]. split; [done|]. split; [done|]. by constructor.
      - by constructor. }
    destruct (user_bot u) eqn:Hb; simpl.
    { assert (Hu : ¬ eligible env (u, Some mm)).
      { intros (mm' & _ & _ & Hb'). simpl in Hb'. congruence. }
      destruct (first_mentioned env ms) as [creator|].
      - destruct IH as (ms1 & u' & mm' & ms2 & -> & Hc & He & Hall).
        exists ((u, Some mm) :: ms1), u', mm', ms2.
        split; [done|]. split; [done|]. split; [done|]. by constructor.
      - by constructor. }
    exists [], u, mm, ms. split; [done|]. split; [done|].
    split; [by exists mm|constructor].
  - assert (Hu : ¬ eligible env (u, None)).
    { by intros (mm' & Hm & _). }
    destruct (first_mentioned env ms) as [creator|].
    + destruct IH as (ms1 & u' & mm' & ms2 & -> & Hc & He & Hall).
      exists ((u, None) :: ms1), u', mm', ms2.
      split; [done|]. split; [done|]. split; [done|]. by constructor.
    + by constructor.
Qed.


(** ** Messages in a ticket without a record, and messages that are ignored *)

Lemma first_mentioned_Some (env : Env) (ms : list (User * option Member))
    (creator : string) :
  first_mentioned env ms = Some creator →
  ∃ p, p ∈ ms ∧ eligible env p ∧ creator = user_id p.1.
Proof.
  induction ms as [|[u [mm|]] ms IH]; simpl; [done| |].
  - destruct (has_staff_role env mm) eqn:Hs; simpl.
    { intros H. destruct (IH H) as (p & Hp & He). exists p. split; [by right|done]. }
    destruct (user_bot u) eqn:Hb; simpl.
    { intros H. destruct (IH H) as (p & Hp & He). exists p. split; [by right|done]. }
    intros [= <-]. exists (u, Some mm). split; [left|]. split; [by exists mm|done].
  - intros H. destruct (IH H) as (p & Hp & He). exists p. split; [by right|done].
Qed.

Lemma nonempty_true (s : string) : nonempty s = true → s ≠ EmptyString.
Proof. by destruct s. Qed.

(** X4: a message in a ticket with no record arms and cancels no timer and
    leaves every other record alone.  When it creates the record, the bot
    heard the message, the record has no start time and a zero count, and
    its creator is not empty: it is a mentioned user whose member is found
    and who is neither staff nor a bot when the ticket-tool bot wrote the
    message, and otherwise the author, who is then neither staff nor a
    bot. *)
Theorem messageCreate_untracked (env : Env) (m : Message) (st : State) :
  db st !! channel_id m = None →
  let st' := messageCreate env m st in
  timers st' = timers st ∧ heap st' = heap st ∧ pending st' = pending st
  ∧ (∀ c, c ≠ channel_id m → db st' !! c = db st !! c)
  ∧ ∀ t, db st' !! channel_id m = Some t →
         heard env m
         ∧ t = mkTicket (next_oid st) (creatorId t) None 0
         ∧ creatorId t ≠ EmptyString
         ∧ if decide (user_id (author m) = TICKET_TOOL_BOT_ID env)
           then ∃ p, p ∈ mentions m ∧ eligible env p ∧ creatorId t = user_id p.1
           else creatorId t = user_id (author m)
                ∧ isStaff env (member m) = false
                ∧ user_bot (author m) = false.
Proof.
  intros Hdb. cbv zeta.
  assert (Hsame : ∀ st', st' = st →
            timers st' = timers st ∧ heap st' = heap st ∧ pending st' = pending st
            ∧ (∀ c, c ≠ channel_id m → db st' !! c = db st !! c)
            ∧ ∀ t, db st' !! channel_id m = Some t →
                   heard env m
                   ∧ t = mkTicket (next_oid st) (creatorId t) None 0
                   ∧ creatorId t ≠ EmptyString
                   ∧ if decide (user_id (author m) = TICKET_TOOL_BOT_ID env)
                     then ∃ p, p ∈ mentions m ∧ eligible env p
                               ∧ creatorId t = user_id p.1
                     else creatorId t = user_id (author m)
                          ∧ isStaff env (member m) = false
                          ∧ user_bot (author m) = false).
  { intros st' ->. repeat (split; [done|]). intros t Ht. congruence. }
  unfold messageCreate.
  destruct (guild m) eqn:Hg; simpl; [|by apply Hsame].
  destruct (user_bot (author m)
            && negb (user_id (author m) =? TICKET_TOOL_BOT_ID env)%string) eqn:Hb;
    [by apply Hsame|].
  destruct (String.eqb_spec (parentId m) (TICKET_CATEGORY_ID env)) as [Hp|];
    simpl; [|by apply Hsame].
  unfold findOne. rewrite Hdb.
  destruct (detect_creator env m) as [creator|] eqn:Hd; [|by apply Hsame].
  destruct (nonempty creator) eqn:Hne; [|by apply Hsame].
  simpl. repeat (split; [done|]). split.
  { intros c Hc. by rewrite lookup_insert_ne. }
  intros t. rewrite lookup_insert_eq. intros [= <-]. simpl.
  assert (Hh : heard env m).
  { split; [done|]. split; [done|].
    destruct (user_bot (author m)); [|by left]. right.
    simpl in Hb. by destruct (String.eqb_spec (user_id (author m)) (TICKET_TOOL_BOT_ID env)). }
  split; [done|]. split; [done|]. split; [by apply nonempty_true|].
  unfold detect_creator in Hd.
  destruct (String.eqb_spec (user_id (author m)) (TICKET_TOOL_BOT_ID env)) as [He|He].
  - rewrite decide_True by done. by apply first_mentioned_Some.
  - rewrite decide_False by done.
    destruct (isStaff env (member m)); simpl in Hd; [done|].
    destruct (user_bot (author m)); simpl in Hd; [done|]. by simplify_eq.
Qed.

Lemma messageCreate_untracked_witness :
  let m := mkMessage true (mkUser "ticket-tool" true) None "chan2" "category"
             [(bob, Some staff_member); (helper_bot, Some plain_member);
              (alice, Some plain_member)] in
  let st := persisted "carol" (Some 1000) 2 in
  let st' := messageCreate env0 m st in
  timers st' = timers st ∧ heap st' = heap st ∧ pending st' = pending st
  ∧ (∀ c, c ≠ channel_id m → db st' !! c = db st !! c)
  ∧ ∀ t, db st' !! channel_id m = Some t →
         heard env0 m
         ∧ t = mkTicket (next_oid st) (creatorId t) None 0
         ∧ creatorId t ≠ EmptyString
         ∧ if decide (user_id (author m) = TICKET_TOOL_BOT_ID env0)
           then ∃ p, p ∈ mentions m ∧ eligible env0 p ∧ creatorId t = user_id p.1
           else creatorId t = user_id (author m)
                ∧ isStaff env0 (member m) = false
                ∧ user_bot (author m) = false.
Proof.
  intros m st.
  apply (messageCreate_untracked env0 m st). reflexivity.
Defined.

(** X5: a message that the bot does not hear (outside a guild, outside the
    ticket category, or written by a bot other than the ticket-tool bot),
    and a message in a tracked ticket whose author is neither staff nor the
    ticket's creator, leave the whole state as it was. *)
Theorem messageCreate_ignored (env : Env) (m : Message) (st : State) :
  ¬ heard env m
  ∨ (∃ t, db st !! channel_id m = Some t
          ∧ isStaff env (member m) = false
          ∧ user_id (author m) ≠ creatorId t) →
  messageCreate env m st = st.
Proof.
  intros [Hn|(t & Hdb & Hs & Ha)].
  - unfold messageCreate.
    destruct (guild m) eqn:Hg; simpl; [|done].
    destruct (user_bot (author m)
              && negb (user_id (author m) =? TICKET_TOOL_BOT_ID env)%string) eqn:Hb;
      [done|].
    destruct (String.eqb_spec (parentId m) (TICKET_CATEGORY_ID env)) as [Hp|];
      simpl; [|done].
    destruct Hn. split; [done|]. split; [done|].
    destruct (user_bot (author m)); [|by left]. right.
    simpl in Hb. by destruct (String.eqb_spec (user_id (author m)) (TICKET_TOOL_BOT_ID env)).
  - unfold messageCreate.
    destruct (negb (guild m)); [done|].
    destruct (user_bot (author m)
              && negb (user_id (author m) =? TICKET_TOOL_BOT_ID env)%string); [done|].
    destruct (negb (parentId m =? TICKET_CATEGORY_ID env)%string); [done|].
    unfold findOne. rewrite Hdb. simpl. rewrite Hs. simpl.
    by destruct (String.eqb_spec (user_id (author m)) (creatorId t)).
Qed.

Lemma messageCreate_ignored_witness :
  let st := snd (setTimeout (CbStaffAlert "chan") hour (persisted "alice" (Some 1000) 2)) in
  messageCreate env0 (says bob plain_member) st = st.
Proof.
  apply (messageCreate_ignored env0 (says bob plain_member)).
  right. exists (mkTicket 0 "alice" (Some 1000) 2).
  split; [reflexivity|]. split; [reflexivity|]. simpl. discriminate.
Defined.

Lemma clearAllTimers_absent (c : string) (st : State) :
  timers st !! c = None → clearAllTimers c st = st.
Proof. intros H. unfold clearAllTimers. by rewrite H. Qed.

Lemma set_db_id (st : State) : set_db (db st) st = st.
Proof. by destruct st. Qed.

(** X6: the creator's reply handled twice leaves the state that handling it
    once leaves: the second reply finds nothing to cancel, saves nothing
    and logs nothing. *)
Theorem creator_reply_idempotent (env : Env) (m : Message) (st : State) (t : Ticket) :
  heard env m →
  db st !! channel_id m = Some t →
  isStaff env (member m) = false →
  user_id (author m) = creatorId t →
  messageCreate env m (messageCreate env m st) = messageCreate env m st.
Proof.
  intros Hh Hdb Hs Ha.
  set (c := channel_id m).
  set (t1 := mkTicket (oid t) (creatorId t) None 0).
  destruct (cancelled_fields c t st) as (Hd & Ht & _).
  assert (Hidle : ∀ st1, db st1 !! c = Some t1 → timers st1 !! c = None →
                         messageCreate env m st1 = st1).
  { intros st1 Hd1 Ht1.
    rewrite (messageCreate_creator_reply env m st1 t1 Hh Hd1 Hs Ha). simpl.
    fold c. unfold cancelled. rewrite (clearAllTimers_absent c st1 Ht1).
    change (mkTicket (oid t1) (creatorId t1) None 0) with t1.
    rewrite insert_id by done. apply set_db_id. }
  rewrite (messageCreate_creator_reply env m st t Hh Hdb Hs Ha). fold c.
  assert (Hd1 : db (cancelled c t st) !! c = Some t1).
  { by rewrite Hd, lookup_insert_eq. }
  assert (Ht1 : timers (cancelled c t st) !! c = None).
  { by rewrite Ht, lookup_delete_eq. }
  case_bool_decide; apply Hidle; first [exact Hd1|exact Ht1].
Qed.

Lemma creator_reply_idempotent_witness :
  let m := says alice plain_member in
  messageCreate env0 m (messageCreate env0 m active) = messageCreate env0 m active.
Proof.
  apply (creator_reply_idempotent env0 (says alice plain_member) active
           (mkTicket 0 "alice" (Some day_start) 2)).
  - split; [reflexivity|]. split; [reflexivity|]. by left.
  - vm_compute. reflexivity.
  - reflexivity.
  - reflexivity.
Defined.


(** ** Timers that fire *)

Lemma Sched_ext (x y : Sched) :
  hid x = hid y → due x = due y → period x = period y → cb x = cb y → x = y.
Proof. destruct x, y; simpl. by intros -> -> -> ->. Qed.

Lemma fire_Some (e : Sched) (st : State) :
  e ∈ pending st →
  (∀ x, x ∈ pending st → hid x = hid e → x = e) →
  due e ≤ clock st →
  fire (hid e) st = Some (run_callback (cb e) (fired (hid e) st)).
Proof.
  intros He Hu Hdue. unfold fire.
  destruct (list_find_elem_of (λ x, hid x = hid e) (pending st) e He eq_refl)
    as [[i x] Hf].
  rewrite Hf. apply list_find_Some in Hf as (Hi & Hh & _).
  assert (x = e) as ->.
  { apply Hu; [|done]. apply list_elem_of_lookup. by exists i. }
  destruct (Z.leb_spec (due e) (clock st)); [done|lia].
Qed.

Lemma rearm_interval (h : nat) (τ p : Z) (l : list Sched) :
  (∀ x, x ∈ l → hid x = h → period x = Some p) →
  l ≫= rearm h τ = reschedule h (τ + p) l.
Proof.
  induction l as [|x l IH]; intros Hp; [done|].
  rewrite bind_cons. unfold reschedule. rewrite fmap_cons.
  fold (reschedule h (τ + p) l). rewrite <- IH.
  2:{ intros y Hy. apply Hp. by right. }
  unfold rearm at 1. case_decide as Hh; [|done].
  rewrite (Hp x) by (done || left). done.
Qed.

Lemma rearm_timeout (h : nat) (τ : Z) (l : list Sched) :
  (∀ x, x ∈ l → hid x = h → period x = None) →
  l ≫= rearm h τ = filter (λ x, hid x ≠ h) l.
Proof.
  induction l as [|x l IH]; intros Hp; [done|].
  rewrite bind_cons, IH.
  2:{ intros y Hy. apply Hp. by right. }
  unfold rearm. case_decide as Hh.
  - rewrite (Hp x) by (done || left). rewrite filter_cons_False; [done|]. by intros [].
  - by rewrite filter_cons_True.
Qed.

Lemma reschedule_reschedule (h : nat) (d d' : Z) (l : list Sched) :
  reschedule h d' (reschedule h d l) = reschedule h d' l.
Proof.
  unfold reschedule. rewrite <- list_fmap_compose. apply list_fmap_ext.
  intros i x _. simpl. destruct (decide (hid x = h)) as [Hh|Hh]; simpl.
  - by rewrite decide_True by done.
  - by rewrite decide_False by done.
Qed.

Lemma reschedule_id (h : nat) (d : Z) (l : list Sched) :
  (∀ x, x ∈ l → hid x = h → due x = d) → reschedule h d l = l.
Proof.
  intros Hd. unfold reschedule. rewrite <- (list_fmap_id l) at 2.
  apply list_fmap_ext. intros i x Hi. simpl. case_decide as Hh; [|done].
  rewrite <- (Hd x); [by destruct x| |done].
  apply list_elem_of_lookup. by exists i.
Qed.

Lemma elem_of_reschedule (h : nat) (d : Z) (l : list Sched) (x : Sched) :
  x ∈ reschedule h d l →
  ∃ y, y ∈ l ∧ hid x = hid y ∧ cb x = cb y ∧ period x = period y
       ∧ (hid y = h → due x = d).
Proof.
  unfold reschedule. intros Hx. apply list_elem_of_fmap in Hx as (y & -> & Hy).
  exists y. split; [done|]. by case_decide.
Qed.

Lemma next_due_cons (d p τ : Z) (ts : list Z) :
  next_due d p (τ :: ts) = next_due (τ + p) p ts.
Proof.
  unfold next_due. rewrite last_cons. by destruct (last ts).
Qed.

(** The reminders of an interval with handle [h], fired at the times [ts]. *)
Lemma interval_fires (env : Env) (c : string) (h : nat) (p : Z) (ts : list Z) :
  0 ≤ p →
  ∀ (d : Z) (t : Ticket) (st : State),
    (∃ x, x ∈ pending st ∧ hid x = h) →
    (∀ x, x ∈ pending st → hid x = h →
          cb x = CbReminder c ∧ period x = Some p ∧ due x = d) →
    db st !! c = Some t →
    clock st ≤ d →
    on_time d p ts →
    run env ((λ τ, (τ, TimerFires h)) <$> ts) st
    = Some (mkState (default (clock st) (last ts))
              (<[c := mkTicket (oid t) (creatorId t) (timerStartTime t)
                               (reminderCount t + Z.of_nat (length ts))]> (db st))
              (next_oid st) (timers st) (heap st) (next_ref st)
              (reschedule h (next_due d p ts) (pending st))
              (next_hid st)
              (reminders_at c (creatorId t) (reminderCount t) ts (trace st))).
Proof.
  intros Hp. induction ts as [|τ ts IH]; intros d t st Hex Hall Hdb Hclk Hts.
  - simpl. unfold next_due; simpl. rewrite reschedule_id.
    2:{ intros x Hx Hh. by destruct (Hall x Hx Hh) as (_ & _ & ?). }
    rewrite Z.add_0_r, insert_id by (by destruct t). by destruct st.
  - destruct Hts as [Hτ Hts]. rewrite fmap_cons. cbn [run step].
    destruct (Z.ltb_spec τ (clock st)); [lia|].
    destruct Hex as (e & He & Hh).
    destruct (Hall e He Hh) as (Hcb & Hper & Hdue).
    assert (Hfire : fire h (set_clock τ st)
                    = Some (sendReminder c (fired h (set_clock τ st)))).
    { subst h. rewrite (fire_Some e (set_clock τ st));
        [by rewrite Hcb|exact He| |simpl; lia].
      intros x Hx Hhx. simpl in Hx.
      destruct (Hall x Hx Hhx) as (Hcb' & Hper' & Hdue').
      apply Sched_ext; congruence. }
    rewrite Hfire. clear Hfire.
    assert (Hfired : fired h (set_clock τ st)
                     = set_pending (reschedule h (τ + p) (pending st)) (set_clock τ st)).
    { unfold fired. simpl. rewrite (rearm_interval h τ p); [done|].
      intros x Hx Hhx. by destruct (Hall x Hx Hhx) as (_ & ? & _). }
    rewrite Hfired. clear Hfired.
    rewrite (sendReminder_found c t) by done.
    rewrite (IH (τ + p) (reminded t)); simpl.
    + rewrite reschedule_reschedule, insert_insert_eq, next_due_cons.
      do 2 f_equal.
      * rewrite last_cons. by destruct (last ts).
      * do 2 f_equal. lia.
    + exists (mkSched (hid e) (τ + p) (period e) (cb e)). split; [|done].
      unfold reschedule. apply (list_elem_of_fmap_2' _ _ e); [done|].
      by rewrite decide_True.
    + intros x Hx Hhx. apply elem_of_reschedule in Hx as (y & Hy & Hh1 & Hc1 & Hp1 & Hd1).
      rewrite Hh1 in Hhx. destruct (Hall y Hy Hhx) as (? & ? & _).
      split; [congruence|]. split; [congruence|]. by apply Hd1.
    + by rewrite lookup_insert_eq.
    + lia.
    + done.
Qed.

(** X7: the interval of the reminders never stops by itself.  Fired at the
    times [ts], none before it is due and each at least one period after
    the one before, it sends one reminder per firing, numbered on from the
    record's count and marked final exactly for number 3, adds the number of
    firings to the count of the record, stays armed one period after its
    last firing, and changes nothing else: no other timer, no start time,
    not the [timers] map. *)
Theorem reminder_loop (env : Env) (c : string) (e : Sched) (p : Z) (t : Ticket)
    (ts : list Z) (st : State) :
  e ∈ pending st → NoDup (hid <$> pending st) →
  cb e = CbReminder c → period e = Some p → 0 ≤ p →
  db st !! c = Some t →
  clock st ≤ due e → on_time (due e) p ts →
  ∃ st', run env ((λ τ, (τ, TimerFires (hid e))) <$> ts) st = Some st'
         ∧ db st' = <[c := mkTicket (oid t) (creatorId t) (timerStartTime t)
                                    (reminderCount t + Z.of_nat (length ts))]> (db st)
         ∧ trace st' = reminders_at c (creatorId t) (reminderCount t) ts (trace st)
         ∧ pending st' = reschedule (hid e) (next_due (due e) p ts) (pending st)
         ∧ timers st' = timers st ∧ heap st' = heap st.
Proof.
  intros He Hnd Hcb Hper Hp Hdb Hclk Hts.
  eexists. split.
  - apply (interval_fires env c (hid e) p ts Hp (due e) t st); try done.
    + by exists e.
    + intros x Hx Hh. by rewrite (NoDup_hid_eq (pending st) x e Hnd Hx He Hh).
  - done.
Qed.

(** X8: when the timeout of the staff alert fires, the alert is sent with
    the ticket's record as it is and logged; the timeout is gone, and
    everything else stays: the record keeps its start time and its count,
    the ticket keeps its entry of [timers], and every other armed timer,
    the interval of the reminders included, stays armed. *)
Theorem staff_alert_fires (env : Env) (c : string) (e : Sched) (τ : Z) (st : State) :
  e ∈ pending st → NoDup (hid <$> pending st) →
  cb e = CbStaffAlert c → period e = None →
  clock st ≤ τ → due e ≤ τ →
  ∃ st', step env st (τ, TimerFires (hid e)) = Some st'
         ∧ db st' = db st ∧ timers st' = timers st ∧ heap st' = heap st
         ∧ pending st' = filter (λ x, hid x ≠ hid e) (pending st)
         ∧ trace st' = ObsLog c LogStaffAlert τ
                       :: ObsStaffAlert c (db st !! c) τ :: trace st.
Proof.
  intros He Hnd Hcb Hper Hclk Hdue. cbn [step].
  destruct (Z.ltb_spec τ (clock st)); [lia|].
  assert (Hu : ∀ x, x ∈ pending st → hid x = hid e → x = e).
  { intros x Hx Hh. by apply (NoDup_hid_eq (pending st)). }
  rewrite (fire_Some e (set_clock τ st)) by done.
  rewrite Hcb. unfold fired. simpl. rewrite (rearm_timeout (hid e) τ).
  2:{ intros x Hx Hh. by rewrite (Hu x Hx Hh). }
  eexists. split; [reflexivity|]. done.
Qed.

(** The pre-delay's timeout fires: it is gone, and its callback runs. *)
Lemma pre_delay_fires (env : Env) (c : string) (d : Doc) (r h : nat) (τ0 τ : Z)
    (l : list Sched) (st : State) :
  pending st = l ++ [mkSched h τ0 None (CbStart c d r)] →
  (∀ x, x ∈ l → hid x ≠ h) →
  clock st ≤ τ → τ0 ≤ τ →
  step env st (τ, TimerFires h)
  = Some (start_callback c d r (set_pending l (set_clock τ st))).
Proof.
  intros Hp Hl Hclk Hdue. cbn [step].
  destruct (Z.ltb_spec τ (clock st)); [lia|].
  set (e := mkSched h τ0 None (CbStart c d r)).
  assert (Hu : ∀ x, x ∈ pending st → hid x = h → x = e).
  { intros x Hx Hh. rewrite Hp, elem_of_app in Hx. destruct Hx as [Hx|Hx].
    - by destruct (Hl x Hx).
    - by apply list_elem_of_singleton in Hx. }
  assert (He : e ∈ pending st).
  { rewrite Hp, elem_of_app. right. by apply list_elem_of_singleton. }
  pose proof (fire_Some e (set_clock τ st) He Hu Hdue) as Hf.
  subst e. simpl in Hf. rewrite Hf. clear Hf.
  unfold fired. simpl. rewrite (rearm_timeout h τ).
  2:{ intros x Hx Hh. by rewrite (Hu x Hx Hh). }
  rewrite Hp, filter_app, filter_all by done.
  rewrite filter_cons_False by (by intros []).
  rewrite filter_nil, app_nil_r. done.
Qed.

(** Saving the document of a pre-delay over a record whose creator was
    assigned in the meantime: the creator stays. *)
Lemma save_start_stale (c u : string) (t : Ticket) (τ : Z) (m : gmap string Ticket) :
  m !! c = Some (mkTicket (oid t) u (timerStartTime t) (reminderCount t)) →
  save (assign_reminderCount 0 (assign_timerStartTime (Some τ) (mkDoc c t t))) m
  = Some (<[c := mkTicket (oid t) u (Some τ) 0]> m).
Proof.
  intros Hm. unfold save, assign_reminderCount, assign_timerStartTime; simpl.
  case_decide as Heq.
  - rewrite insert_id; [done|]. rewrite Hm. by rewrite <- Heq.
  - rewrite Hm; simpl. rewrite decide_True by done.
    unfold merge_paths; simpl. rewrite decide_True by done.
    do 3 f_equal; case_decide; congruence.
Qed.

(** X9: a staff message that the bot hears in a tracked ticket, followed by
    the firing of the pre-delay's timeout at [τ], at least [START_DELAY]
    later: the record gets the start time [τ] and a zero count, the start
    of the timer is logged, and the ticket's timer object, which still holds
    the timeout that fired, holds the interval of the reminders, due every
    [REMINDER_INTERVAL] from [τ] on, and the timeout of the staff alert, due
    at [τ + STAFF_ALERT_TIME]; the timers that the ticket's timer object
    held before the message are cancelled, every other armed timer stays. *)
Theorem pre_delay_elapsed (env : Env) (c : string) (m : Message) (t : Ticket)
    (τ : Z) (st : State) :
  staff_message env c m →
  db st !! c = Some t →
  (∀ e, e ∈ pending st → (hid e < next_hid st)%nat) →
  clock st + START_DELAY ≤ τ →
  let h := next_hid st in
  let r := next_ref st in
  ∃ st', step env (messageCreate env m st) (τ, TimerFires h) = Some st'
         ∧ db st' = <[c := restarted t τ]> (db st)
         ∧ timers st' = <[c := r]> (timers st)
         ∧ heap st' = <[r := mkTimer (Some h) (Some (S h)) (Some (S (S h)))]> (heap st)
         ∧ pending st'
           = filter (λ e, hid e ∉ registered c st) (pending st)
             ++ [mkSched (S h) (τ + REMINDER_INTERVAL) (Some REMINDER_INTERVAL)
                         (CbReminder c);
                 mkSched (S (S h)) (τ + STAFF_ALERT_TIME) None (CbStaffAlert c)]
         ∧ trace st' = ObsLog c LogTimerStarted τ :: trace st.
Proof.
  intros (Hh & <- & Hs) Hdb Hfresh Hτ. cbv zeta.
  rewrite (messageCreate_staff env m st t Hh Hdb Hs).
  destruct (restart_countdown_fields (channel_id m) t st Hdb)
    as (Hc & Hd & _ & Ht & Hhp & _ & Hp & Hn & Htr).
  set (c := channel_id m) in *.
  set (st1 := startTimers c (clearAllTimers c st)) in *.
  rewrite (pre_delay_fires env c (mkDoc c t t) (next_ref st) (next_hid st)
             (clock st + START_DELAY) τ _ st1 Hp).
  2:{ intros x Hx. apply list_elem_of_filter in Hx as [_ Hx].
      specialize (Hfresh x Hx). lia. }
  2:{ rewrite Hc. unfold START_DELAY in *. lia. }
  2:{ done. }
  set (st2 := set_pending _ _).
  assert (Hsave : save (assign_reminderCount 0
                          (assign_timerStartTime (Some (clock st2)) (mkDoc c t t)))
                       (db st2)
                  = Some (<[c := restarted t τ]> (db st))).
  { simpl. rewrite Hd. unfold assign_reminderCount, assign_timerStartTime; simpl.
    by apply save_fresh. }
  destruct (start_callback_fields c (mkDoc c t t) (next_ref st) st2 _ Hsave)
    as (_ & Hd' & _ & Ht' & Hh' & _ & Hp' & _ & Htr').
  eexists. split; [reflexivity|].
  rewrite Hd', Ht', Hh', Hp', Htr'. simpl. rewrite Ht, Hhp, Hn, Htr.
  unfold deref; simpl. rewrite Hhp, lookup_insert_eq; simpl.
  by rewrite insert_insert_eq.
Qed.

(** X10: a creator assigned by [/creator assign] during the pre-delay is
    kept when the countdown begins: the callback of the pre-delay saves the
    document it loaded before the assignment, which writes the start time
    and the count and leaves the creator that is stored. *)
Theorem assign_during_pre_delay (env : Env) (c : string) (m : Message)
    (i : Interaction) (u : User) (t : Ticket) (τ1 τ2 : Z) (st : State) :
  staff_message env c m →
  db st !! c = Some t →
  (∀ e, e ∈ pending st → (hid e < next_hid st)%nat) →
  isCommand i = true →
  isStaff env (i_member i) = true →
  commandName i = "creator" →
  opt_action i = Some "assign" →
  opt_user i = Some u →
  i_channel i = c →
  clock st ≤ τ1 → τ1 ≤ τ2 → clock st + START_DELAY ≤ τ2 →
  ∃ st', run env [(τ1, InteractionCreate i); (τ2, TimerFires (next_hid st))]
             (messageCreate env m st) = Some st'
         ∧ db st' = <[c := mkTicket (oid t) (user_id u) (Some τ2) 0]> (db st).
Proof.
  intros (Hh & <- & Hs) Hdb Hfresh Hic His Hin Hia Hiu Hch H1 H12 Hτ.
  rewrite (messageCreate_staff env m st t Hh Hdb Hs).
  destruct (restart_countdown_fields (channel_id m) t st Hdb)
    as (Hc & Hd & _ & Ht & Hhp & _ & Hp & Hn & Htr).
  set (c := channel_id m) in *.
  set (st1 := startTimers c (clearAllTimers c st)) in *.
  set (st2 := log c (LogManualAssign (user_id u))
               (reply c (ReplyAssigned (user_id u))
                  (set_db (<[c := mkTicket (oid t) (user_id u) (timerStartTime t)
                                           (reminderCount t)]> (db st))
                          (set_clock τ1 st1)))).
  assert (Hstep : step env st1 (τ1, InteractionCreate i) = Some st2).
  { cbn [step]. rewrite Hc.
    destruct (Z.ltb_spec τ1 (clock st)); [lia|].
    rewrite (interactionCreate_assign env i u _ Hic His Hin Hia Hiu), Hch.
    unfold creator_assign, findOne. simpl. rewrite Hd, Hdb.
    unfold assign_creatorId; simpl.
    by rewrite (save_fresh (db st) c t
                  (mkTicket (oid t) (user_id u) (timerStartTime t) (reminderCount t))
                  Hdb eq_refl). }
  cbn [run]. rewrite Hstep.
  rewrite (pre_delay_fires env c (mkDoc c t t) (next_ref st) (next_hid st)
             (clock st + START_DELAY) τ2 _ st2 Hp).
  2:{ intros x Hx. apply list_elem_of_filter in Hx as [_ Hx].
      specialize (Hfresh x Hx). lia. }
  2:{ simpl. lia. }
  2:{ done. }
  set (st3 := set_pending _ _).
  assert (Hsave : save (assign_reminderCount 0
                          (assign_timerStartTime (Some (clock st3)) (mkDoc c t t)))
                       (db st3)
                  = Some (<[c := mkTicket (oid t) (user_id u) (Some τ2) 0]> (db st))).
  { simpl. rewrite save_start_stale with (u := user_id u).
    - by rewrite insert_insert_eq.
    - by rewrite lookup_insert_eq. }
  destruct (start_callback_fields c (mkDoc c t t) (next_ref st) st3 _ Hsave)
    as (_ & Hd' & _).
  eexists. split; [reflexivity|]. exact Hd'.
Qed.


(** ** The other outcomes of recovery, and the deleted channel *)

Lemma untouched_refl (c : string) (st : State) : untouched c st st.
Proof. by repeat split. Qed.

Lemma untouched_trans (c : string) (st1 st2 st3 : State) :
  untouched c st1 st2 → untouched c st2 st3 → untouched c st1 st3.
Proof.
  intros (Hc & Hd & Ht & Ha & Hp) (Hc' & Hd' & Ht' & Ha' & Hp').
  split; [congruence|]. split; [congruence|]. split; [congruence|].
  split; [congruence|]. intros e He Hcb. by auto.
Qed.

Lemma reminder_out_untouched (c c' : string) (d : gmap string Ticket) (now : Z)
    (tr : list Obs) :
  c' ≠ c →
  (reminder_out c' d now tr).1 !! c = d !! c
  ∧ about c (reminder_out c' d now tr).2 = about c tr.
Proof.
  intros Hne. unfold reminder_out. destruct (d !! c') as [t|]; simpl; [|done].
  split; [by rewrite lookup_insert_ne|]. by rewrite !about_cons_ne.
Qed.

Lemma recovery_timers_channel (c : string) (h : nat) (now T : Z) (e : Sched) :
  e ∈ recovery_timers c h now T → cb_channel (cb e) = c.
Proof.
  unfold recovery_timers. destruct (_ <=? 1000); intros He;
    repeat (apply elem_of_cons in He as [->|He]; [done|]);
    by apply elem_of_nil in He.
Qed.

Lemma recover_ticket_untouched (alive : list string) (c c' : string) (t : Ticket)
    (st : State) :
  c' ≠ c → untouched c st (recover_ticket alive st (c', t)).
Proof.
  intros Hne.
  destruct (truthy (timerStartTime t)) as [startTime|] eqn:Ht.
  2:{ unfold recover_ticket. rewrite Ht. apply untouched_refl. }
  destruct (decide (c' ∈ alive)) as [Hal|Hal].
  2:{ unfold recover_ticket. rewrite Ht, bool_decide_eq_false_2 by done.
      unfold deleteOne, untouched; simpl. rewrite lookup_delete_ne by done.
      by repeat split. }
  destruct (Z.lt_ge_cases (clock st - startTime) STAFF_ALERT_TIME) as [Hel|Hel].
  - rewrite (recover_ticket_rearms alive c' t startTime st Ht Hal Hel).
    unfold untouched; simpl.
    split; [done|]. split.
    { destruct (_ <=? 1000); [|done].
      by destruct (reminder_out_untouched c c' (db st) (clock st) (trace st) Hne). }
    split; [by rewrite lookup_insert_ne|]. split.
    { destruct (_ <=? 1000); [|done].
      by destruct (reminder_out_untouched c c' (db st) (clock st) (trace st) Hne). }
    intros e He Hcb. apply elem_of_app in He as [He|He]; [done|].
    apply recovery_timers_channel in He. congruence.
  - unfold recover_ticket. rewrite Ht, bool_decide_eq_true_2 by done.
    destruct (Z.ltb_spec (clock st - startTime) STAFF_ALERT_TIME); [lia|].
    unfold sendStaffAlert, log, emit, untouched; simpl.
    rewrite !about_cons_ne by done. by repeat split.
Qed.

Lemma recovery_loop_untouched (alive : list string) (c : string)
    (l : list (string * Ticket)) :
  ∀ st, c ∉ l.*1 → untouched c st (foldl (recover_ticket alive) st l).
Proof.
  induction l as [|[c' t] l IH]; intros st Hc; simpl.
  - apply untouched_refl.
  - simpl in Hc. apply not_elem_of_cons in Hc as [Hne Hc].
    eapply untouched_trans; [|by apply IH].
    by apply recover_ticket_untouched.
Qed.

(** The recovery of a stored ticket by the listener: the rounds before its
    own leave it as the stopped process did, with no timer, and the rounds
    after its own leave it as its own round did. *)
Lemma restart_round (alive : list string) (c : string) (t : Ticket) (st : State) :
  db st !! c = Some t →
  ∃ st1, clock st1 = clock st ∧ db st1 !! c = Some t
         ∧ timers st1 !! c = None
         ∧ about c (trace st1) = about c (trace st)
         ∧ (∀ e, e ∈ pending st1 → cb_channel (cb e) ≠ c)
         ∧ untouched c (recover_ticket alive st1 (c, t))
                       (clientready alive (fresh st)).
Proof.
  intros Hdb. unfold clientready; simpl db.
  set (st0 := fresh st).
  assert (Hin : (c, t) ∈ map_to_list (db st)) by by apply elem_of_map_to_list.
  pose proof (NoDup_fst_map_to_list (db st)) as Hnd.
  apply list_elem_of_split in Hin as (l1 & l2 & Hl). rewrite Hl in Hnd |- *.
  rewrite fmap_app, fmap_cons in Hnd; simpl in Hnd.
  apply NoDup_app in Hnd as (_ & Hl1 & Hnd). apply NoDup_cons in Hnd as [Hl2 _].
  assert (Hc1 : c ∉ l1.*1) by (intros Hc; apply (Hl1 c Hc); left).
  rewrite foldl_app; cbn [foldl].
  destruct (recovery_loop_untouched alive c l1 st0 Hc1) as (Hc & Hd & Ht & Ha & Hp).
  exists (foldl (recover_ticket alive) st0 l1).
  split; [done|]. split; [by rewrite Hd|]. split; [by rewrite Ht|].
  split; [done|]. split.
  - intros e He Hcb. specialize (Hp e He Hcb). by apply elem_of_nil in Hp.
  - by apply recovery_loop_untouched.
Qed.

(** X11: a process starts and finds a ticket whose channel exists and whose
    start time is [STAFF_ALERT_TIME] or more in the past.  When the client
    announces itself as [clientready], the recovery listener runs: the staff
    alert is sent at once, with the record, and logged; the record stays as
    it is, the ticket gets no entry of [timers], and no timer is armed for
    it.  Under every other name, [ready] and [clientReady] of discord.js
    among them, no listener runs and the process starts with an empty
    memory and nothing sent: the ticket gets no alert. *)
Theorem recovery_expired (announced : string) (alive : list string) (st : State)
    (c : string) (t : Ticket) (T : Z) :
  db st !! c = Some t → truthy (timerStartTime t) = Some T → c ∈ alive →
  STAFF_ALERT_TIME ≤ clock st - T →
  let st' := restart announced alive st in
  if decide (announced = READY_LISTENER)
  then db st' !! c = Some t
       ∧ timers st' !! c = None
       ∧ (∀ e, e ∈ pending st' → cb_channel (cb e) ≠ c)
       ∧ about c (trace st')
         = ObsLog c LogStaffAlert (clock st)
           :: ObsStaffAlert c (Some t) (clock st) :: about c (trace st)
  else st' = fresh st.
Proof.
  intros Hdb HT Hal Hel. cbv zeta.
  case_decide as Hname; [subst announced|by apply restart_unheard].
  unfold restart. rewrite login_listener.
  destruct (restart_round alive c t st Hdb)
    as (st1 & Hc1 & Hd1 & Ht1 & Ha1 & Hp1 & Hc & Hd & Ht & Ha & Hp).
  assert (Hround : recover_ticket alive st1 (c, t) = sendStaffAlert c st1).
  { unfold recover_ticket. rewrite HT, bool_decide_eq_true_2 by done.
    destruct (Z.ltb_spec (clock st1 - T) STAFF_ALERT_TIME); [lia|done]. }
  rewrite Hround in *. simpl in *.
  split; [congruence|]. split; [congruence|]. split.
  - intros e He Hcb. by apply (Hp1 e (Hp e He Hcb)).
  - rewrite Ha. unfold about at 1.
    rewrite !filter_cons_True by done. fold (about c (trace st1)).
    by rewrite Ha1, Hd1, Hc1.
Qed.

(** X12: a process starts and finds a ticket with a start time whose
    channel no longer exists.  When the client announces itself as
    [clientready], the recovery listener runs: the record is deleted,
    nothing is sent about the ticket, and no timer is armed for it.  Under
    every other name, [ready] and [clientReady] of discord.js among them,
    no listener runs and the record stays in the collection. *)
Theorem recovery_deletes_orphan (announced : string) (alive : list string)
    (st : State) (c : string) (t : Ticket) (T : Z) :
  db st !! c = Some t → truthy (timerStartTime t) = Some T → c ∉ alive →
  let st' := restart announced alive st in
  if decide (announced = READY_LISTENER)
  then db st' !! c = None
       ∧ timers st' !! c = None
       ∧ (∀ e, e ∈ pending st' → cb_channel (cb e) ≠ c)
       ∧ about c (trace st') = about c (trace st)
  else st' = fresh st ∧ db st' !! c = Some t.
Proof.
  intros Hdb HT Hal. cbv zeta.
  case_decide as Hname; [subst announced|by rewrite restart_unheard].
  unfold restart. rewrite login_listener.
  destruct (restart_round alive c t st Hdb)
    as (st1 & Hc1 & Hd1 & Ht1 & Ha1 & Hp1 & Hc & Hd & Ht & Ha & Hp).
  assert (Hround : recover_ticket alive st1 (c, t) = deleteOne c st1).
  { unfold recover_ticket. by rewrite HT, bool_decide_eq_false_2 by done. }
  rewrite Hround in *. simpl in *.
  split; [by rewrite Hd, lookup_delete_eq|]. split; [congruence|]. split.
  - intros e He Hcb. by apply (Hp1 e (Hp e He Hcb)).
  - congruence.
Qed.

(** X13: a start of the process, whether the recovery listener runs or not,
    leaves a record without a start time (none, or zero) as it is, arms no
    timer for it and sends nothing about it, whether its channel still
    exists or not: such a record is not cleaned up. *)
Theorem recovery_keeps_idle (announced : string) (alive : list string)
    (st : State) (c : string) (t : Ticket) :
  db st !! c = Some t → truthy (timerStartTime t) = None →
  let st' := restart announced alive st in
  db st' !! c = Some t
  ∧ timers st' !! c = None
  ∧ (∀ e, e ∈ pending st' → cb_channel (cb e) ≠ c)
  ∧ about c (trace st') = about c (trace st).
Proof.
  intros Hdb HT. cbv zeta.
  destruct (restart_cases announced alive st) as [[_ ->]|[_ ->]].
  2:{ simpl. split; [done|]. split; [done|]. split; [|done].
      intros e He. by apply elem_of_nil in He. }
  destruct (restart_round alive c t st Hdb)
    as (st1 & Hc1 & Hd1 & Ht1 & Ha1 & Hp1 & Hc & Hd & Ht & Ha & Hp).
  assert (Hround : recover_ticket alive st1 (c, t) = st1).
  { unfold recover_ticket. by rewrite HT. }
  rewrite Hround in *.
  split; [congruence|]. split; [congruence|]. split.
  - intros e He Hcb. by apply (Hp1 e (Hp e He Hcb)).
  - congruence.
Qed.

(** X14: [channelDelete] deletes the ticket's record; when there was one, it
    clears the handles held by the ticket's timer object and deletes the
    ticket's entry of [timers], and otherwise it leaves the timers alone.
    It sends nothing.  Handling the deletion again changes nothing, and a
    reminder of the ticket that fires afterwards sends and changes
    nothing. *)
Theorem channelDelete_cleans (c : string) (st : State) :
  let st' := channelDelete c st in
  db st' = delete c (db st)
  ∧ timers st' = match db st !! c with
                 | Some _ => delete c (timers st)
                 | None => timers st
                 end
  ∧ pending st' = match db st !! c with
                  | Some _ => filter (λ e, hid e ∉ registered c st) (pending st)
                  | None => pending st
                  end
  ∧ trace st' = trace st
  ∧ channelDelete c st' = st'
  ∧ sendReminder c st' = st'.
Proof.
  cbv zeta. unfold channelDelete, findOne.
  destruct (db st !! c) as [t|] eqn:Hdb.
  - destruct (clearAllTimers_frame c st) as (_ & Hd & _ & Ht & _ & _ & _ & Htr).
    simpl. rewrite Hd, Ht, Htr, clearAllTimers_pending, lookup_delete_eq.
    repeat (split; [done|]). apply sendReminder_missing. simpl.
    by rewrite Hd, lookup_delete_eq.
  - rewrite Hdb. rewrite delete_id by done. repeat (split; [done|]).
    by apply sendReminder_missing.
Qed.


(** ** The creator of a record *)

Lemma insert_same_creator (m : gmap string Ticket) (c0 c : string)
    (t0 x t t' : Ticket) :
  m !! c0 = Some t0 → creatorId x = creatorId t0 →
  m !! c = Some t → <[c0 := x]> m !! c = Some t' →
  creatorId t' = creatorId t.
Proof.
  intros H0 Hx Hc. destruct (decide (c0 = c)) as [->|Hne].
  - rewrite lookup_insert_eq. intros [= <-]. congruence.
  - rewrite lookup_insert_ne by done. congruence.
Qed.

(** [save] of a document whose creator was not assigned leaves every
    record its creator. *)
Lemma save_same_creator (d : Doc) (m m' : gmap string Ticket) (c : string)
    (t t' : Ticket) :
  creatorId (cur d) = creatorId (loaded d) →
  save d m = Some m' →
  m !! c = Some t → m' !! c = Some t' → creatorId t' = creatorId t.
Proof.
  intros Hcr. unfold save. case_decide; [intros [= <-]; congruence|].
  destruct (m !! doc_channel d) as [s|] eqn:Hs; [|done].
  case_decide; [|done]. intros [= <-] Hc.
  apply (insert_same_creator m (doc_channel d) c s); try done.
  unfold merge_paths; simpl. by rewrite decide_True.
Qed.

Lemma messageCreate_same_creator (env : Env) (m : Message) (st : State)
    (c : string) (t t' : Ticket) :
  db st !! c = Some t → db (messageCreate env m st) !! c = Some t' →
  creatorId t' = creatorId t.
Proof.
  intros Hc. unfold messageCreate.
  destruct (negb (guild m)); [congruence|].
  destruct (user_bot (author m) && _); [congruence|].
  destruct (negb _); [congruence|].
  unfold findOne. destruct (db st !! channel_id m) as [t0|] eqn:Hdb.
  - destruct (negb (isStaff env (member m)) && _).
    + simpl cur. rewrite (save_cancel (channel_id m) t0 st Hdb).
      assert (Hd : ∀ st1 : State,
                db st1 = <[channel_id m := mkTicket (oid t0) (creatorId t0) None 0]> (db st) →
                db st1 !! c = Some t' → creatorId t' = creatorId t).
      { intros st1 ->. by apply (insert_same_creator (db st) (channel_id m) c t0). }
      destruct (bool_decide _); by apply Hd.
    + destruct (isStaff env (member m)); [|congruence].
      destruct (restart_countdown_fields (channel_id m) t0 st Hdb) as (_ & -> & _).
      congruence.
  - destruct (detect_creator env m) as [creator|]; [|congruence].
    destruct (nonempty creator); [|congruence].
    simpl. rewrite lookup_insert_ne by congruence. congruence.
Qed.

Lemma interactionCreate_creator (env : Env) (i : Interaction) (st : State)
    (c : string) (t t' : Ticket) :
  db st !! c = Some t → db (interactionCreate env i st) !! c = Some t' →
  creatorId t' = creatorId t
  ∨ ∃ u, assigns env c u (InteractionCreate i) ∧ creatorId t' = user_id u.
Proof.
  intros Hc. unfold interactionCreate.
  destruct (isCommand i) eqn:Hic; simpl; [|intros H; left; congruence].
  destruct (i_member i) as [mm|] eqn:Hm; [|intros H; left; congruence].
  destruct (has_staff_role env mm) eqn:His; simpl; [|intros H; left; congruence].
  unfold findOne.
  destruct (String.eqb_spec (commandName i) "timer") as [_|_].
  - intros H; left; revert H. destruct (opt_action i) as [action|]; [|congruence].
    destruct (String.eqb action "stop").
    { unfold timer_stop. destruct (db st !! i_channel i) as [t0|] eqn:Hdb;
        [|simpl; congruence].
      simpl cur. destruct (truthy (timerStartTime t0)); [|simpl; congruence].
      rewrite (save_cancel (i_channel i) t0 st Hdb). simpl.
      by apply (insert_same_creator (db st) (i_channel i) c t0). }
    destruct (String.eqb action "restart").
    { destruct (db st !! i_channel i) as [t0|] eqn:Hdb; [|simpl; congruence].
      rewrite (timer_restart_found (i_channel i) t0 st Hdb). simpl.
      by apply (insert_same_creator (db st) (i_channel i) c t0). }
    destruct (String.eqb action "status"); [|congruence].
    unfold timer_status. destruct (db st !! i_channel i) as [t0|];
      [|simpl; congruence].
    simpl cur. destruct (truthy (timerStartTime t0)); simpl; congruence.
  - destruct (String.eqb_spec (commandName i) "creator") as [Hn|_]; [|intros H; left; congruence].
    destruct (opt_action i) as [action|] eqn:Ha; [|intros H; left; congruence].
    destruct (String.eqb action "check").
    { intros H; left; revert H. unfold creator_check.
      destruct (db st !! i_channel i); simpl; congruence. }
    destruct (String.eqb_spec action "assign") as [->|_]; [|intros H; left; congruence].
    unfold creator_assign. destruct (opt_user i) as [u|] eqn:Hu;
      [|intros H; left; simpl in *; congruence].
    destruct (decide (i_channel i = c)) as [Hch|Hne].
    + intros H; right. exists u. split; [exists i; by rewrite Hm|].
      revert H. rewrite Hch, Hc.
      unfold assign_creatorId; simpl.
      rewrite (save_fresh (db st) c t
                 (mkTicket (oid t) (user_id u) (timerStartTime t) (reminderCount t))
                 Hc eq_refl).
      simpl. rewrite lookup_insert_eq. by intros [= <-].
    + intros H; left; revert H. destruct (db st !! i_channel i) as [t0|] eqn:Hdb.
      * unfold assign_creatorId; simpl.
        rewrite (save_fresh (db st) (i_channel i) t0
                   (mkTicket (oid t0) (user_id u) (timerStartTime t0) (reminderCount t0))
                   Hdb eq_refl).
        simpl. rewrite lookup_insert_ne by done. congruence.
      * simpl. rewrite lookup_insert_ne by done. congruence.
Qed.

Lemma fire_same_creator {b : bool} (h : nat) (st st' : State) (c : string)
    (t t' : Ticket) :
  Inv_at b st → fire h st = Some st' →
  db st !! c = Some t → db st' !! c = Some t' → creatorId t' = creatorId t.
Proof.
  intros HI Hfire Hc. apply fire_inv in Hfire as (e & He & <- & Hdue & ->).
  change (set_pending _ st) with (fired (hid e) st).
  destruct (cb e) as [c0 d r|c0|c0] eqn:Hcb; simpl.
  - destruct (inv_start st HI e c0 d r He Hcb) as (_ & _ & Hcur & _).
    destruct (save (assign_reminderCount 0
                      (assign_timerStartTime (Some (clock (fired (hid e) st))) d))
                   (db (fired (hid e) st))) as [m'|] eqn:Hsave.
    + destruct (start_callback_fields c0 d r _ m' Hsave) as (_ & -> & _).
      intros H'. eapply (save_same_creator _ _ m' c t t'); [|exact Hsave|exact Hc|exact H'].
      simpl. by rewrite Hcur.
    + rewrite (start_callback_aborts c0 d r _ Hsave). simpl. congruence.
  - destruct (db st !! c0) as [t0|] eqn:Hdb.
    + rewrite (sendReminder_found c0 t0 (fired (hid e) st)) by done. simpl.
      by apply (insert_same_creator (db st) c0 c t0).
    + rewrite (sendReminder_missing c0 (fired (hid e) st)) by done.
      simpl. congruence.
  - congruence.
Qed.

Lemma records_kept_refl (st : State) : records_kept st st.
Proof. intros c t' H. by exists t'. Qed.

Lemma records_kept_trans (st1 st2 st3 : State) :
  records_kept st1 st2 → records_kept st2 st3 → records_kept st1 st3.
Proof.
  intros H12 H23 c t3 H3. destruct (H23 c t3 H3) as (t2 & H2 & He).
  destruct (H12 c t2 H2) as (t1 & H1 & He'). exists t1. split; [done|congruence].
Qed.

Lemma reminder_out_kept (c c0 : string) (d : gmap string Ticket) (now : Z)
    (tr : list Obs) (t' : Ticket) :
  (reminder_out c0 d now tr).1 !! c = Some t' →
  ∃ t, d !! c = Some t ∧ creatorId t' = creatorId t.
Proof.
  unfold reminder_out. destruct (d !! c0) as [t0|] eqn:Hd; simpl.
  - destruct (decide (c0 = c)) as [->|Hne].
    + rewrite lookup_insert_eq. intros [= <-]. by exists t0.
    + rewrite lookup_insert_ne by done. intros H. by exists t'.
  - intros H. by exists t'.
Qed.

Lemma recover_ticket_kept (alive : list string) (st : State)
    (entry : string * Ticket) :
  records_kept st (recover_ticket alive st entry).
Proof.
  destruct entry as [c0 t0].
  destruct (truthy (timerStartTime t0)) as [startTime|] eqn:Ht.
  2:{ unfold recover_ticket. rewrite Ht. apply records_kept_refl. }
  destruct (decide (c0 ∈ alive)) as [Hal|Hal].
  2:{ unfold recover_ticket. rewrite Ht, bool_decide_eq_false_2 by done.
      intros c t'. simpl. rewrite lookup_delete_Some. intros [_ H]. by exists t'. }
  destruct (Z.lt_ge_cases (clock st - startTime) STAFF_ALERT_TIME) as [Hel|Hel].
  - rewrite (recover_ticket_rearms alive c0 t0 startTime st Ht Hal Hel).
    intros c t'. simpl. destruct (_ <=? 1000).
    + apply reminder_out_kept.
    + intros H. by exists t'.
  - unfold recover_ticket. rewrite Ht, bool_decide_eq_true_2 by done.
    destruct (Z.ltb_spec (clock st - startTime) STAFF_ALERT_TIME); [lia|].
    intros c t' H'. by exists t'.
Qed.

Lemma recovery_loop_kept (alive : list string) (l : list (string * Ticket)) :
  ∀ st, records_kept st (foldl (recover_ticket alive) st l).
Proof.
  induction l as [|entry l IH]; intros st; simpl.
  - apply records_kept_refl.
  - eapply records_kept_trans; [apply recover_ticket_kept|apply IH].
Qed.

(** X15: the creator of an existing record changes only by [/creator assign]
    of a staff member in that ticket, and then to the assigned user.  In
    every state of a run, no message, no other command, no channel deletion,
    no firing of a timer and no start of the process, with or without the
    recovery listener, changes the creator of a record that is there before
    and after. *)
Theorem creator_changes_only_by_assign (strict : bool) (env : Env)
    (st st' : State) (τ : Z) (ev : Event) (c : string) (t t' : Ticket) :
  Inv_at strict st →
  step env st (τ, ev) = Some st' →
  db st !! c = Some t → db st' !! c = Some t' →
  creatorId t' ≠ creatorId t →
  ∃ u, assigns env c u ev ∧ creatorId t' = user_id u.
Proof.
  intros HI Hstep Hc Hc' Hne. cbn [step] in Hstep.
  destruct (Z.ltb_spec τ (clock st)); [done|].
  assert (HI' : Inv_at strict (set_clock τ st)) by by apply Inv_set_clock.
  destruct ev as [m|i|c0|h|announced alive].
  - simplify_eq. destruct Hne.
    by apply (messageCreate_same_creator env m (set_clock τ st) c).
  - simplify_eq.
    destruct (interactionCreate_creator env i (set_clock τ st) c t t' Hc Hc')
      as [He|Hu]; [by destruct Hne|done].
  - simplify_eq. destruct Hne. revert Hc'. unfold channelDelete, findOne. simpl.
    destruct (db st !! c0); [|simpl; congruence].
    destruct (clearAllTimers_frame c0 (set_clock τ st)) as (_ & Hd & _).
    simpl. rewrite Hd, lookup_delete_Some. simpl. intros [_ H']. congruence.
  - destruct Hne. by apply (fire_same_creator h (set_clock τ st) st' c t t' HI').
  - simplify_eq. destruct Hne.
    destruct (restart_cases announced alive (set_clock τ st)) as [[_ Hr]|[_ Hr]];
      rewrite Hr in Hc'.
    + destruct (recovery_loop_kept alive (map_to_list (db st))
                  (fresh (set_clock τ st)) c t' Hc')
        as (t0 & H0 & He).
      simpl in H0. congruence.
    + simpl in Hc'. congruence.
Qed.

Lemma active_program : program env0 found day_one active.
Proof.
  split; [exact found_started|]. split; [|vm_compute; reflexivity].
  repeat constructor; simpl; discriminate.
Qed.

Lemma creator_changes_only_by_assign_witness :
  ∃ st', step env0 active
           (day_start + 13 * hour,
            InteractionCreate (command "creator" "assign" (Some bob)))
         = Some st'
         ∧ ∃ u, assigns env0 "chan" u
                  (InteractionCreate (command "creator" "assign" (Some bob)))
                ∧ "bob" = user_id u.
Proof.
  eexists. split; [reflexivity|].
  eapply (creator_changes_only_by_assign false env0 active _ (day_start + 13 * hour) _
            "chan" (mkTicket 0 "alice" (Some day_start) 2)
            (mkTicket 0 "bob" (Some day_start) 2)).
  - by destruct (program_sound env0 found day_one active active_program).
  - reflexivity.
  - vm_compute. reflexivity.
  - vm_compute. reflexivity.
  - simpl. discriminate.
Defined.


(** ** More on one run of the process *)

Lemma one_run_Inv (env : Env) (announced : string) (alive : list string)
    (st0 : State) (evs : list (Z * Event)) (st' : State) :
  one_run env announced alive st0 evs st' → Inv st'.
Proof.
  intros (Htr & Hpast & Hnr & Hrun).
  apply (Inv_run env evs (restart announced alive st0) st'); [|done|done].
  by apply Inv_restart.
Qed.


Lemma only_notes_same (st st' : State) : trace st' = trace st → only_notes st st'.
Proof. intros Htr o Ho. left. by rewrite <- Htr. Qed.

Lemma only_notes_emit (o : Obs) (st st' : State) :
  is_note o → only_notes st st' → only_notes st (emit o st').
Proof.
  intros Hn Hs o' Ho'. simpl in Ho'. apply elem_of_cons in Ho' as [->|Ho'];
    [by right|by apply Hs].
Qed.

Lemma only_notes_log (c : string) (m : LogMsg) (st st' : State) :
  only_notes st st' → only_notes st (log c m st').
Proof. by apply only_notes_emit. Qed.

Lemma only_notes_reply (c : string) (r : Reply) (st st' : State) :
  only_notes st st' → only_notes st (reply c r st').
Proof. by apply only_notes_emit. Qed.

Lemma only_notes_cancelled (c : string) (t : Ticket) (st : State) :
  only_notes st (cancelled c t st).
Proof.
  apply only_notes_same. by destruct (cancelled_fields c t st) as (_ & _ & _ & _ & -> & _).
Qed.

Lemma only_notes_messageCreate (env : Env) (m : Message) (st : State) :
  only_notes st (messageCreate env m st).
Proof.
  unfold messageCreate.
  destruct (negb (guild m)); [by apply only_notes_same|].
  destruct (user_bot (author m) && _); [by apply only_notes_same|].
  destruct (negb _); [by apply only_notes_same|].
  unfold findOne. destruct (db st !! channel_id m) as [t|] eqn:Hdb.
  - destruct (negb (isStaff env (member m)) && _).
    + simpl cur. rewrite (save_cancel (channel_id m) t st Hdb).
      change (set_db _ (clearAllTimers (channel_id m) st))
        with (cancelled (channel_id m) t st).
      destruct (bool_decide _); [apply only_notes_log|]; apply only_notes_cancelled.
    + destruct (isStaff env (member m)); [|by apply only_notes_same].
      apply only_notes_same.
      by destruct (restart_countdown_fields (channel_id m) t st Hdb)
        as (_ & _ & _ & _ & _ & _ & _ & _ & ->).
  - destruct (detect_creator env m) as [creator|]; [|by apply only_notes_same].
    destruct (nonempty creator); [|by apply only_notes_same].
    apply only_notes_log. by apply only_notes_same.
Qed.

Lemma only_notes_interactionCreate (env : Env) (i : Interaction) (st : State) :
  only_notes st (interactionCreate env i st).
Proof.
  unfold interactionCreate.
  destruct (negb (isCommand i)); [by apply only_notes_same|].
  destruct (i_member i) as [mm|]; [|by apply only_notes_same].
  destruct (negb (has_staff_role env mm));
    [by apply only_notes_reply, only_notes_same|].
  unfold findOne.
  destruct (String.eqb (commandName i) "timer").
  - destruct (opt_action i) as [action|]; [|by apply only_notes_same].
    destruct (String.eqb action "stop").
    { unfold timer_stop. destruct (db st !! i_channel i) as [t|] eqn:Hdb;
        [|by apply only_notes_reply, only_notes_same].
      simpl cur. destruct (truthy (timerStartTime t));
        [|by apply only_notes_reply, only_notes_same].
      rewrite (save_cancel (i_channel i) t st Hdb).
      apply only_notes_log, only_notes_reply, only_notes_cancelled. }
    destruct (String.eqb action "restart").
    { destruct (db st !! i_channel i) as [t|] eqn:Hdb;
        [|by apply only_notes_reply, only_notes_same].
      rewrite (timer_restart_found (i_channel i) t st Hdb).
      apply only_notes_log, only_notes_reply, only_notes_same. simpl.
      by destruct (clearAllTimers_frame (i_channel i) st)
        as (_ & _ & _ & _ & _ & _ & _ & ->). }
    destruct (String.eqb action "status"); [|by apply only_notes_same].
    unfold timer_status. destruct (db st !! i_channel i) as [t|];
      [|by apply only_notes_reply, only_notes_same].
    simpl cur. destruct (truthy (timerStartTime t));
      by apply only_notes_reply, only_notes_same.
  - destruct (String.eqb (commandName i) "creator"); [|by apply only_notes_same].
    destruct (opt_action i) as [action|]; [|by apply only_notes_same].
    destruct (String.eqb action "check").
    { unfold creator_check.
      destruct (db st !! i_channel i); by apply only_notes_reply, only_notes_same. }
    destruct (String.eqb action "assign"); [|by apply only_notes_same].
    unfold creator_assign. destruct (opt_user i) as [u|];
      [|by apply only_notes_reply, only_notes_same].
    destruct (db st !! i_channel i) as [t|] eqn:Hdb.
    + unfold assign_creatorId; simpl.
      rewrite (save_fresh (db st) (i_channel i) t
                 (mkTicket (oid t) (user_id u) (timerStartTime t) (reminderCount t))
                 Hdb eq_refl).
      by apply only_notes_log, only_notes_reply, only_notes_same.
    + by apply only_notes_log, only_notes_reply, only_notes_same.
Qed.

Lemma only_notes_channelDelete (c : string) (st : State) :
  only_notes st (channelDelete c st).
Proof.
  unfold channelDelete, findOne. destruct (db st !! c); [|by apply only_notes_same].
  apply only_notes_same. simpl.
  by destruct (clearAllTimers_frame c st) as (_ & _ & _ & _ & _ & _ & _ & ->).
Qed.












(** The hypotheses of [one_run] for the process that found the ticket of
    [alice], settled by evaluation. *)
Ltac sample_run :=
  split; [reflexivity|];
  split; [intros c t T Hdb HT; simpl in Hdb;
          apply lookup_singleton_Some in Hdb as [_ <-]; simpl in HT; simplify_eq;
          vm_compute; discriminate|];
  split; [repeat constructor; simpl; tauto|vm_compute; reflexivity].

(** X18: in every state of a run, [/timer status] of a staff member in a
    ticket whose record has a start time [T] changes nothing and answers
    with the count and the creator of the record and the elapsed time as
    hours [h] and minutes [m], with [m] between 0 and 59 and [h] not
    negative: the start time of a record is never in the future. *)
Theorem timer_status_reports (env : Env) (announced : string)
    (alive : list string) (st0 st : State) (evs : list (Z * Event))
    (i : Interaction) (t : Ticket) (T τ : Z) :
  one_run env announced alive st0 evs st → clock st ≤ τ →
  isCommand i = true → isStaff env (i_member i) = true →
  commandName i = "timer" → opt_action i = Some "status" →
  db st !! i_channel i = Some t → truthy (timerStartTime t) = Some T →
  ∃ h m,
    step env st (τ, InteractionCreate i)
    = Some (reply (i_channel i)
              (ReplyStatus (Some (h, m)) (reminderCount t) (creatorId t))
              (set_clock τ st))
    ∧ 0 ≤ h ∧ 0 ≤ m < 60
    ∧ h * hour + m * minute ≤ τ - T < h * hour + (m + 1) * minute.
Proof.
  intros Hrun Hτ Hic His Hn Ha Hdb HT.
  pose proof (one_run_Inv env announced alive st0 evs st Hrun) as HI.
  pose proof HT as HT'. apply truthy_Some in HT' as [HT' _].
  pose proof (inv_past st HI eq_refl (i_channel i) t T Hdb HT') as Hpast.
  eexists _, _. split.
  - cbn [step]. destruct (Z.ltb_spec τ (clock st)); [lia|].
    unfold interactionCreate.
    destruct (i_member i) as [mm|]; [|done]. simpl in His.
    rewrite Hic, His, Hn, Ha. simpl.
    unfold findOne. simpl. rewrite Hdb. unfold timer_status. simpl. rewrite HT.
    unfold getTimeElapsed. rewrite HT. reflexivity.
  - simpl. apply hours_minutes. lia.
Qed.

Lemma timer_status_reports_witness :
  ∃ st, run env0 sample_events booted = Some st
        ∧ ∃ h m,
            step env0 st (day_start + 27 * hour,
                          InteractionCreate (command "timer" "status" None))
            = Some (reply "chan" (ReplyStatus (Some (h, m)) 0 "alice")
                      (set_clock (day_start + 27 * hour) st))
            ∧ 0 ≤ h ∧ 0 ≤ m < 60
            ∧ h * hour + m * minute
              ≤ day_start + 27 * hour - (day_start + 25 * hour + START_DELAY)
              < h * hour + (m + 1) * minute.
Proof.
  eexists. split; [vm_compute; reflexivity|].
  eapply (timer_status_reports env0 "clientReady" ["chan"] found _
            sample_events (command "timer" "status" None)
            (mkTicket 0 "alice" (Some (day_start + 25 * hour + START_DELAY)) 0)).
  - sample_run.
  - vm_compute. discriminate.
  - reflexivity.
  - reflexivity.
  - reflexivity.
  - reflexivity.
  - reflexivity.
  - reflexivity.
Defined.



Lemma reminder_loop_witness :
  let e := mkSched 1 (day_start + 18 * hour) (Some REMINDER_INTERVAL)
                   (CbReminder "chan") in
  let t := mkTicket 0 "alice" (Some day_start) 2 in
  let ts := [day_start + 18 * hour; day_start + 24 * hour + 5000;
             day_start + 30 * hour + 5000; day_start + 36 * hour + 5000] in
  ∃ st', run env0 ((λ τ, (τ, TimerFires (hid e))) <$> ts) active = Some st'
         ∧ db st' = <["chan" := mkTicket (oid t) (creatorId t) (timerStartTime t)
                                         (reminderCount t + Z.of_nat (length ts))]>
                      (db active)
         ∧ trace st' = reminders_at "chan" (creatorId t) (reminderCount t) ts
                         (trace active)
         ∧ pending st' = reschedule (hid e) (next_due (due e) REMINDER_INTERVAL ts)
                           (pending active)
         ∧ timers st' = timers active ∧ heap st' = heap active.
Proof.
  intros e t ts.
  apply (reminder_loop env0 "chan" e REMINDER_INTERVAL t ts active).
  - vm_compute. left.
  - vm_compute. compute_done.
  - reflexivity.
  - reflexivity.
  - vm_compute. discriminate.
  - reflexivity.
  - vm_compute. discriminate.
  - vm_compute. repeat split; discriminate.
Defined.

Lemma staff_alert_fires_witness :
  let e := mkSched 2 (day_start + 24 * hour) None (CbStaffAlert "chan") in
  let τ := day_start + 24 * hour in
  ∃ st', step env0 active (τ, TimerFires (hid e)) = Some st'
         ∧ db st' = db active ∧ timers st' = timers active
         ∧ heap st' = heap active
         ∧ pending st' = filter (λ x, hid x ≠ hid e) (pending active)
         ∧ trace st' = ObsLog "chan" LogStaffAlert τ
                       :: ObsStaffAlert "chan" (db active !! "chan") τ
                       :: trace active.
Proof.
  intros e τ.
  apply (staff_alert_fires env0 "chan" e τ active).
  - vm_compute. right. left.
  - vm_compute. compute_done.
  - reflexivity.
  - reflexivity.
  - vm_compute. discriminate.
  - vm_compute. discriminate.
Defined.

Lemma pre_delay_elapsed_witness :
  let st := persisted "alice" None 0 in
  let t := mkTicket 0 "alice" None 0 in
  ∃ st', step env0 (messageCreate env0 (says bob staff_member) st)
           (START_DELAY, TimerFires 0) = Some st'
         ∧ db st' = <["chan" := restarted t START_DELAY]> (db st)
         ∧ timers st' = <["chan" := 0%nat]> (timers st)
         ∧ heap st' = <[0%nat := mkTimer (Some 0%nat) (Some 1%nat) (Some 2%nat)]> (heap st)
         ∧ pending st'
           = filter (λ e, hid e ∉ registered "chan" st) (pending st)
             ++ [mkSched 1 (START_DELAY + REMINDER_INTERVAL) (Some REMINDER_INTERVAL)
                         (CbReminder "chan");
                 mkSched 2 (START_DELAY + STAFF_ALERT_TIME) None (CbStaffAlert "chan")]
         ∧ trace st' = ObsLog "chan" LogTimerStarted START_DELAY :: trace st.
Proof.
  intros st t.
  apply (pre_delay_elapsed env0 "chan" (says bob staff_member) t START_DELAY st).
  - split; [|split; reflexivity]. split; [reflexivity|]. split; [reflexivity|]. by left.
  - reflexivity.
  - intros e He. vm_compute in He. by apply elem_of_nil in He.
  - vm_compute. discriminate.
Defined.

Lemma assign_during_pre_delay_witness :
  let st := persisted "alice" None 0 in
  ∃ st', run env0 [(minute, InteractionCreate (command "creator" "assign" (Some bob)));
                   (START_DELAY, TimerFires (next_hid st))]
             (messageCreate env0 (says bob staff_member) st) = Some st'
         ∧ db st' = <["chan" := mkTicket 0 "bob" (Some START_DELAY) 0]> (db st).
Proof.
  intros st.
  apply (assign_during_pre_delay env0 "chan" (says bob staff_member)
           (command "creator" "assign" (Some bob)) bob (mkTicket 0 "alice" None 0)
           minute START_DELAY st).
  - split; [|split; reflexivity]. split; [reflexivity|]. split; [reflexivity|]. by left.
  - reflexivity.
  - intros e He. vm_compute in He. by apply elem_of_nil in He.
  - reflexivity.
  - reflexivity.
  - reflexivity.
  - reflexivity.
  - reflexivity.
  - reflexivity.
  - vm_compute. discriminate.
  - vm_compute. discriminate.
  - vm_compute. discriminate.
Defined.

Lemma recovery_expired_witness :
  let st := set_clock (1000 + 30 * hour) (persisted "alice" (Some 1000) 3) in
  let t := mkTicket 0 "alice" (Some 1000) 3 in
  (let st' := restart "clientready" ["chan"] st in
   db st' !! "chan" = Some t
   ∧ timers st' !! "chan" = None
   ∧ (∀ e, e ∈ pending st' → cb_channel (cb e) ≠ "chan")
   ∧ about "chan" (trace st')
     = ObsLog "chan" LogStaffAlert (clock st)
       :: ObsStaffAlert "chan" (Some t) (clock st) :: about "chan" (trace st))
  ∧ restart "clientReady" ["chan"] st = fresh st
  ∧ restart "ready" ["chan"] st = fresh st.
Proof.
  intros st t. split; [|split].
  - apply (recovery_expired "clientready" ["chan"] st "chan" t 1000).
    + reflexivity.
    + reflexivity.
    + left.
    + vm_compute. discriminate.
  - apply (recovery_expired "clientReady" ["chan"] st "chan" t 1000).
    + reflexivity.
    + reflexivity.
    + left.
    + vm_compute. discriminate.
  - apply (recovery_expired "ready" ["chan"] st "chan" t 1000).
    + reflexivity.
    + reflexivity.
    + left.
    + vm_compute. discriminate.
Defined.

Lemma recovery_deletes_orphan_witness :
  let st := set_clock (1000 + hour) (persisted "alice" (Some 1000) 0) in
  let t := mkTicket 0 "alice" (Some 1000) 0 in
  (let st' := restart "clientready" ["other"] st in
   db st' !! "chan" = None
   ∧ timers st' !! "chan" = None
   ∧ (∀ e, e ∈ pending st' → cb_channel (cb e) ≠ "chan")
   ∧ about "chan" (trace st') = about "chan" (trace st))
  ∧ (let st' := restart "clientReady" ["other"] st in
     st' = fresh st ∧ db st' !! "chan" = Some t).
Proof.
  intros st t. split.
  - apply (recovery_deletes_orphan "clientready" ["other"] st "chan" t 1000).
    + reflexivity.
    + reflexivity.
    + intros Hin. apply list_elem_of_singleton in Hin. discriminate.
  - apply (recovery_deletes_orphan "clientReady" ["other"] st "chan" t 1000).
    + reflexivity.
    + reflexivity.
    + intros Hin. apply list_elem_of_singleton in Hin. discriminate.
Defined.

Lemma recovery_keeps_idle_witness :
  let st := set_clock (1000 + hour) (persisted "alice" None 0) in
  let st' := restart "clientReady" [] st in
  db st' !! "chan" = Some (mkTicket 0 "alice" None 0)
  ∧ timers st' !! "chan" = None
  ∧ (∀ e, e ∈ pending st' → cb_channel (cb e) ≠ "chan")
  ∧ about "chan" (trace st') = about "chan" (trace st).
Proof.
  intros st.
  apply (recovery_keeps_idle "clientReady" [] st "chan" (mkTicket 0 "alice" None 0)).
  - reflexivity.
  - reflexivity.
Defined.


(** ** Counts and reminder numbers *)

Lemma counts_kept_same (st st' : State) : db st' = db st → counts_kept st st'.
Proof. intros Hd c t' H. right. exists t'. by rewrite <- Hd. Qed.

Lemma counts_kept_insert (st st' : State) (c0 : string) (x : Ticket) :
  db st' = <[c0 := x]> (db st) →
  reminderCount x = 0 ∨ (∃ t, db st !! c0 = Some t ∧ reminderCount x = reminderCount t) →
  counts_kept st st'.
Proof.
  intros Hd Hx c t'. rewrite Hd. destruct (decide (c0 = c)) as [->|Hne].
  - rewrite lookup_insert_eq. by intros [= <-].
  - rewrite lookup_insert_ne by done. intros H. right. by exists t'.
Qed.

Lemma messageCreate_counts (env : Env) (m : Message) (st : State) :
  counts_kept st (messageCreate env m st).
Proof.
  unfold messageCreate.
  destruct (negb (guild m)); [by apply counts_kept_same|].
  destruct (user_bot (author m) && _); [by apply counts_kept_same|].
  destruct (negb _); [by apply counts_kept_same|].
  unfold findOne. destruct (db st !! channel_id m) as [t|] eqn:Hdb.
  - destruct (negb (isStaff env (member m)) && _).
    + simpl cur. rewrite (save_cancel (channel_id m) t st Hdb).
      destruct (bool_decide _);
        by apply (counts_kept_insert _ _ (channel_id m)
                    (mkTicket (oid t) (creatorId t) None 0)); [|left].
    + destruct (isStaff env (member m)); [|by apply counts_kept_same].
      apply counts_kept_same.
      by destruct (restart_countdown_fields (channel_id m) t st Hdb) as (_ & -> & _).
  - destruct (detect_creator env m) as [creator|]; [|by apply counts_kept_same].
    destruct (nonempty creator); [|by apply counts_kept_same].
    by apply (counts_kept_insert _ _ (channel_id m)
                (mkTicket (next_oid st) creator None 0)); [|left].
Qed.

Lemma interactionCreate_counts (env : Env) (i : Interaction) (st : State) :
  counts_kept st (interactionCreate env i st).
Proof.
  unfold interactionCreate.
  destruct (negb (isCommand i)); [by apply counts_kept_same|].
  destruct (i_member i) as [mm|]; [|by apply counts_kept_same].
  destruct (negb (has_staff_role env mm)); [by apply counts_kept_same|].
  unfold findOne.
  destruct (String.eqb (commandName i) "timer").
  - destruct (opt_action i) as [action|]; [|by apply counts_kept_same].
    destruct (String.eqb action "stop").
    { unfold timer_stop. destruct (db st !! i_channel i) as [t|] eqn:Hdb;
        [|by apply counts_kept_same].
      simpl cur. destruct (truthy (timerStartTime t)); [|by apply counts_kept_same].
      rewrite (save_cancel (i_channel i) t st Hdb).
      by apply (counts_kept_insert _ _ (i_channel i)
                  (mkTicket (oid t) (creatorId t) None 0)); [|left]. }
    destruct (String.eqb action "restart").
    { destruct (db st !! i_channel i) as [t|] eqn:Hdb; [|by apply counts_kept_same].
      rewrite (timer_restart_found (i_channel i) t st Hdb).
      by apply (counts_kept_insert _ _ (i_channel i) (restarted t (clock st))); [|left]. }
    destruct (String.eqb action "status"); [|by apply counts_kept_same].
    unfold timer_status. destruct (db st !! i_channel i) as [t|];
      [|by apply counts_kept_same].
    simpl cur. destruct (truthy (timerStartTime t)); by apply counts_kept_same.
  - destruct (String.eqb (commandName i) "creator"); [|by apply counts_kept_same].
    destruct (opt_action i) as [action|]; [|by apply counts_kept_same].
    destruct (String.eqb action "check").
    { unfold creator_check.
      destruct (db st !! i_channel i); by apply counts_kept_same. }
    destruct (String.eqb action "assign"); [|by apply counts_kept_same].
    unfold creator_assign. destruct (opt_user i) as [u|]; [|by apply counts_kept_same].
    destruct (db st !! i_channel i) as [t|] eqn:Hdb.
    + unfold assign_creatorId; simpl.
      rewrite (save_fresh (db st) (i_channel i) t
                 (mkTicket (oid t) (user_id u) (timerStartTime t) (reminderCount t))
                 Hdb eq_refl).
      apply (counts_kept_insert _ _ (i_channel i)
               (mkTicket (oid t) (user_id u) (timerStartTime t) (reminderCount t)));
        [done|]. right. by exists t.
    + by apply (counts_kept_insert _ _ (i_channel i)
                  (mkTicket (next_oid st) (user_id u) None 0)); [|left].
Qed.

Lemma counting_handler (st st' : State) :
  counts_kept st st' → only_notes st st' → counting st → counting st'.
Proof.
  intros Hk Hn [Hc Hr]. split.
  - intros c t' H'. destruct (Hk c t' H') as [->|(t & Ht & ->)]; [done|].
    by apply (Hc c t).
  - intros c creator n final τ Ho. destruct (Hn _ Ho) as [Hin|[]].
    by apply (Hr c creator n final τ).
Qed.

Lemma counting_reminder_out (c : string) (d : gmap string Ticket) (now : Z)
    (tr : list Obs) :
  counts_nonneg d → reminders_numbered tr →
  counts_nonneg (reminder_out c d now tr).1
  ∧ reminders_numbered (reminder_out c d now tr).2.
Proof.
  intros Hc Hr. unfold reminder_out. destruct (d !! c) as [t|] eqn:Hd; simpl; [|done].
  pose proof (Hc c t Hd) as Ht. split.
  - intros c' t'. destruct (decide (c = c')) as [->|Hne].
    + rewrite lookup_insert_eq. intros [= <-]. simpl. lia.
    + rewrite lookup_insert_ne by done. apply Hc.
  - intros c' creator n final τ Ho.
    apply elem_of_cons in Ho as [Ho|Ho]; [done|].
    apply elem_of_cons in Ho as [Ho|Ho]; [|by apply (Hr c' creator n final τ)].
    simplify_eq. split; [lia|done].
Qed.

Lemma reminders_numbered_cons (o : Obs) (tr : list Obs) :
  (∀ c creator n final τ, o ≠ ObsReminder c creator n final τ) →
  reminders_numbered tr → reminders_numbered (o :: tr).
Proof.
  intros Hn Hr c creator n final τ Ho. apply elem_of_cons in Ho as [Ho|Ho].
  - by destruct (Hn c creator n final τ).
  - by apply (Hr c creator n final τ).
Qed.

Lemma save_counts (d : Doc) (m m' : gmap string Ticket) :
  0 ≤ reminderCount (cur d) → counts_nonneg m → save d m = Some m' →
  counts_nonneg m'.
Proof.
  intros Hcur Hc. unfold save. case_decide; [by intros [= <-]|].
  destruct (m !! doc_channel d) as [s|] eqn:Hs; [|done].
  case_decide; [|done]. intros [= <-] c t.
  destruct (decide (doc_channel d = c)) as [<-|Hne].
  - rewrite lookup_insert_eq. intros [= <-]. unfold merge_paths; simpl.
    case_decide; [by apply (Hc (doc_channel d) s)|done].
  - rewrite lookup_insert_ne by done. apply Hc.
Qed.

Lemma counting_fire (h : nat) (st st' : State) :
  fire h st = Some st' → counting st → counting st'.
Proof.
  intros Hfire [Hc Hr]. apply fire_inv in Hfire as (e & He & <- & Hdue & ->).
  change (set_pending _ st) with (fired (hid e) st).
  destruct (cb e) as [c d r|c|c] eqn:Hcb; simpl.
  - destruct (save (assign_reminderCount 0
                      (assign_timerStartTime (Some (clock (fired (hid e) st))) d))
                   (db (fired (hid e) st))) as [m'|] eqn:Hsave.
    + destruct (start_callback_fields c d r _ m' Hsave)
        as (_ & Hd & _ & _ & _ & _ & _ & _ & Htr).
      split.
      * rewrite Hd. by eapply save_counts; [|exact Hc|exact Hsave].
      * rewrite Htr. by apply reminders_numbered_cons.
    + by rewrite (start_callback_aborts c d r _ Hsave).
  - rewrite sendReminder_eq. by apply counting_reminder_out.
  - split; [done|]. simpl. by do 2 (apply reminders_numbered_cons; [done|]).
Qed.

Lemma counting_recover_ticket (alive : list string) (st : State)
    (entry : string * Ticket) :
  counting st → counting (recover_ticket alive st entry).
Proof.
  intros [Hc Hr]. destruct entry as [c t].
  destruct (truthy (timerStartTime t)) as [startTime|] eqn:Ht.
  2:{ unfold recover_ticket. by rewrite Ht. }
  destruct (decide (c ∈ alive)) as [Hal|Hal].
  2:{ unfold recover_ticket. rewrite Ht, bool_decide_eq_false_2 by done.
      split; [|done]. intros c' t'. simpl. rewrite lookup_delete_Some.
      intros [_ H']. by apply (Hc c' t'). }
  destruct (Z.lt_ge_cases (clock st - startTime) STAFF_ALERT_TIME) as [Hel|Hel].
  - rewrite (recover_ticket_rearms alive c t startTime st Ht Hal Hel).
    unfold counting; simpl. destruct (_ <=? 1000); [|done].
    by apply counting_reminder_out.
  - unfold recover_ticket. rewrite Ht, bool_decide_eq_true_2 by done.
    destruct (Z.ltb_spec (clock st - startTime) STAFF_ALERT_TIME); [lia|].
    split; [done|]. simpl. by do 2 (apply reminders_numbered_cons; [done|]).
Qed.

Lemma counting_step (env : Env) (st st' : State) (ev : Z * Event) :
  step env st ev = Some st' → counting st → counting st'.
Proof.
  destruct ev as [τ e]. cbn [step].
  destruct (Z.ltb_spec τ (clock st)); [done|].
  destruct e as [m|i|c|h|announced alive].
  - intros [= <-]. apply (counting_handler (set_clock τ st)).
    + apply messageCreate_counts.
    + apply only_notes_messageCreate.
  - intros [= <-]. apply (counting_handler (set_clock τ st)).
    + apply interactionCreate_counts.
    + apply only_notes_interactionCreate.
  - intros [= <-] [Hc Hr]. split.
    + intros c' t'. unfold channelDelete, findOne. simpl.
      destruct (db st !! c); [|apply Hc].
      destruct (clearAllTimers_frame c (set_clock τ st)) as (_ & Hd & _).
      simpl. rewrite Hd, lookup_delete_Some. intros [_ H']. by apply (Hc c' t').
    + intros c' creator n final τ' Ho.
      destruct (only_notes_channelDelete c (set_clock τ st) _ Ho) as [Hin|[]].
      by apply (Hr c' creator n final τ').
  - intros Hfire Hcount. by apply (counting_fire h (set_clock τ st) st').
  - intros [= <-] Hcount.
    destruct (restart_cases announced alive (set_clock τ st)) as [[_ ->]|[_ ->]];
      [|done].
    unfold clientready. simpl db.
    set (st0 := fresh _).
    assert (H0 : counting st0) by done.
    clearbody st0. revert st0 H0.
    induction (map_to_list (db st)) as [|entry l IH]; intros st0 H0; [done|].
    cbn [foldl]. apply IH. by apply counting_recover_ticket.
Qed.

(** X19: through any events, restarts of the process included, no count
    becomes negative, and every reminder sent has a number from 1 on and is
    the final reminder exactly when its number is 3, when that was so
    before. *)
Theorem reminders_are_numbered (env : Env) (evs : list (Z * Event)) (st st' : State) :
  counting st → run env evs st = Some st' → counting st'.
Proof.
  revert st. induction evs as [|ev evs IH]; intros st Hc Hrun; simpl in Hrun.
  - by simplify_eq.
  - destruct (step env st ev) as [st1|] eqn:Hstep; [|done].
    apply (IH st1); [|done]. by apply (counting_step env st st1 ev).
Qed.

Lemma reminders_are_numbered_witness :
  ∃ st', run env0 ((1000 + hour, ProcessRestart "clientReady" ["chan"]) :: sample_events)
             (persisted "alice" (Some 1000) 0) = Some st'
         ∧ counting st'.
Proof.
  eexists. split; [vm_compute; reflexivity|].
  eapply (reminders_are_numbered env0
            ((1000 + hour, ProcessRestart "clientReady" ["chan"]) :: sample_events)
            (persisted "alice" (Some 1000) 0)).
  - split.
    + intros c t Hdb. simpl in Hdb.
      apply lookup_singleton_Some in Hdb as [_ <-]. simpl. lia.
    + intros c creator n final τ Ho. by apply elem_of_nil in Ho.
  - vm_compute. reflexivity.
Defined.


(** ** Timer objects and records *)

Lemma tracked_fields (st st' : State) :
  timers st' = timers st → (∀ c, is_Some (db st !! c) → is_Some (db st' !! c)) →
  tracked st → tracked st'.
Proof. intros Ht Hd Htr c r. rewrite Ht. intros H. by apply Hd, (Htr c r). Qed.
















(** ** The variant that keeps its tickets in a file *)

Section FileBackedFacts.

Import FileBacked.

Lemma lookup_snapshot (c : string) (st : State) :
  snapshot st !! c = stored <$> get c st.
Proof.
  unfold snapshot, get. rewrite lookup_omap.
  by destruct (tickets st !! c).
Qed.

Lemma same_records_refl (st : State) : same_records st st.
Proof. by repeat split. Qed.

Lemma same_records_trans (st1 st2 st3 : State) :
  same_records st1 st2 → same_records st2 st3 → same_records st1 st3.
Proof.
  intros (Ht & Ho & Hf) (Ht' & Ho' & Hf').
  split; [congruence|]. split; [|congruence]. intros r. by rewrite Ho', Ho.
Qed.

Lemma same_records_snapshot (st st' : State) :
  same_records st st' → snapshot st' = snapshot st.
Proof.
  intros (Ht & Ho & _). unfold snapshot. rewrite Ht.
  apply map_eq. intros c. rewrite !lookup_omap.
  destruct (tickets st !! c) as [r|]; simpl; [apply Ho|done].
Qed.

Lemma synced_same_records (st st' : State) :
  same_records st st' → synced st → synced st'.
Proof.
  intros Hs Hsync. unfold synced.
  rewrite (same_records_snapshot st st' Hs).
  destruct Hs as (_ & _ & ->). done.
Qed.

Lemma same_records_upd_timers (r : nat) (f : Timer → Timer) (st : State) :
  same_records st (upd r (with_timers f) st).
Proof.
  split; [done|]. split; [|done]. intros r'. simpl.
  destruct (decide (r = r')) as [->|Hne].
  - rewrite lookup_alter_eq. by destruct (objs st !! r').
  - by rewrite lookup_alter_ne.
Qed.

Lemma kept_refl (st : State) : kept st st.
Proof. left. apply same_records_refl. Qed.

Lemma kept_same_records {st0 : State} (st st' : State) :
  same_records st st' → kept st0 st → kept st0 st'.
Proof.
  intros Hs [H|H].
  - left. by apply (same_records_trans st0 st st').
  - right. by apply (synced_same_records st st').
Qed.

Lemma kept_upd_timers {st0 : State} (r : nat) (f : Timer → Timer) (st : State) :
  kept st0 st → kept st0 (upd r (with_timers f) st).
Proof. apply kept_same_records, same_records_upd_timers. Qed.

Lemma kept_saveTickets {st0 : State} (st : State) : kept st0 (saveTickets st).
Proof. by right. Qed.

(** What changes only the clock, the armed timers or what was sent. *)
Lemma kept_fields {st0 : State} (st st' : State) :
  tickets st' = tickets st → objs st' = objs st → file st' = file st →
  kept st0 st → kept st0 st'.
Proof.
  intros Ht Ho Hf. apply kept_same_records.
  split; [done|]. split; [|done]. intros r. by rewrite Ho.
Qed.

(** The state after [clearAllTimers], when the ticket is there. *)
Lemma clearAllTimers_found (c : string) (r : nat) (t : Ticket) (st : State) :
  tickets st !! c = Some r → objs st !! r = Some t →
  clearAllTimers c st
  = saveTickets
      (upd r (λ t, mkTicket (creatorId t) empty_timer None 0)
         (set_pending (filter (λ e, hid e ∉ handles t) (pending st)) st)).
Proof.
  intros Hr Ht. unfold clearAllTimers. rewrite Hr, Ht.
  unfold handles, clearInterval, clearTimeout.
  destruct (timer_start (timers t)) as [h1|],
    (timer_repeat (timers t)) as [h2|],
    (timer_staff (timers t)) as [h3|]; simpl;
    rewrite ?list_filter_filter;
    unfold saveTickets, upd, set_objs, set_file, set_pending, snapshot; simpl;
    f_equal; try (apply list_filter_iff; intros e; elem_norm; tauto).
  symmetry. apply filter_all. intros e _. apply not_elem_of_nil.
Qed.

Lemma kept_clearAllTimers {st0 : State} (c : string) (st : State) :
  kept st0 st → kept st0 (clearAllTimers c st).
Proof.
  intros Hs. unfold clearAllTimers.
  destruct (tickets st !! c) as [r|]; [|done].
  destruct (objs st !! r) as [t|]; [|done].
  apply kept_saveTickets.
Qed.

Lemma kept_startTimers {st0 : State} (c : string) (st : State) :
  kept st0 st → kept st0 (startTimers c st).
Proof.
  intros Hs. unfold startTimers.
  destruct (tickets st !! c) as [r|]; [|done].
  unfold setTimeout, arm. apply kept_upd_timers.
  by apply (kept_fields (clearAllTimers c st)); [| | |apply kept_clearAllTimers].
Qed.

Lemma kept_sendReminder {st0 : State} (c : string) (st : State) :
  kept st0 st → kept st0 (sendReminder c st).
Proof.
  intros Hs. unfold sendReminder.
  destruct (tickets st !! c) as [r|]; [|done].
  destruct (objs st !! r) as [t|]; [|done].
  unfold log.
  match goal with
  | |- kept _ (emit _ (emit _ (saveTickets ?s))) =>
      by apply (kept_fields (saveTickets s)); [| | |apply kept_saveTickets]
  end.
Qed.

Lemma kept_emit {st0 : State} (o : Obs) (st : State) :
  kept st0 st → kept st0 (emit o st).
Proof. by apply kept_fields. Qed.

Lemma kept_sendStaffAlert {st0 : State} (c : string) (st : State) :
  kept st0 st → kept st0 (sendStaffAlert c st).
Proof. intros Hs. unfold sendStaffAlert, log. by do 2 apply kept_emit. Qed.

Lemma kept_start_callback {st0 : State} (c : string) (r : nat) (st : State) :
  kept st0 (start_callback c r st).
Proof.
  unfold start_callback, setInterval, setTimeout, arm.
  apply kept_upd_timers.
  eapply kept_fields; [..|apply kept_upd_timers]; [reflexivity..|].
  eapply kept_fields; [..|apply kept_emit, kept_saveTickets]; reflexivity.
Qed.

Lemma kept_run_callback {st0 : State} (k : Callback) (st : State) :
  kept st0 st → kept st0 (run_callback k st).
Proof.
  intros Hs. destruct k as [c r|c|c]; simpl.
  - apply kept_start_callback.
  - by apply kept_sendReminder.
  - by apply kept_sendStaffAlert.
Qed.

Lemma kept_fire {st0 : State} (h : nat) (st st' : State) :
  fire h st = Some st' → kept st0 st → kept st0 st'.
Proof.
  unfold fire. destruct (list_find _ (pending st)) as [[i e]|]; [|done].
  destruct (due e <=? clock st); [|done]. intros [= <-] Hs.
  apply kept_run_callback. by apply (kept_fields st).
Qed.

Lemma kept_messageCreate {st0 : State} (env : Env) (m : Message) (st : State) :
  kept st0 st → kept st0 (messageCreate env m st).
Proof.
  intros Hs. unfold messageCreate.
  destruct (negb (guild m)); [done|].
  destruct (user_bot (author m) && _); [done|].
  destruct (negb _); [done|].
  destruct (tickets st !! channel_id m) as [r|].
  - destruct (objs st !! r) as [t|]; [|done].
    destruct (negb (isStaff env (member m)) && _).
    + destruct (bool_decide _); [apply kept_emit|]; by apply kept_clearAllTimers.
    + destruct (isStaff env (member m)); [|done].
      by apply kept_startTimers, kept_clearAllTimers.
  - destruct (detect_creator env m) as [creator|]; [|done].
    destruct (nonempty creator); [|done].
    apply kept_emit, kept_saveTickets.
Qed.

Lemma kept_interactionCreate {st0 : State} (env : Env) (i : Interaction)
    (st : State) :
  kept st0 st → kept st0 (interactionCreate env i st).
Proof.
  intros Hs. unfold interactionCreate.
  destruct (negb (isCommand i)); [done|].
  destruct (i_member i) as [mm|]; [|done].
  destruct (negb (has_staff_role env mm)); [by apply kept_emit|].
  destruct (String.eqb (commandName i) "timer").
  - destruct (opt_action i) as [action|]; [|done].
    destruct (String.eqb action "stop").
    { unfold timer_stop. destruct (get (i_channel i) st) as [t|];
        [|by apply kept_emit].
      destruct (truthy (timerStartTime t)); [|by apply kept_emit].
      do 2 apply kept_emit. by apply kept_clearAllTimers. }
    destruct (String.eqb action "restart").
    { unfold timer_restart. destruct (tickets st !! i_channel i) as [r|];
        [|by apply kept_emit].
      unfold setInterval, setTimeout, arm. do 2 apply kept_emit.
      apply kept_upd_timers.
      eapply kept_fields; [..|apply kept_upd_timers]; [reflexivity..|].
      eapply kept_fields; [..|apply kept_saveTickets]; reflexivity. }
    destruct (String.eqb action "status"); [|done].
    unfold timer_status. destruct (get (i_channel i) st) as [t|];
      [|by apply kept_emit].
    destruct (truthy (timerStartTime t)); by apply kept_emit.
  - destruct (String.eqb (commandName i) "creator"); [|done].
    destruct (opt_action i) as [action|]; [|done].
    destruct (String.eqb action "check").
    { unfold creator_check. destruct (get (i_channel i) st); by apply kept_emit. }
    destruct (String.eqb action "assign"); [|done].
    unfold creator_assign. destruct (opt_user i) as [u|]; [|by apply kept_emit].
    do 2 apply kept_emit. apply kept_saveTickets.
Qed.

Lemma kept_channelDelete {st0 : State} (c : string) (st : State) :
  kept st0 st → kept st0 (channelDelete c st).
Proof.
  intros Hs. unfold channelDelete. destruct (tickets st !! c); [|done].
  apply kept_saveTickets.
Qed.

(** A start of the process: the listener ends with a save, and without it
    the memory starts empty beside the file of the process before. *)
Lemma file_restart_cases (announced : string) (alive : list string) (st : State) :
  (announced = READY_LISTENER
   ∧ restart announced alive st = clientready alive (reboot st))
  ∨ (announced ≠ READY_LISTENER ∧ restart announced alive st = reboot st).
Proof.
  unfold restart, login.
  destruct (String.eqb_spec announced READY_LISTENER); [by left|by right].
Qed.

Lemma in_step_restart (announced : string) (alive : list string) (st : State) :
  in_step (restart announced alive st).
Proof.
  destruct (file_restart_cases announced alive st) as [[_ ->]|[_ ->]].
  - by right.
  - by left.
Qed.

Lemma kept_in_step (st st' : State) : kept st st' → in_step st → in_step st'.
Proof.
  intros [Hk|Hk] Hs; [|by right]. destruct Hs as [Hs|Hs].
  - left. destruct Hk as (-> & _). done.
  - right. by apply (synced_same_records st st').
Qed.

Lemma in_step_step (env : Env) (st st' : State) (ev : Z * Event) :
  step env st ev = Some st' → in_step st → in_step st'.
Proof.
  destruct ev as [τ e]. cbn [step].
  destruct (Z.ltb_spec τ (clock st)); [done|].
  assert (Hset : kept st (set_clock τ st)).
  { by apply (kept_fields st); [| | |apply kept_refl]. }
  destruct e as [m|i|c|h|announced alive].
  - intros [= <-]. by apply kept_in_step, kept_messageCreate.
  - intros [= <-]. by apply kept_in_step, kept_interactionCreate.
  - intros [= <-]. by apply kept_in_step, kept_channelDelete.
  - intros Hfire. by apply kept_in_step, (kept_fire h (set_clock τ st) st').
  - intros [= <-] _. apply in_step_restart.
Qed.

Lemma in_step_run (env : Env) (evs : list (Z * Event)) :
  ∀ st st', in_step st → run env evs st = Some st' → in_step st'.
Proof.
  induction evs as [|ev evs IH]; intros st st' Hs Hrun; simpl in Hrun.
  - by simplify_eq.
  - destruct (step env st ev) as [st1|] eqn:Hstep; [|done].
    apply (IH st1); [|done]. by apply (in_step_step env st st1 ev).
Qed.

(** X21: in the variant that keeps its tickets in a file, after the start
    of the process and any events, starts included, the file holds exactly
    the tickets of the map, each with its creator, start time and count,
    whenever the map holds a ticket: every handler and every callback that
    changes one of them writes the file before it ends, and a start of the
    process leaves the map empty or ends with a save. *)
Theorem file_in_sync (env : Env) (announced : string) (alive : list string)
    (evs : list (Z * Event)) (st0 st' : State) :
  run env evs (restart announced alive st0) = Some st' →
  tickets st' = ∅ ∨ file st' = Some (snapshot st').
Proof.
  intros Hrun.
  apply (in_step_run env evs (restart announced alive st0) st'); [|done].
  apply in_step_restart.
Qed.

(** X22: in the variant that keeps its tickets in a file, a start of the
    process in which the client announces itself under another name than
    the listener's loads nothing: the map and the ticket objects are
    empty whatever the file holds, no timer is armed, and the file is as
    the process before left it.  The first message that opens a ticket
    then writes a file that holds this ticket alone. *)
Theorem start_loads_nothing (env : Env) (announced : string) (alive : list string)
    (st : State) (message : Message) (creator : string) :
  announced ≠ READY_LISTENER →
  heard env message → detect_creator env message = Some creator →
  nonempty creator = true →
  let st' := restart announced alive st in
  tickets st' = ∅ ∧ objs st' = ∅ ∧ pending st' = [] ∧ file st' = file st
  ∧ file (messageCreate env message st')
    = Some {[ channel_id message := mkStored creator None 0 ]}.
Proof.
  intros Hne (Hg & Hp & Hb) Hd Hn. cbv zeta.
  destruct (file_restart_cases announced alive st) as [[? _]|[_ ->]]; [done|].
  do 4 (split; [done|]).
  unfold messageCreate. rewrite Hg, Hp, String.eqb_refl. simpl negb.
  replace (user_bot (author message)
           && negb (String.eqb (user_id (author message)) (TICKET_TOOL_BOT_ID env)))
    with false.
  2:{ destruct Hb as [->| ->]; [done|]. by rewrite String.eqb_refl, andb_false_r. }
  cbn [reboot tickets]. rewrite lookup_empty, Hd, Hn.
  unfold log, new_ticket, saveTickets, snapshot. simpl. f_equal.
  rewrite !insert_empty. apply omap_singleton_Some.
  by rewrite lookup_singleton_eq.
Qed.

Lemma get_upd (c : string) (r : nat) (f : Ticket → Ticket) (st : State) :
  tickets st !! c = Some r →
  get c (upd r f st) = f <$> get c st.
Proof.
  intros Hr. unfold get, upd; simpl. rewrite Hr. simpl.
  by rewrite lookup_alter_eq.
Qed.

(** [clearAllTimers] of a ticket that is cleared and saved changes nothing. *)
Lemma clearAllTimers_idle (c : string) (r : nat) (t : Ticket) (st : State) :
  tickets st !! c = Some r → objs st !! r = Some (cleared t) → synced st →
  clearAllTimers c st = st.
Proof.
  intros Hr Ht Hs. rewrite (clearAllTimers_found c r (cleared t) st Hr Ht).
  assert (Ha : alter (λ t0, mkTicket (creatorId t0) empty_timer None 0) r (objs st)
               = objs st).
  { apply map_eq. intros r'. destruct (decide (r = r')) as [<-|Hne].
    - by rewrite lookup_alter_eq, Ht.
    - by rewrite lookup_alter_ne. }
  unfold synced, snapshot in Hs.
  unfold saveTickets, upd, set_file, set_objs, set_pending, snapshot.
  destruct st as [clk tk ob nr fl pd nh tr]; simpl in *.
  rewrite Ha. f_equal; [done|].
  apply filter_all. intros e _. apply not_elem_of_nil.
Qed.

(** What [clearAllTimers] leaves of a ticket that is there. *)
Lemma clearAllTimers_effect (c : string) (r : nat) (t : Ticket) (st : State) :
  tickets st !! c = Some r → objs st !! r = Some t →
  let st' := clearAllTimers c st in
  get c st' = Some (cleared t)
  ∧ pending st' = filter (λ e, hid e ∉ handles t) (pending st)
  ∧ (∃ data, file st' = Some data ∧ data !! c = Some (mkStored (creatorId t) None 0))
  ∧ tickets st' = tickets st
  ∧ clearAllTimers c st' = st'.
Proof.
  intros Hr Ht. cbv zeta. rewrite (clearAllTimers_found c r t st Hr Ht).
  set (st1 := upd r _ _).
  assert (Hg : get c st1 = Some (cleared t)).
  { unfold st1. rewrite get_upd by done. unfold get; simpl. by rewrite Hr; simpl; rewrite Ht. }
  split; [done|]. split; [done|]. split.
  { eexists. split; [reflexivity|]. rewrite lookup_snapshot.
    change (get c (upd r _ _)) with (get c st1). by rewrite Hg. }
  split; [done|].
  apply clearAllTimers_idle with (r := r) (t := t).
  - done.
  - simpl. by rewrite lookup_alter_eq, Ht.
  - reflexivity.
Qed.

(** X23: in the variant that keeps its tickets in a file, [clearAllTimers]
    of a tracked ticket clears the handles that the ticket object holds,
    empties its timers, and resets its start time and count, in the object
    and in the file; the map and the other ticket objects stay, and
    [clearAllTimers] once more changes nothing. *)
Theorem clearAllTimers_resets (c : string) (r : nat) (t : Ticket) (st : State) :
  tickets st !! c = Some r → objs st !! r = Some t →
  let st' := clearAllTimers c st in
  get c st' = Some (cleared t)
  ∧ pending st' = filter (λ e, hid e ∉ handles t) (pending st)
  ∧ (∃ data, file st' = Some data ∧ data !! c = Some (mkStored (creatorId t) None 0))
  ∧ tickets st' = tickets st
  ∧ (∀ r', r' ≠ r → objs st' !! r' = objs st !! r')
  ∧ clearAllTimers c st' = st'.
Proof.
  intros Hr Ht.
  destruct (clearAllTimers_effect c r t st Hr Ht) as (Hg & Hp & Hf & Htk & Hid).
  cbv zeta. repeat (split; [done|]). split; [|done].
  intros r' Hne. rewrite (clearAllTimers_found c r t st Hr Ht). simpl.
  by rewrite lookup_alter_ne.
Qed.

(** X24: in the variant that keeps its tickets in a file, a staff message
    that the bot hears in a tracked ticket resets the start time and the
    count at once, in the ticket object and in the file, before the
    pre-delay is over; the handles that the object held are cleared, and
    the timeout of the pre-delay is armed and held by the object. *)
Theorem staff_message_resets (env : Env) (m : Message) (r : nat) (t : Ticket)
    (st : State) :
  heard env m → isStaff env (member m) = true →
  tickets st !! channel_id m = Some r → objs st !! r = Some t →
  let c := channel_id m in
  let st' := messageCreate env m st in
  get c st' = Some (mkTicket (creatorId t) (mkTimer (Some (next_hid st)) None None) None 0)
  ∧ (∃ data, file st' = Some data ∧ data !! c = Some (mkStored (creatorId t) None 0))
  ∧ pending st'
    = filter (λ e, hid e ∉ handles t) (pending st)
      ++ [mkSched (next_hid st) (clock st + START_DELAY) None (CbStart c r)].
Proof.
  intros (Hg & Hp & Hb) Hs Hr Ht. cbv zeta. unfold messageCreate.
  rewrite Hg; simpl.
  replace (user_bot (author m)
           && negb (user_id (author m) =? TICKET_TOOL_BOT_ID env)%string)
    with false.
  2:{ destruct Hb as [->| ->]; [done|]. rewrite String.eqb_refl. by rewrite andb_false_r. }
  rewrite Hp, String.eqb_refl; simpl. rewrite Hr, Ht, Hs. simpl.
  destruct (clearAllTimers_effect (channel_id m) r t st Hr Ht)
    as (Hg1 & Hp1 & (data & Hf1 & Hd1) & Ht1 & Hid).
  set (st1 := clearAllTimers (channel_id m) st) in *.
  assert (Hc1 : clock st1 = clock st ∧ next_hid st1 = next_hid st).
  { unfold st1. by rewrite (clearAllTimers_found _ r t st Hr Ht). }
  destruct Hc1 as [Hc1 Hn1].
  unfold startTimers. rewrite Ht1, Hr, Hid.
  unfold setTimeout, arm. rewrite Hc1, Hn1, Hp1.
  split.
  { rewrite get_upd by (simpl; by rewrite Ht1).
    change (get (channel_id m) (mkState _ _ _ _ _ _ _ _)) with (get (channel_id m) st1).
    by rewrite Hg1. }
  split; [by exists data|].
  simpl. by rewrite timer_delay_id by (unfold START_DELAY, TIMEOUT_MAX; lia).
Qed.

Lemma file_in_sync_witness :
  ∃ st', run env0 (take 5 sample_events) booted = Some st'
         ∧ (tickets st' = ∅ ∨ file st' = Some (snapshot st')).
Proof.
  eexists. split; [vm_compute; reflexivity|].
  apply (file_in_sync env0 "clientReady" ["chan"] (take 5 sample_events)
           (set_clock (1000 + hour) persisted)).
  vm_compute. reflexivity.
Defined.

Lemma start_loads_nothing_witness :
  let st := set_clock (1000 + hour) persisted in
  let st' := restart "clientReady" ["chan"] st in
  tickets st' = ∅ ∧ objs st' = ∅ ∧ pending st' = [] ∧ file st' = file st
  ∧ file (messageCreate env0 (says alice plain_member) st')
    = Some {[ "chan" := mkStored "alice" None 0 ]}.
Proof.
  intros st.
  apply (start_loads_nothing env0 "clientReady" ["chan"] st
           (says alice plain_member) "alice").
  - discriminate.
  - split; [reflexivity|]. split; [reflexivity|]. by left.
  - reflexivity.
  - reflexivity.
Defined.

Lemma clearAllTimers_resets_witness :
  let t := mkTicket "alice" (mkTimer (Some 0%nat) (Some 1%nat) (Some 2%nat))
                    (Some (1000 + 3 * hour + START_DELAY)) 1 in
  let st' := clearAllTimers "chan" active in
  get "chan" st' = Some (cleared t)
  ∧ pending st' = filter (λ e, hid e ∉ handles t) (pending active)
  ∧ (∃ data, file st' = Some data ∧ data !! "chan" = Some (mkStored (creatorId t) None 0))
  ∧ tickets st' = tickets active
  ∧ (∀ r', r' ≠ 0%nat → objs st' !! r' = objs active !! r')
  ∧ clearAllTimers "chan" st' = st'.
Proof.
  intros t.
  apply (clearAllTimers_resets "chan" 0%nat t active); reflexivity.
Defined.

Lemma staff_message_resets_witness :
  let t := mkTicket "alice" (mkTimer (Some 0%nat) (Some 1%nat) (Some 2%nat))
                    (Some (1000 + 3 * hour + START_DELAY)) 1 in
  let m := says bob staff_member in
  let st' := messageCreate env0 m active in
  get "chan" st'
  = Some (mkTicket (creatorId t) (mkTimer (Some (next_hid active)) None None) None 0)
  ∧ (∃ data, file st' = Some data ∧ data !! "chan" = Some (mkStored (creatorId t) None 0))
  ∧ pending st'
    = filter (λ e, hid e ∉ handles t) (pending active)
      ++ [mkSched (next_hid active) (clock active + START_DELAY) None
                  (CbStart "chan" 0%nat)].
Proof.
  intros t m.
  apply (staff_message_resets env0 m 0%nat t active).
  - split; [reflexivity|]. split; [reflexivity|]. by left.
  - reflexivity.
  - reflexivity.
  - reflexivity.
Defined.

End FileBackedFacts.

Section FileBackedRecovery.

Import FileBacked.

(** X25: in the variant that keeps its tickets in a file, the round of
    recovery for a ticket whose next reminder is more than a second away
    arms a timeout for that reminder which the ticket object does not hold:
    the object holds the interval and the staff alert.  [clearAllTimers]
    resets the ticket and leaves that timeout armed, and the reminder it
    sends then leaves the ticket with a count of 1 and no start time. *)
Theorem recovery_reminder_not_held (alive : list string) (c : string) (r : nat)
    (t : Ticket) (T : Z) (st : State) :
  tickets st !! c = Some r → objs st !! r = Some t →
  timers t = empty_timer →
  truthy (timerStartTime t) = Some T → c ∈ alive →
  clock st - T < STAFF_ALERT_TIME →
  1000 < REMINDER_INTERVAL - Z.rem (clock st - T) REMINDER_INTERVAL →
  let h := next_hid st in
  let next := mkSched (S h)
                (clock st + timer_delay (REMINDER_INTERVAL
                                         - Z.rem (clock st - T) REMINDER_INTERVAL))
                None (CbReminder c) in
  let st1 := recover_ticket alive st (c, r) in
  let st2 := clearAllTimers c st1 in
  get c st1 = Some (mkTicket (creatorId t) (mkTimer None (Some h) (Some (S (S h))))
                             (timerStartTime t) (reminderCount t))
  ∧ next ∈ pending st1
  ∧ get c st2 = Some (cleared t)
  ∧ next ∈ pending st2
  ∧ get c (sendReminder c st2) = Some (mkTicket (creatorId t) empty_timer None 1).
Proof.
  intros Hr Ht Hempty HT Hal Hel Hfar. cbv zeta.
  set (ttn := REMINDER_INTERVAL - Z.rem (clock st - T) REMINDER_INTERVAL) in *.
  set (t1 := mkTicket (creatorId t)
               (mkTimer None (Some (next_hid st)) (Some (S (S (next_hid st)))))
               (timerStartTime t) (reminderCount t)).
  assert (Hrec : ∃ st1, recover_ticket alive st (c, r) = st1
                        ∧ tickets st1 = tickets st
                        ∧ objs st1 = <[r := t1]> (objs st)
                        ∧ pending st1
                          = pending st
                            ++ [mkSched (next_hid st) (clock st + REMINDER_INTERVAL)
                                        (Some REMINDER_INTERVAL) (CbReminder c);
                                mkSched (S (next_hid st)) (clock st + timer_delay ttn)
                                        None (CbReminder c);
                                mkSched (S (S (next_hid st)))
                                        (clock st + timer_delay (STAFF_ALERT_TIME
                                                                 - (clock st - T)))
                                        None (CbStaffAlert c)]).
  { eexists. split; [reflexivity|]. unfold recover_ticket. rewrite Ht, HT.
    rewrite bool_decide_eq_true_2 by done.
    destruct (Z.ltb_spec (clock st - T) STAFF_ALERT_TIME); [|lia].
    fold ttn. destruct (Z.leb_spec ttn 1000); [lia|].
    unfold setInterval, setTimeout, arm, upd; simpl.
    split; [done|]. split.
    - apply map_eq. intros r'. destruct (decide (r = r')) as [<-|Hne].
      + rewrite lookup_alter_eq, lookup_alter_eq, Ht, lookup_insert_eq. simpl.
        unfold with_timers, with_staff, with_repeat; simpl. by rewrite Hempty.
      + by rewrite !lookup_alter_ne, lookup_insert_ne.
    - by rewrite <- !app_assoc. }
  destruct Hrec as (st1 & -> & Htk1 & Ho1 & Hp1).
  assert (Hr1 : tickets st1 !! c = Some r) by by rewrite Htk1.
  assert (Hobj1 : objs st1 !! r = Some t1) by by rewrite Ho1, lookup_insert_eq.
  assert (Hin1 : mkSched (S (next_hid st)) (clock st + timer_delay ttn) None
                         (CbReminder c) ∈ pending st1).
  { rewrite Hp1, elem_of_app. right. right. left. }
  destruct (clearAllTimers_effect c r t1 st1 Hr1 Hobj1)
    as (Hg2 & Hp2 & _ & Htk2 & _).
  split; [by unfold get; rewrite Hr1; simpl|]. split; [done|].
  split; [done|]. split.
  - rewrite Hp2. apply list_elem_of_filter. split; [|done].
    unfold handles, t1; simpl. rewrite !not_elem_of_cons. 
    repeat split; try lia. apply not_elem_of_nil.
  - set (st2 := clearAllTimers c st1) in *.
    assert (Hr2 : tickets st2 !! c = Some r) by by rewrite Htk2.
    unfold get in Hg2. rewrite Hr2 in Hg2. simpl in Hg2.
    unfold sendReminder. rewrite Hr2, Hg2.
    unfold get. simpl. rewrite Hr2. simpl. by rewrite lookup_alter_eq, Hg2.
Qed.

Lemma recovery_reminder_not_held_witness :
  let st := loadTickets (reboot (set_clock (1000 + hour) persisted)) in
  let t := mkTicket "alice" empty_timer (Some 1000) 2 in
  let next := mkSched 1 (1000 + 6 * hour) None (CbReminder "chan") in
  let st1 := recover_ticket ["chan"] st ("chan", 0%nat) in
  let st2 := clearAllTimers "chan" st1 in
  get "chan" st1 = Some (mkTicket "alice" (mkTimer None (Some 0%nat) (Some 2%nat))
                                  (Some 1000) 2)
  ∧ next ∈ pending st1
  ∧ get "chan" st2 = Some (cleared t)
  ∧ next ∈ pending st2
  ∧ get "chan" (sendReminder "chan" st2) = Some (mkTicket "alice" empty_timer None 1).
Proof.
  intros st t.
  apply (recovery_reminder_not_held ["chan"] "chan" 0%nat t 1000 st).
  - reflexivity.
  - reflexivity.
  - reflexivity.
  - reflexivity.
  - left.
  - vm_compute. reflexivity.
  - vm_compute. reflexivity.
Defined.

End FileBackedRecovery.


(** ** The first version *)

(** X26: the handler of the first version leaves the state as it is for
    every message: it compares the parent of the channel, a string or
    [null], with a number by [!==], which is true of any two values of
    different types, so it returns before it looks at the author's role and
    never arms a timer. *)
Theorem first_version_ignores_messages (message : FirstVersion.Message)
    (st : FirstVersion.State) :
  FirstVersion.messageCreate message st = st.
Proof.
  unfold FirstVersion.messageCreate.
  destruct (negb (FirstVersion.guild message) || FirstVersion.author_bot message);
    [done|].
  unfold FirstVersion.parent. by destruct (FirstVersion.parentId message).
Qed.
